(** * Hermes: field classification, value resolution and fill orchestration

    A shallow embedding of the parts of [hermes/field_mapping.py],
    [hermes/config.py] and [hermes/form_filler.py] that decide how a form
    control is classified, which value it receives, when an unanswered
    question is queued in the profile, and how conditionally appearing
    fields are reconciled.

    Text is modelled as [string] (sequences of ASCII characters); the
    Python string methods used by the source ([lower], [strip], [split],
    [in], [startswith], [isdigit]) and the fragment of [re] syntax used by
    the pattern tables are defined below.  Everything the browser decides
    (what is visible, which click raises) is a field of the [Browser]
    record, so that the theorems hold for every page behaviour. *)

From Stdlib Require Import List String Ascii Bool Arith ZArith QArith Lia.
From Stdlib Require Import DecimalString.
Import ListNotations.

Local Close Scope Q_scope.
Local Open Scope string_scope.
Local Open Scope list_scope.

Set Implicit Arguments.

(* ================================================================== *)
(** * Python string operations *)
(* ================================================================== *)

Module PyStr.

Definition code (c : ascii) : nat := nat_of_ascii c.

Definition between (lo hi : nat) (c : ascii) : bool :=
  Nat.leb lo (code c) && Nat.leb (code c) hi.

Definition is_upper (c : ascii) : bool := between 65 90 c.
Definition is_lower (c : ascii) : bool := between 97 122 c.
Definition is_digit (c : ascii) : bool := between 48 57 c.

(** [str.isspace] on one character: tab, LF, VT, FF, CR, the four
    separators 0x1c-0x1f and the blank. *)
Definition is_space (c : ascii) : bool :=
  between 9 13 c || between 28 31 c || Nat.eqb (code c) 32.

(** The class [\w] of [re]: letters, digits and the underscore. *)
Definition is_word (c : ascii) : bool :=
  is_upper c || is_lower c || is_digit c || Nat.eqb (code c) 95.

Definition lower_char (c : ascii) : ascii :=
  if is_upper c then ascii_of_nat (code c + 32) else c.

(** [s.lower()] *)
Fixpoint lower (s : string) : string :=
  match s with
  | EmptyString => EmptyString
  | String c s' => String (lower_char c) (lower s')
  end.

(** [s.startswith(p)] *)
Fixpoint startswith (s p : string) : bool :=
  match p, s with
  | EmptyString, _ => true
  | String _ _, EmptyString => false
  | String a p', String b s' => Ascii.eqb a b && startswith s' p'
  end.

(** [needle in hay] *)
Fixpoint str_in (needle hay : string) : bool :=
  startswith hay needle ||
  match hay with
  | EmptyString => false
  | String _ hay' => str_in needle hay'
  end.

Fixpoint lstrip (s : string) : string :=
  match s with
  | EmptyString => EmptyString
  | String c s' => if is_space c then lstrip s' else s
  end.

(** Drops the trailing blanks: a character is kept when it is not a blank
    or when something is kept after it. *)
Fixpoint rstrip (s : string) : string :=
  match s with
  | EmptyString => EmptyString
  | String c s' =>
      match rstrip s' with
      | EmptyString => if is_space c then EmptyString else String c EmptyString
      | r => String c r
      end
  end.

(** [s.strip()] *)
Definition strip (s : string) : string := rstrip (lstrip s).

(** [s.split()]: the maximal runs of non-blank characters.  [cur] is the
    run being read. *)
Fixpoint split_ws_aux (cur : string) (s : string) : list string :=
  match s with
  | EmptyString => match cur with EmptyString => [] | _ => [cur] end
  | String c s' =>
      if is_space c
      then match cur with
           | EmptyString => split_ws_aux EmptyString s'
           | _ => cur :: split_ws_aux EmptyString s'
           end
      else split_ws_aux (cur ++ String c EmptyString)%string s'
  end.

Definition split_ws (s : string) : list string := split_ws_aux EmptyString s.

(** [sep.join(parts)] *)
Fixpoint join (sep : string) (parts : list string) : string :=
  match parts with
  | [] => EmptyString
  | [p] => p
  | p :: rest => (p ++ sep ++ join sep rest)%string
  end.

(** Keeps the characters that satisfy [keep]. *)
Fixpoint filter_chars (keep : ascii -> bool) (s : string) : string :=
  match s with
  | EmptyString => EmptyString
  | String c s' =>
      if keep c then String c (filter_chars keep s') else filter_chars keep s'
  end.

Fixpoint forall_chars (p : ascii -> bool) (s : string) : bool :=
  match s with
  | EmptyString => true
  | String c s' => p c && forall_chars p s'
  end.

Fixpoint exists_chars (p : ascii -> bool) (s : string) : bool :=
  match s with
  | EmptyString => false
  | String c s' => p c || exists_chars p s'
  end.

(** [s.isdigit()]: non-empty and made of digits. *)
Definition isdigit (s : string) : bool :=
  match s with
  | EmptyString => false
  | _ => forall_chars is_digit s
  end.

(** Truthiness of a string: [bool(s)]. *)
Definition truthy (s : string) : bool :=
  match s with EmptyString => false | _ => true end.

(** [any(kw in text for kw in kws)] *)
Definition any_in (kws : list string) (text : string) : bool :=
  existsb (fun kw => str_in kw text) kws.

End PyStr.

(* ================================================================== *)
(** * The fragment of [re] used by the pattern tables *)
(* ================================================================== *)

Module Re.

Inductive regex : Type :=
| Eps : regex
| Chr : ascii -> regex
| AnyChar : regex                (* [.]  : any character but LF *)
| Digit : regex                  (* [\d] *)
| Space : regex                  (* [\s] *)
| Word : regex                   (* [\w] *)
| WordB : regex                  (* [\b] *)
| Bol : regex                    (* [^]  *)
| Eol : regex                    (* [$]  *)
| Seq : regex -> regex -> regex
| Alt : regex -> regex -> regex
| Star : regex -> regex.

(** ** Reading a pattern *)

Definition escape (c : ascii) : regex :=
  match c with
  | "d"%char => Digit
  | "s"%char => Space
  | "w"%char => Word
  | "b"%char => WordB
  | _ => Chr c
  end.

Fixpoint repeat_re (r : regex) (n : nat) : regex :=
  match n with
  | O => Eps
  | S n' => Seq r (repeat_re r n')
  end.

(** Reads the decimal count of a [{n}] quantifier up to the brace. *)
Fixpoint read_count (acc : nat) (s : list ascii) : option (nat * list ascii) :=
  match s with
  | [] => None
  | c :: s' =>
      if Ascii.eqb c "}"%char then Some (acc, s')
      else if PyStr.is_digit c
           then read_count (10 * acc + (nat_of_ascii c - 48)) s'
           else None
  end.

(** An optional quantifier after the atom [a]. *)
Definition quantified (a : regex) (s : list ascii) : option (regex * list ascii) :=
  match s with
  | "*"%char :: s' => Some (Star a, s')
  | "+"%char :: s' => Some (Seq a (Star a), s')
  | "?"%char :: s' => Some (Alt a Eps, s')
  | "{"%char :: s' =>
      match read_count 0 s' with
      | Some (n, s'') => Some (repeat_re a n, s'')
      | None => None
      end
  | _ => Some (a, s)
  end.

Fixpoint parse_alt (fuel : nat) (s : list ascii) {struct fuel}
  : option (regex * list ascii) :=
  match fuel with
  | O => None
  | S f =>
      match parse_seq f s with
      | Some (r, "|"%char :: s') =>
          match parse_alt f s' with
          | Some (r2, s'') => Some (Alt r r2, s'')
          | None => None
          end
      | other => other
      end
  end
with parse_seq (fuel : nat) (s : list ascii) {struct fuel}
  : option (regex * list ascii) :=
  match fuel with
  | O => None
  | S f =>
      match s with
      | [] => Some (Eps, [])
      | "|"%char :: _ => Some (Eps, s)
      | ")"%char :: _ => Some (Eps, s)
      | _ =>
          match parse_atom f s with
          | Some (a, s1) =>
              match quantified a s1 with
              | Some (a', s2) =>
                  match parse_seq f s2 with
                  | Some (r, s3) => Some (Seq a' r, s3)
                  | None => None
                  end
              | None => None
              end
          | None => None
          end
      end
  end
with parse_atom (fuel : nat) (s : list ascii) {struct fuel}
  : option (regex * list ascii) :=
  match fuel with
  | O => None
  | S f =>
      match s with
      | [] => None
      | "("%char :: s1 =>
          match parse_alt f s1 with
          | Some (r, ")"%char :: s2) => Some (r, s2)
          | _ => None
          end
      | "\"%char :: c :: s1 => Some (escape c, s1)
      | "\"%char :: [] => None
      | "."%char :: s1 => Some (AnyChar, s1)
      | "^"%char :: s1 => Some (Bol, s1)
      | "$"%char :: s1 => Some (Eol, s1)
      | "*"%char :: _ => None
      | "+"%char :: _ => None
      | "?"%char :: _ => None
      | c :: s1 => Some (Chr c, s1)
      end
  end.

(** [re.compile(p)]: [None] stands for [re.error]. *)
Definition compile (p : string) : option regex :=
  let s := list_ascii_of_string p in
  match parse_alt (3 * List.length s + 3) s with
  | Some (r, []) => Some r
  | _ => None
  end.

(** ** Matching *)

Definition is_word_opt (c : option ascii) : bool :=
  match c with Some a => PyStr.is_word a | None => false end.

(** [matches r prev s k]: [r] matches a prefix of [s] and [k] accepts what
    is left.  [prev] is the character before [s] in the subject ([None] at
    position 0).  A [Star] iterates only over matches that consume a
    character. *)
Fixpoint matches (r : regex) (prev : option ascii) (s : list ascii)
         (k : option ascii -> list ascii -> bool) {struct r} : bool :=
  match r with
  | Eps => k prev s
  | Chr c =>
      match s with
      | a :: s' => Ascii.eqb a c && k (Some a) s'
      | [] => false
      end
  | AnyChar =>
      match s with
      | a :: s' => negb (Ascii.eqb a "010"%char) && k (Some a) s'
      | [] => false
      end
  | Digit =>
      match s with
      | a :: s' => PyStr.is_digit a && k (Some a) s'
      | [] => false
      end
  | Space =>
      match s with
      | a :: s' => PyStr.is_space a && k (Some a) s'
      | [] => false
      end
  | Word =>
      match s with
      | a :: s' => PyStr.is_word a && k (Some a) s'
      | [] => false
      end
  | WordB => xorb (is_word_opt prev) (is_word_opt (hd_error s)) && k prev s
  | Bol => match prev with None => k prev s | Some _ => false end
  | Eol =>
      match s with
      | [] => k prev s
      | [a] => Ascii.eqb a "010"%char && k prev s
      | _ => false
      end
  | Seq r1 r2 => matches r1 prev s (fun b s' => matches r2 b s' k)
  | Alt r1 r2 => matches r1 prev s k || matches r2 prev s k
  | Star r1 =>
      (fix iter (fuel : nat) (b : option ascii) (t : list ascii)
           {struct fuel} : bool :=
         k b t ||
         match fuel with
         | O => false
         | S fuel' =>
             matches r1 b t
               (fun b' t' =>
                  Nat.ltb (List.length t') (List.length t) && iter fuel' b' t')
         end) (List.length s) prev s
  end.

(** Tries every start position from the one after [prev] on. *)
Fixpoint search_from (r : regex) (prev : option ascii) (s : list ascii) : bool :=
  matches r prev s (fun _ _ => true) ||
  match s with
  | [] => false
  | a :: s' => search_from r (Some a) s'
  end.

(** [bool(re.search(p, s))] *)
Definition search (p : string) (s : string) : bool :=
  match compile p with
  | Some r => search_from r None (list_ascii_of_string s)
  | None => false
  end.

(** The pattern that [re.escape(v)] denotes: [v] itself, literally. *)
Fixpoint literal (v : list ascii) : regex :=
  match v with
  | [] => Eps
  | c :: v' => Seq (Chr c) (literal v')
  end.

(** [bool(re.search(rf'\b{re.escape(v)}\b', s))] *)
Definition search_word (v s : string) : bool :=
  search_from (Seq WordB (Seq (literal (list_ascii_of_string v)) WordB))
              None (list_ascii_of_string s).

End Re.

(* ================================================================== *)
(** * field_mapping.py *)
(* ================================================================== *)

(** [class FieldType(Enum)] *)
Inductive FieldType : Type :=
| FIRST_NAME | LAST_NAME | FULL_NAME | EMAIL | PHONE
| LINKEDIN | GITHUB | PORTFOLIO | WEBSITE
| ADDRESS | CITY | STATE | ZIP_CODE | COUNTRY | WILLING_TO_RELOCATE
| AUTHORIZED_TO_WORK | REQUIRE_SPONSORSHIP | VISA_STATUS
| YEARS_OF_EXPERIENCE | CURRENT_COMPANY | CURRENT_TITLE
| HIGHEST_DEGREE | FIELD_OF_STUDY | UNIVERSITY | GRADUATION_YEAR
| RESUME | COVER_LETTER
| EXPECTED_SALARY | SALARY_RANGE_MIN | SALARY_RANGE_MAX
| START_DATE | AVAILABLE_IMMEDIATELY
| GENDER | ETHNICITY | RACE | HISPANIC_LATINO | VETERAN_STATUS
| DISABILITY_STATUS
| HOW_DID_YOU_HEAR | REFERRAL | CUSTOM_QUESTION | UNKNOWN.

Scheme Equality for FieldType.

(** [field_type.value] *)
Definition value_of (t : FieldType) : string :=
  match t with
  | FIRST_NAME => "first_name" | LAST_NAME => "last_name"
  | FULL_NAME => "full_name" | EMAIL => "email" | PHONE => "phone"
  | LINKEDIN => "linkedin" | GITHUB => "github"
  | PORTFOLIO => "portfolio" | WEBSITE => "website"
  | ADDRESS => "address" | CITY => "city" | STATE => "state"
  | ZIP_CODE => "zip_code" | COUNTRY => "country"
  | WILLING_TO_RELOCATE => "willing_to_relocate"
  | AUTHORIZED_TO_WORK => "authorized_to_work"
  | REQUIRE_SPONSORSHIP => "require_sponsorship"
  | VISA_STATUS => "visa_status"
  | YEARS_OF_EXPERIENCE => "years_of_experience"
  | CURRENT_COMPANY => "current_company"
  | CURRENT_TITLE => "current_title"
  | HIGHEST_DEGREE => "highest_degree"
  | FIELD_OF_STUDY => "field_of_study"
  | UNIVERSITY => "university"
  | GRADUATION_YEAR => "graduation_year"
  | RESUME => "resume" | COVER_LETTER => "cover_letter"
  | EXPECTED_SALARY => "expected_salary"
  | SALARY_RANGE_MIN => "salary_range_min"
  | SALARY_RANGE_MAX => "salary_range_max"
  | START_DATE => "start_date"
  | AVAILABLE_IMMEDIATELY => "available_immediately"
  | GENDER => "gender" | ETHNICITY => "ethnicity" | RACE => "race"
  | HISPANIC_LATINO => "hispanic_latino"
  | VETERAN_STATUS => "veteran_status"
  | DISABILITY_STATUS => "disability_status"
  | HOW_DID_YOU_HEAR => "how_did_you_hear" | REFERRAL => "referral"
  | CUSTOM_QUESTION => "custom_question" | UNKNOWN => "unknown"
  end.

(** [t in s] for a set of field types written as a list. *)
Definition type_in (t : FieldType) (s : list FieldType) : bool :=
  existsb (FieldType_beq t) s.

Definition HIGH_RISK_FIELDS : list FieldType :=
  [ AUTHORIZED_TO_WORK; REQUIRE_SPONSORSHIP; VISA_STATUS;
    GENDER; ETHNICITY; RACE; HISPANIC_LATINO; VETERAN_STATUS;
    DISABILITY_STATUS;
    EXPECTED_SALARY; SALARY_RANGE_MIN; SALARY_RANGE_MAX ].

Definition EEO_FIELD_TYPES : list FieldType :=
  [ GENDER; ETHNICITY; RACE; HISPANIC_LATINO; VETERAN_STATUS;
    DISABILITY_STATUS ].

Definition EEO_KEYWORDS : list string :=
  [ "race"; "ethnicity"; "gender"; "sex"; "disability"; "veteran";
    "eeo"; "equal employment"; "hispanic"; "latino"; "eeoc";
    "voluntary self-identification"; "demographic" ].

Definition EEO_DECLINE_OPTIONS : list string :=
  [ "i do not wish to disclose";
    "decline to answer";
    "prefer not to say";
    "decline to self-identify";
    "i don't wish to answer";
    "choose not to disclose";
    "decline";
    "prefer not to answer";
    "i choose not to disclose" ].

Definition is_eeo_field (field_type : FieldType) : bool :=
  type_in field_type EEO_FIELD_TYPES.

Definition is_eeo_keyword_in_text (text : string) : bool :=
  let text_lower := PyStr.lower text in
  PyStr.any_in EEO_KEYWORDS text_lower.

Definition is_high_risk_field (field_type : FieldType) : bool :=
  type_in field_type HIGH_RISK_FIELDS.

Record FieldPattern : Type := mkFieldPattern {
  pat_field_type : FieldType;
  label_patterns : list string;
  name_patterns : list string;
  placeholder_patterns : list string
}.

Definition FIELD_PATTERNS : list FieldPattern :=
  [ mkFieldPattern FIRST_NAME
      ["first\s*name"; "given\s*name"; "^name$"]
      ["first_?name"; "fname"; "given_?name"]
      ["first\s*name"; "john"];
    mkFieldPattern LAST_NAME
      ["last\s*name"; "family\s*name"; "surname"]
      ["last_?name"; "lname"; "surname"; "family_?name"]
      ["last\s*name"; "doe"];
    mkFieldPattern FULL_NAME
      ["full\s*name"; "^name$"; "your\s*name"]
      ["full_?name"; "^name$"]
      ["full\s*name"; "john doe"];
    mkFieldPattern EMAIL
      ["e-?mail"; "email\s*address"]
      ["e-?mail"; "email_?address"]
      ["e-?mail"; "@"; "example\.com"];
    mkFieldPattern PHONE
      ["phone"; "telephone"; "mobile"; "cell"]
      ["phone"; "tel"; "mobile"; "cell"]
      ["phone"; "\(\d{3}\)"; "\+1"];
    mkFieldPattern LINKEDIN
      ["linkedin"; "linked\s*in"]
      ["linkedin"]
      ["linkedin\.com"; "linkedin"];
    mkFieldPattern GITHUB
      ["github"]
      ["github"]
      ["github\.com"; "github"];
    mkFieldPattern PORTFOLIO
      ["portfolio"; "personal\s*website"; "website"]
      ["portfolio"; "website"; "url"]
      ["https?://"; "\.com"];
    mkFieldPattern ADDRESS
      ["street\s*address"; "^address$"; "address\s*line"]
      ["address"; "street"]
      ["street"; "address"];
    mkFieldPattern CITY
      ["^city$"; "location.*city"; "city.*location"]
      ["^city$"; "location.*city"]
      ["city"; "san francisco"];
    mkFieldPattern STATE
      ["^state$"; "province"]
      ["^state$"; "province"]
      ["state"; "^ca$"; "california"];
    mkFieldPattern ZIP_CODE
      ["zip"; "postal\s*code"]
      ["zip"; "postal"]
      ["zip"; "\d{5}"];
    mkFieldPattern COUNTRY
      ["^country$"]
      ["^country$"]
      ["country"; "united states"];
    mkFieldPattern AUTHORIZED_TO_WORK
      ["authorized\s*to\s*work"; "legally\s*(authorized|eligible)"]
      ["authorized"; "work_auth"]
      [];
    mkFieldPattern REQUIRE_SPONSORSHIP
      ["sponsorship"; "require.*visa"; "need.*sponsorship"]
      ["sponsor"; "visa"]
      [];
    mkFieldPattern VISA_STATUS
      ["visa\s*status"; "immigration\s*status"; "work\s*status"]
      ["visa"; "immigration"]
      [];
    mkFieldPattern YEARS_OF_EXPERIENCE
      ["years?\s*(of)?\s*experience"; "experience\s*\(years\)"]
      ["experience"; "years"]
      ["\d+\s*years?"];
    mkFieldPattern CURRENT_COMPANY
      ["current\s*(company|employer)"; "employer"; "^company\s*name"; "company$"]
      ["company"; "employer"; "organization"]
      ["company"; "employer"];
    mkFieldPattern CURRENT_TITLE
      ["current\s*(title|position|role)"; "job\s*title"; "^title\*?$"; "position"]
      ["title"; "position"; "role"; "job_title"]
      ["title"; "position"];
    mkFieldPattern HIGHEST_DEGREE
      ["(highest\s*)?degree"; "education\s*level"; "^degree\*?$"]
      ["degree"; "education"; "edu_degree"]
      ["degree"; "bachelor"; "master"];
    mkFieldPattern UNIVERSITY
      ["university"; "school"; "institution"; "college"; "^school\*?$"]
      ["university"; "school"; "college"; "institution"; "edu_school"]
      ["school"; "university"];
    mkFieldPattern RESUME
      ["resume"; "cv"; "curriculum\s*vitae"; "^attach$"; "attach.*resume"; "upload.*resume"]
      ["resume"; "cv"; "data_compliance\[resume"; "resume_file"]
      [];
    mkFieldPattern COVER_LETTER
      ["cover\s*letter"]
      ["cover"; "letter"; "cover_letter"]
      [];
    mkFieldPattern EXPECTED_SALARY
      ["(expected|desired)\s*salary"; "salary\s*expectation"]
      ["salary"]
      [];
    mkFieldPattern START_DATE
      ["start\s*date"; "(available|availability)\s*date"; "when.*start"]
      ["start"; "available"]
      [];
    mkFieldPattern GENDER
      ["^gender:?$"; "gender\s*identity"; "^gender\s*:"]
      ["gender"]
      [];
    mkFieldPattern HISPANIC_LATINO
      ["hispanic.*latino"; "latino.*hispanic"; "are you hispanic"]
      ["hispanic"; "latino"]
      [];
    mkFieldPattern RACE
      ["^race$"; "^race:"]
      ["^race$"]
      [];
    mkFieldPattern ETHNICITY
      ["ethnicity"; "ethnic"]
      ["ethnicity"; "ethnic"]
      [];
    mkFieldPattern VETERAN_STATUS
      ["veteran"; "military"]
      ["veteran"; "military"]
      [];
    mkFieldPattern DISABILITY_STATUS
      ["disability"; "disabled"]
      ["disability"]
      [];
    mkFieldPattern HOW_DID_YOU_HEAR
      ["how\s*did\s*you\s*(hear|find)"; "source"; "referral\s*source"]
      ["source"; "hear"; "referral"]
      [] ].

(* ================================================================== *)
(** * form_filler.py: classification *)
(* ================================================================== *)

(** The confidences are the literals 0.0, 0.7, 0.8 and 0.9 of the source,
    kept as exact fractions; they are only compared and passed to [max]. *)
Definition conf_none : Q := (0 # 1)%Q.
Definition conf_label : Q := (9 # 10)%Q.
Definition conf_name : Q := (8 # 10)%Q.
Definition conf_placeholder : Q := (7 # 10)%Q.

(** [a < b] on confidences *)
Definition conf_lt (a b : Q) : bool := negb (Qle_bool b a).

(** [max(a, b)]: the first argument unless the second is larger. *)
Definition py_max (a b : Q) : Q := if conf_lt a b then b else a.

(** The three [for ... if re.search(...): score = max(...); break] loops:
    a loop contributes once when some pattern of its list matches. *)
Definition label_hit (pattern : FieldPattern) (label : string) : bool :=
  existsb (fun p => Re.search p (PyStr.lower label)) (label_patterns pattern).

Definition name_hit (pattern : FieldPattern) (name id_attr : string) : bool :=
  existsb (fun p => Re.search p (PyStr.lower name)
                    || Re.search p (PyStr.lower id_attr))
          (name_patterns pattern).

Definition placeholder_hit (pattern : FieldPattern) (placeholder : string) : bool :=
  existsb (fun p => Re.search p (PyStr.lower placeholder))
          (placeholder_patterns pattern).

(** The body of the loop over the patterns, up to the comparison with the
    best match so far. *)
Definition pattern_score (pattern : FieldPattern)
           (label name id_attr placeholder : string) : Q :=
  let score := conf_none in
  let score := if label_hit pattern label then py_max score conf_label else score in
  let score := if name_hit pattern name id_attr then py_max score conf_name else score in
  let score := if placeholder_hit pattern placeholder
               then py_max score conf_placeholder else score in
  score.

Definition match_step (label name id_attr placeholder : string)
           (best_match : FieldType * Q) (pattern : FieldPattern) : FieldType * Q :=
  let score := pattern_score pattern label name id_attr placeholder in
  if conf_lt (snd best_match) score
  then (pat_field_type pattern, score)
  else best_match.

(** The loop of [_match_field_type] over an arbitrary pattern table. *)
Definition match_field_type_in (patterns : list FieldPattern)
           (label name id_attr placeholder : string) : FieldType * Q :=
  fold_left (match_step label name id_attr placeholder) patterns
            (UNKNOWN, conf_none).

(** [FormFiller._match_field_type].  [aria_label] only enters the unused
    local [combined]. *)
Definition _match_field_type
           (label name id_attr placeholder aria_label : string) : FieldType * Q :=
  match_field_type_in FIELD_PATTERNS label name id_attr placeholder.

(** Some pattern of the table fires on one of the inputs. *)
Definition any_hit (pattern : FieldPattern)
           (label name id_attr placeholder : string) : bool :=
  label_hit pattern label || name_hit pattern name id_attr
  || placeholder_hit pattern placeholder.

(* ================================================================== *)
(** * config.py *)
(* ================================================================== *)

Record Personal : Type := mkPersonal {
  first_name : string; last_name : string; full_name : string;
  email : string; phone : string;
  linkedin : string; github : string; portfolio : string
}.

Record Location : Type := mkLocation {
  address : string; city : string; state : string; zip_code : string;
  country : string; willing_to_relocate : bool
}.

Record WorkAuthorization : Type := mkWorkAuthorization {
  authorized_to_work : bool; require_sponsorship : bool; visa_status : string
}.

Record Experience : Type := mkExperience {
  years_of_experience : Z; current_company : string; current_title : string
}.

Record Education : Type := mkEducation {
  highest_degree : string; field_of_study : string; university : string;
  graduation_year : Z
}.

Record Salary : Type := mkSalary {
  expected_salary : string; salary_range_min : string;
  salary_range_max : string; currency : string
}.

Record Availability : Type := mkAvailability {
  start_date : string; available_immediately : bool
}.

Record Diversity : Type := mkDiversity {
  gender : string; race : string; ethnicity : string;
  hispanic_latino : string; veteran_status : string;
  disability_status : string
}.

(** [Resume.get_absolute_path()] reads the file system: its outcome is
    the field [resume_absolute_path]. *)
Record Resume : Type := mkResume {
  resume_path : string;
  resume_absolute_path : option string
}.

Record Profile : Type := mkProfile {
  personal : Personal;
  location : Location;
  work_authorization : WorkAuthorization;
  experience : Experience;
  education : Education;
  resume : Resume;
  salary : Salary;
  availability : Availability;
  diversity : Diversity;
  default_answers : list (string * string)
}.

(** [str(n)] for an [int] *)
Definition str_of_int (n : Z) : string := NilZero.string_of_int (Z.to_int n).

Definition yes_no (b : bool) : string := if b then "Yes" else "No".

(** [a or b] on strings *)
Definition str_or (a b : string) : string := if PyStr.truthy a then a else b.

(** [d.get(key)] on a dict written as an association list *)
Fixpoint dict_get {A : Type} (d : list (string * A)) (key : string) : option A :=
  match d with
  | [] => None
  | (k, v) :: d' => if String.eqb k key then Some v else dict_get d' key
  end.

(** The dict literal of [Profile.get_field_value]. *)
Definition field_map (self : Profile) : list (string * string) :=
  [ ("first_name", first_name (personal self));
    ("last_name", last_name (personal self));
    ("full_name", full_name (personal self));
    ("email", email (personal self));
    ("phone", phone (personal self));
    ("linkedin", linkedin (personal self));
    ("github", github (personal self));
    ("portfolio", portfolio (personal self));
    ("address", address (location self));
    ("city", city (location self));
    ("state", state (location self));
    ("zip_code", zip_code (location self));
    ("country", country (location self));
    ("willing_to_relocate", yes_no (willing_to_relocate (location self)));
    ("authorized_to_work", yes_no (authorized_to_work (work_authorization self)));
    ("require_sponsorship", yes_no (require_sponsorship (work_authorization self)));
    ("visa_status", visa_status (work_authorization self));
    ("years_of_experience", str_of_int (years_of_experience (experience self)));
    ("current_company", current_company (experience self));
    ("current_title", current_title (experience self));
    ("highest_degree", highest_degree (education self));
    ("field_of_study", field_of_study (education self));
    ("university", university (education self));
    ("graduation_year", str_of_int (graduation_year (education self)));
    ("expected_salary", expected_salary (salary self));
    ("salary_range_min", salary_range_min (salary self));
    ("salary_range_max", salary_range_max (salary self));
    ("start_date", start_date (availability self));
    ("available_immediately", yes_no (available_immediately (availability self)));
    ("gender", gender (diversity self));
    ("race", race (diversity self));
    ("ethnicity", str_or (ethnicity (diversity self)) (race (diversity self)));
    ("hispanic_latino", hispanic_latino (diversity self));
    ("veteran_status", veteran_status (diversity self));
    ("disability_status", disability_status (diversity self)) ].

Definition get_field_value (self : Profile) (field_type : string) : option string :=
  dict_get (field_map self) field_type.

(** ** Custom answers *)

Record CustomAnswer : Type := mkCustomAnswer {
  ca_question : string;
  ca_answer : string;
  ca_options : list string;
  ca_keywords : list string
}.

Record PendingQuestion : Type := mkPendingQuestion {
  pq_question : string;
  pq_options : list string;
  pq_answer : string;
  pq_encountered_at : string;
  pq_job : string
}.

(** [_normalize_question]: lower-case, drop what is neither [\w] nor
    [\s], collapse the blanks. *)
Definition _normalize_question (text : string) : string :=
  let text := PyStr.lower text in
  let text := PyStr.filter_chars (fun c => PyStr.is_word c || PyStr.is_space c) text in
  let text := PyStr.join " " (PyStr.split_ws text) in
  text.

Definition important_patterns : list string :=
  [ "non-compete"; "noncompete"; "non-solicitation";
    "worked for"; "worked at"; "ever worked"; "previously worked";
    "currently work"; "employed by"; "employment";
    "authorized"; "sponsorship"; "visa";
    "relocate"; "remote"; "hybrid"; "onsite";
    "salary"; "compensation"; "pay";
    "start date"; "available"; "notice period";
    "clearance"; "security"; "background check";
    "disability"; "veteran"; "gender"; "race"; "ethnicity";
    "referred"; "hear about"; "how did you find";
    "years of experience"; "experience with" ].

Definition _extract_keywords (text : string) : list string :=
  let text_lower := PyStr.lower text in
  filter (fun pattern => PyStr.str_in pattern text_lower) important_patterns.

(** [set(l)] as a duplicate-free list, and [a & b]. *)
Definition py_set (l : list string) : list string := nodup string_dec l.

Definition str_mem (x : string) (l : list string) : bool :=
  existsb (String.eqb x) l.

Definition set_inter (a b : list string) : list string :=
  filter (fun x => str_mem x b) a.

Definition nonempty {A : Type} (l : list A) : bool :=
  match l with [] => false | _ => true end.

(** The generator under [any(...)] in [find_custom_answer]. *)
Definition option_match (answer : string) (options : list string) : bool :=
  let answer_lower := PyStr.lower answer in
  existsb (fun opt => PyStr.str_in answer_lower (PyStr.lower opt)
                      || PyStr.startswith (PyStr.lower opt) answer_lower)
          options.

(** The body of the [for ca in answered] loop after the exact-match test:
    the score of one stored answer. *)
Definition ca_score (question_normalized : string) (question_keywords : list string)
           (options : list string) (ca : CustomAnswer) : Z :=
  let score := 0%Z in
  let ca_normalized := _normalize_question (ca_question ca) in
  let score :=
    if PyStr.str_in ca_normalized question_normalized
       || PyStr.str_in question_normalized ca_normalized
    then (score + 50)%Z else score in
  let ca_keywords :=
    if nonempty (ca_keywords ca) then py_set (ca_keywords ca)
    else py_set (_extract_keywords (ca_question ca)) in
  let score :=
    if nonempty question_keywords && nonempty ca_keywords
    then let overlap := set_inter question_keywords ca_keywords in
         if nonempty overlap
         then (score + Z.of_nat (List.length overlap) * 20)%Z
         else score
    else score in
  let score :=
    if nonempty options && PyStr.truthy (ca_answer ca)
    then if option_match (ca_answer ca) options
         then (score + 10)%Z else (score - 20)%Z
    else score in
  score.

(** The loop of [find_custom_answer] with its two locals [best_match] and
    [best_score]; an exact match returns at once. *)
Fixpoint find_loop (question_normalized : string) (question_keywords : list string)
         (options : list string) (answered : list CustomAnswer)
         (best_match : option string) (best_score : Z) : option string :=
  match answered with
  | [] => if (30 <=? best_score)%Z then best_match else None
  | ca :: rest =>
      let ca_normalized := _normalize_question (ca_question ca) in
      if String.eqb question_normalized ca_normalized
      then Some (ca_answer ca)
      else
        let score := ca_score question_normalized question_keywords options ca in
        if (best_score <? score)%Z
        then find_loop question_normalized question_keywords options rest
                       (Some (ca_answer ca)) score
        else find_loop question_normalized question_keywords options rest
                       best_match best_score
  end.

Definition find_custom_answer (question : string) (options : list string)
           (answered : list CustomAnswer) : option string :=
  match answered with
  | [] => None
  | _ =>
      let question_normalized := _normalize_question question in
      let question_keywords := py_set (_extract_keywords question) in
      find_loop question_normalized question_keywords options answered None 0%Z
  end.

(** ** The profile file *)

(** An entry of [custom_answers.answered] or [custom_answers.pending] in
    [profile.yaml]: a mapping in which every key may be absent. *)
Record Item : Type := mkItem {
  item_question : option string;
  item_answer : option string;
  item_options : option (list string);
  item_keywords : option (list string);
  item_encountered_at : option string;
  item_job : option string
}.

Record CustomData : Type := mkCustomData {
  cd_answered : option (list Item);
  cd_pending : option (list Item)
}.

(** The parsed document: the [custom_answers] section and everything
    else, which the functions below never touch. *)
Record ProfileData : Type := mkProfileData {
  custom_answers : option CustomData;
  other_sections : string
}.

(** The file system as seen through [profile_path]: the document ([None]
    when the path does not exist), whether reading or writing raises, and
    what a failed write leaves behind. *)
Record Disk : Type := mkDisk {
  profile_file : option ProfileData;
  load_raises : bool;
  dump_raises : bool;
  after_failed_dump : option ProfileData
}.

Definition set_profile_file (d : Disk) (f : option ProfileData) : Disk :=
  mkDisk f (load_raises d) (dump_raises d) (after_failed_dump d).

(** [x.get(key, default)] *)
Definition get_or {A : Type} (x : option A) (default : A) : A :=
  match x with Some a => a | None => default end.

(** [load_custom_answers] *)
Definition load_custom_answers (d : Disk)
  : list CustomAnswer * list PendingQuestion :=
  match profile_file d with
  | None => ([], [])
  | Some data =>
      if load_raises d then ([], [])
      else
        let custom_data := get_or (custom_answers data) (mkCustomData None None) in
        let answered :=
          flat_map
            (fun item =>
               if PyStr.truthy (get_or (item_question item) "")
                  && PyStr.truthy (get_or (item_answer item) "")
               then [ mkCustomAnswer
                        (get_or (item_question item) "")
                        (get_or (item_answer item) "")
                        (get_or (item_options item) [])
                        (get_or (item_keywords item)
                                (_extract_keywords (get_or (item_question item) ""))) ]
               else [])
            (get_or (cd_answered custom_data) []) in
        let pending :=
          flat_map
            (fun item =>
               if PyStr.truthy (get_or (item_question item) "")
               then [ mkPendingQuestion
                        (get_or (item_question item) "")
                        (get_or (item_options item) [])
                        (get_or (item_answer item) "")
                        (get_or (item_encountered_at item) "")
                        (get_or (item_job item) "") ]
               else [])
            (get_or (cd_pending custom_data) []) in
        (answered, pending)
  end.

(** The two [for item in ...: if _normalize_question(...) == q: return
    False] loops. *)
Definition already_listed (question_normalized : string) (items : list Item) : bool :=
  existsb (fun item =>
             String.eqb (_normalize_question (get_or (item_question item) ""))
                        question_normalized)
          items.

(** The entry appended by [save_pending_question]. *)
Definition new_pending (question : string) (options : list string)
           (job_info now : string) : Item :=
  mkItem (Some question) (Some "")
         (if nonempty options then Some options else None)
         None (Some now) (Some job_info).

(** [save_pending_question]: the returned flag and the file system
    afterwards.  [now] is [datetime.now().strftime(...)]. *)
Definition save_pending_question (d : Disk) (question : string)
           (options : list string) (job_info now : string) : bool * Disk :=
  match profile_file d with
  | None => (false, d)
  | Some data =>
      if load_raises d then (false, d)
      else
        let custom_data := get_or (custom_answers data) (mkCustomData (Some []) (Some [])) in
        let answered := get_or (cd_answered custom_data) [] in
        let pending := get_or (cd_pending custom_data) [] in
        let question_normalized := _normalize_question question in
        if already_listed question_normalized answered then (false, d)
        else if already_listed question_normalized pending then (false, d)
        else
          let pending' := pending ++ [new_pending question options job_info now] in
          let data' := mkProfileData
                         (Some (mkCustomData (Some answered) (Some pending')))
                         (other_sections data) in
          if dump_raises d
          then (false, set_profile_file d (after_failed_dump d))
          else (true, set_profile_file d (Some data'))
  end.


(* ================================================================== *)
(** * form_filler.py: data and value resolution *)
(* ================================================================== *)

(** An [ElementHandle] is a name for a node of the page. *)
Definition ElementHandle : Type := nat.

Record FormField : Type := mkFormField {
  element : ElementHandle;
  field_type : FieldType;
  label : string;
  name : string;
  input_type : string;
  options : list string;
  current_value : string;
  is_required : bool;
  confidence : Q;
  selector : string
}.

Record FilledField : Type := mkFilledField {
  field : FormField;
  filled_value : string;
  success : bool;
  is_high_risk : bool
}.

(** [field.element = element] *)
Definition set_element (f : FormField) (e : ElementHandle) : FormField :=
  mkFormField e (field_type f) (label f) (name f) (input_type f) (options f)
              (current_value f) (is_required f) (confidence f) (selector f).

(** The attributes of a [FormFiller] that a run only reads.  The
    generative backend is a function of the field ([None] when there is
    no helper or it is not available); [now] is the formatted clock. *)
Record FormFiller : Type := mkFormFiller {
  profile : Profile;
  job_info : string;
  llm_helper : option (FormField -> option string);
  _custom_answers : list CustomAnswer;
  now : string
}.

(** [FormFiller._check_custom_answer] *)
Definition _check_custom_answer (self : FormFiller) (f : FormField) : option string :=
  if negb (nonempty (_custom_answers self)) then None
  else
    let options := if nonempty (options f) then options f else [] in
    find_custom_answer (label f) options (_custom_answers self).

(** Truthiness of an [Optional[str]]. *)
Definition truthy_opt (v : option string) : bool :=
  match v with Some s => PyStr.truthy s | None => false end.

Definition visa_values : list string :=
  [ "h1b"; "h-1b"; "opt"; "f1"; "f-1"; "green card"; "l1"; "l-1"; "tn";
    "o1"; "o-1" ].

Definition visa_label_keywords : list string :=
  [ "visa"; "immigration"; "sponsorship"; "authorization"; "work status" ].

Definition eeo_label_keywords : list string :=
  [ "disability"; "veteran"; "gender"; "race"; "ethnicity"; "hispanic";
    "do not want to answer"; "decline"; "prefer not"; "self-identify" ].

Definition salary_keywords : list string :=
  [ "salary"; "compensation"; "pay"; "wage" ].

Definition visa_field_types : list FieldType :=
  [ VISA_STATUS; AUTHORIZED_TO_WORK; REQUIRE_SPONSORSHIP ].

Definition salary_field_types : list FieldType :=
  [ EXPECTED_SALARY; SALARY_RANGE_MIN; SALARY_RANGE_MAX ].

(** [any(v in value_lower for v in visa_values)] *)
Definition is_visa_value (value : string) : bool :=
  existsb (fun v => PyStr.str_in v (PyStr.lower value)) visa_values.

(** The first guard of [_get_value_for_field]: a visa token outside a
    visa field (or on an EEO label) whose label has no visa keyword. *)
Definition visa_conflict (f : FormField) (value : string) : bool :=
  let label_lower := PyStr.lower (label f) in
  let is_visa_field := type_in (field_type f) visa_field_types in
  let is_visa_label := PyStr.any_in visa_label_keywords label_lower in
  let is_eeo_label := PyStr.any_in eeo_label_keywords label_lower in
  is_visa_value value && (negb is_visa_field || is_eeo_label)
  && negb is_visa_label.

(** [int(s)] for a string of decimal digits *)
Fixpoint int_of_digits (acc : Z) (s : string) : Z :=
  match s with
  | EmptyString => acc
  | String c s' => int_of_digits (10 * acc + Z.of_nat (PyStr.code c - 48)) s'
  end.

(** [value.replace(",", "").replace("$", "")] *)
Definition clean_val (value : string) : string :=
  PyStr.filter_chars
    (fun c => negb (Ascii.eqb c ","%char) && negb (Ascii.eqb c "$"%char)) value.

(** The second guard: a salary-shaped number outside a salary field whose
    label has no compensation keyword. *)
Definition salary_conflict (f : FormField) (value : string) : bool :=
  let label_lower := PyStr.lower (label f) in
  negb (type_in (field_type f) salary_field_types)
  && (PyStr.exists_chars PyStr.is_digit value
      && (PyStr.str_in "," value || Nat.ltb 5 (String.length value)))
  && negb (PyStr.any_in salary_keywords label_lower)
  && (PyStr.isdigit (clean_val value)
      && (10000 <? int_of_digits 0 (clean_val value))%Z).

(** Steps 1 and 2 of the resolver: the profile value, unless a guard
    discards it. *)
Definition profile_value (self : FormFiller) (f : FormField) : option string :=
  let value := get_field_value (profile self) (value_of (field_type f)) in
  match value with
  | Some v =>
      if PyStr.truthy v
      then if visa_conflict f v then None
           else if salary_conflict f v then None
           else Some v
      else value
  | None => None
  end.

Definition skip_llm_types : list FieldType :=
  [ FIRST_NAME; LAST_NAME; EMAIL; PHONE; ADDRESS; ZIP_CODE;
    LINKEDIN; GITHUB; PORTFOLIO; WEBSITE; RESUME; COVER_LETTER ].

(** The last resort of the resolver. *)
Definition llm_fallback (self : FormFiller) (f : FormField) : string :=
  match llm_helper self with
  | Some answer_form_field =>
      if negb (type_in (field_type f) skip_llm_types)
      then match answer_form_field f with
           | Some llm_answer => if PyStr.truthy llm_answer then llm_answer else ""
           | None => ""
           end
      else ""
  | None => ""
  end.

(** The file-input branch; it counts the unlabelled file inputs in
    [_file_input_count]. *)
Definition file_value (self : FormFiller) (f : FormField) (count : nat)
  : string * nat :=
  let label_lower := PyStr.lower (label f) in
  let name_lower := PyStr.lower (name f) in
  let is_cover_letter :=
    PyStr.str_in "cover" label_lower || PyStr.str_in "letter" label_lower
    || PyStr.str_in "cover" name_lower || PyStr.str_in "letter" name_lower in
  let is_resume :=
    PyStr.str_in "resume" label_lower || PyStr.str_in "cv" label_lower
    || PyStr.str_in "resume" name_lower || PyStr.str_in "cv" name_lower in
  let resume_path := resume_absolute_path (resume (profile self)) in
  if is_cover_letter
  then match get_field_value (profile self) "cover_letter" with
       | Some cover_letter_path =>
           if PyStr.truthy cover_letter_path then (cover_letter_path, count)
           else ("", count)
       | None => ("", count)
       end
  else
    match (if is_resume then resume_path else None) with
    | Some p => (p, count)
    | None =>
        let count := S count in
        if Nat.eqb count 1
        then match resume_path with
             | Some p => (p, count)
             | None => ("", count)
             end
        else ("", count)
    end.

(** What the resolver does once the profile gave nothing: the fixed
    default, the custom answers, the file branch, the generative
    fallback. *)
Definition resolve_without_profile (self : FormFiller) (f : FormField)
           (count : nat) : string * nat :=
  if FieldType_beq (field_type f) HOW_DID_YOU_HEAR
  then (get_or (dict_get (default_answers (profile self)) "how_did_you_hear") "",
        count)
  else
    match _check_custom_answer self f with
    | Some custom_answer =>
        if PyStr.truthy custom_answer then (custom_answer, count)
        else if String.eqb (input_type f) "file" then file_value self f count
             else (llm_fallback self f, count)
    | None =>
        if String.eqb (input_type f) "file" then file_value self f count
        else (llm_fallback self f, count)
    end.

(** [FormFiller._get_value_for_field]: the value and the new
    [_file_input_count]; the empty string is "no value". *)
Definition _get_value_for_field (self : FormFiller) (f : FormField)
           (count : nat) : string * nat :=
  match profile_value self f with
  | Some value =>
      if PyStr.truthy value then (value, count)
      else resolve_without_profile self f count
  | None => resolve_without_profile self f count
  end.

(** ** Queueing an unanswered question *)

Definition standard_fields : list FieldType :=
  [ FIRST_NAME; LAST_NAME; FULL_NAME;
    EMAIL; PHONE; ADDRESS;
    CITY; STATE; ZIP_CODE; COUNTRY;
    LINKEDIN; GITHUB; PORTFOLIO; WEBSITE;
    RESUME; COVER_LETTER;
    CURRENT_COMPANY; CURRENT_TITLE;
    UNIVERSITY; HIGHEST_DEGREE; FIELD_OF_STUDY;
    YEARS_OF_EXPERIENCE; GRADUATION_YEAR;
    EXPECTED_SALARY; SALARY_RANGE_MIN; SALARY_RANGE_MAX;
    START_DATE; AVAILABLE_IMMEDIATELY;
    AUTHORIZED_TO_WORK; REQUIRE_SPONSORSHIP; VISA_STATUS;
    WILLING_TO_RELOCATE; HOW_DID_YOU_HEAR ].

(** [FormFiller._save_unanswered_question(field, options)]; [None] is the
    default of [options]. *)
Definition _save_unanswered_question (self : FormFiller) (f : FormField)
           (options_arg : option (list string)) (d : Disk) : Disk :=
  if is_eeo_field (field_type f) then d
  else if type_in (field_type f) standard_fields then d
  else
    let opts := match options_arg with
                | Some o => if nonempty o then o else options f
                | None => options f
                end in
    snd (save_pending_question d (label f) opts (job_info self) (now self)).


(* ================================================================== *)
(** * form_filler.py: the page and the fill strategies *)
(* ================================================================== *)

(** The result of an awaited call: a value, or an exception. *)
Inductive outcome (A : Type) : Type :=
| Returned : A -> outcome A
| Raised : outcome A.

Arguments Returned {A} _.
Arguments Raised {A}.

(** What a form control looks like before classification: the label found
    by [_get_field_label], the attributes read by [_analyze_field], and the
    locator built by [_build_selector]. *)
Record RawField : Type := mkRawField {
  raw_element : ElementHandle;
  raw_label : string;
  raw_name : string;
  raw_id : string;
  raw_placeholder : string;
  raw_aria_label : string;
  raw_input_type : string;
  raw_options : list string;
  raw_current_value : string;
  raw_is_required : bool;
  raw_selector : string
}.

(** The page.  [World] is its state; every call of the source that only
    talks to Playwright is a transition of that state.  The methods of
    [FormFiller] listed in the second half are those whose body is page
    interaction only; they are taken as they behave, not re-implemented. *)
Record Browser (World : Type) : Type := mkBrowser {
  el_is_visible : ElementHandle -> World -> outcome bool * World;
  el_focus : ElementHandle -> World -> outcome unit * World;
  el_click : ElementHandle -> World -> outcome unit * World;
  el_fill : ElementHandle -> string -> World -> outcome unit * World;
  el_press : ElementHandle -> string -> World -> outcome unit * World;
  el_input_value : ElementHandle -> World -> outcome string * World;
  el_inner_text : ElementHandle -> World -> outcome string * World;
  (** [element.select_option(label=opt)] *)
  el_select_option : ElementHandle -> string -> World -> outcome unit * World;
  (** [element.check()] *)
  el_check : ElementHandle -> World -> outcome unit * World;
  (** [element.evaluate] of the script that clicks the element *)
  el_js_click : ElementHandle -> World -> outcome unit * World;
  (** [frame.query_selector_all] for the elements of role [option] *)
  query_role_options : World -> outcome (list ElementHandle) * World;
  (** the radios that share a [name], each with its [value] attribute and
      the label text found for it *)
  radio_group :
    string -> World -> outcome (list (ElementHandle * string * string)) * World;
  (** [frame.query_selector] for a [label] element with the given text *)
  label_with_text : string -> World -> outcome (option ElementHandle) * World;
  (** [asyncio.sleep(seconds)] *)
  sleep : Q -> World -> World;
  _get_active_frame : World -> outcome unit * World;
  (** the visible controls that [_analyze_field] could read *)
  analyze_controls : World -> outcome (list RawField) * World;
  _reacquire_element : FormField -> World -> option ElementHandle * World;
  _find_element_by_label : FormField -> World -> option ElementHandle * World;
  _fill_file : FormField -> string -> World -> outcome bool * World;
  _fill_select : FormField -> string -> World -> outcome bool * World;
  _fill_checkbox : FormField -> string -> World -> outcome bool * World;
  _fill_radio : FormField -> string -> World -> outcome bool * World;
  (** returns the flag and the element it left in [field.element] *)
  _fill_autocomplete_field :
    FormField -> string -> World -> (bool * ElementHandle) * World;
  _fill_phone_fallback : FormField -> string -> World -> bool * World
}.

(** What filling one field can change: the page, the profile file, and the
    counter of unlabelled file inputs. *)
Record FillState (World : Type) : Type := mkFillState {
  page : World;
  disk : Disk;
  _file_input_count : nat
}.

(** ** A state and exception monad *)

Module Fx.

Definition t (S A : Type) : Type := S -> outcome A * S.

Definition ret {S A : Type} (a : A) : t S A := fun s => (Returned a, s).

Definition raise {S A : Type} : t S A := fun s => (Raised, s).

Definition bind {S A B : Type} (m : t S A) (k : A -> t S B) : t S B :=
  fun s => match m s with
           | (Returned a, s') => k a s'
           | (Raised, s') => (Raised, s')
           end.

(** [try: m / except Exception: ...] with the outcome handed to the
    continuation. *)
Definition attempt {S A : Type} (m : t S A) : t S (outcome A) :=
  fun s => let (r, s') := m s in (Returned r, s').

(** [try: m / except Exception: h] *)
Definition try_catch {S A : Type} (m : t S A) (h : t S A) : t S A :=
  fun s => match m s with
           | (Returned a, s') => (Returned a, s')
           | (Raised, s') => h s'
           end.

End Fx.

Declare Scope fx_scope.
Delimit Scope fx_scope with fx.

Notation "x <- m ;; k" := (Fx.bind m (fun x => k))
  (at level 61, m at next level, right associativity) : fx_scope.
Notation "' pat <- m ;; k" := (Fx.bind m (fun x => match x with pat => k end))
  (at level 61, pat pattern, m at next level, right associativity) : fx_scope.
Notation "m ;; k" := (Fx.bind m (fun _ => k))
  (at level 61, right associativity) : fx_scope.

(** The routes of [_fill_by_type]. *)
Inductive Strategy : Type :=
| fill_file | fill_select | fill_eeo_select | fill_checkbox
| fill_radio | fill_eeo_radio | fill_text.

(** The [if / elif] chain of [_fill_by_type]. *)
Definition strategy_for (f : FormField) : Strategy :=
  let is_eeo := is_eeo_field (field_type f) || is_eeo_keyword_in_text (label f) in
  if String.eqb (input_type f) "file" then fill_file
  else if String.eqb (input_type f) "select"
       then if is_eeo then fill_eeo_select else fill_select
  else if String.eqb (input_type f) "checkbox" then fill_checkbox
  else if String.eqb (input_type f) "radio"
       then if is_eeo then fill_eeo_radio else fill_radio
  else fill_text.

(** The scoring chain of [_fill_eeo_text_dropdown] for one visible
    option. *)
Definition option_score (value_lower opt_text : string) : Z :=
  let opt_lower := PyStr.lower opt_text in
  if String.eqb opt_lower value_lower then 100%Z
  else if PyStr.startswith opt_lower value_lower then 80%Z
  else if PyStr.str_in (" " ++ value_lower) (" " ++ opt_lower)
          || PyStr.startswith opt_lower (value_lower ++ ",")
       then 70%Z
  else if String.eqb value_lower "yes" && PyStr.startswith opt_lower "yes" then 75%Z
  else if String.eqb value_lower "no" && PyStr.startswith opt_lower "no" then 75%Z
  else if PyStr.str_in value_lower opt_lower
       then if Re.search_word value_lower opt_lower then 50%Z else 0%Z
  else 0%Z.

(** The loop that keeps the first option with the highest score. *)
Definition best_option (value_lower : string)
           (visible_options : list (ElementHandle * string))
  : option (ElementHandle * string) * Z :=
  fold_left
    (fun best opt =>
       let score := option_score value_lower (snd opt) in
       if (snd best <? score)%Z then (Some opt, score) else best)
    visible_options (None, (-1)%Z).

Definition decline_words : list string :=
  [ "decline"; "prefer not"; "don't wish"; "choose not" ].

Definition custom_dropdown_types : list FieldType :=
  [ AUTHORIZED_TO_WORK; REQUIRE_SPONSORSHIP; HOW_DID_YOU_HEAR ].

Definition custom_dropdown_keywords : list string :=
  [ "authorized"; "sponsorship"; "visa"; "legally";
    "worked for"; "previously worked"; "currently work";
    "how did you hear"; "hear about"; "referral source" ].

Definition is_custom_dropdown (f : FormField) : bool :=
  let is_eeo := is_eeo_field (field_type f) || is_eeo_keyword_in_text (label f) in
  is_eeo
  || type_in (field_type f) custom_dropdown_types
  || PyStr.any_in custom_dropdown_keywords (PyStr.lower (label f)).

Definition autocomplete_fields : list FieldType :=
  [ CITY; STATE; COUNTRY; UNIVERSITY; CURRENT_COMPANY; ADDRESS ].

Definition autocomplete_keywords : list string :=
  [ "location"; "city"; "state"; "school"; "university";
    "college"; "company"; "employer"; "institution" ].

Definition is_autocomplete_candidate (f : FormField) : bool :=
  type_in (field_type f) autocomplete_fields
  || PyStr.any_in autocomplete_keywords (PyStr.lower (label f)).

(** [_analyze_field] after the attributes are read: classification and
    the label fallbacks [label or placeholder or name]. *)
Definition analyze (r : RawField) : FormField :=
  let '(field_type, confidence) :=
    _match_field_type (raw_label r) (raw_name r) (raw_id r)
                      (raw_placeholder r) (raw_aria_label r) in
  mkFormField (raw_element r) field_type
              (str_or (raw_label r) (str_or (raw_placeholder r) (raw_name r)))
              (raw_name r) (raw_input_type r) (raw_options r)
              (raw_current_value r) (raw_is_required r) confidence
              (raw_selector r).

(** ** The EEO variants: candidates of each stage *)

Definition select_placeholders : list string :=
  [ "select"; "select one"; "-- select --"; "choose" ].

(** [opt_lower.startswith(("not ", "non")) or "not " in opt_lower] *)
Definition negative_option (opt_lower : string) : bool :=
  PyStr.startswith opt_lower "not " || PyStr.startswith opt_lower "non"
  || PyStr.str_in "not " opt_lower.

(** Stage 1 of [_fill_eeo_select]: the option equals the value. *)
Definition select_exact (value_lower opt : string) : bool :=
  String.eqb (PyStr.strip (PyStr.lower opt)) value_lower.

(** Stage 2 of [_fill_eeo_select]: the option is the Yes or the No
    equivalent of the value. *)
Definition select_yes_no (label_lower value_lower opt : string) : bool :=
  let opt_lower := PyStr.lower opt in
  if negb (PyStr.truthy opt_lower) || str_mem opt_lower select_placeholders
  then false
  else if String.eqb value_lower "yes"
  then negb (PyStr.any_in ["decline"; "wish"; "prefer not"; "choose not"] opt_lower)
       && negb (negative_option opt_lower)
       && (PyStr.str_in "hispanic" label_lower || PyStr.str_in "latino" label_lower)
       && (PyStr.str_in "hispanic" opt_lower || PyStr.str_in "latino" opt_lower)
  else if String.eqb value_lower "no"
  then negative_option opt_lower
       && negb (PyStr.any_in ["decline"; "wish"; "prefer"] opt_lower)
  else false.

(** Stage 3 of [_fill_eeo_select]: the option contains the value. *)
Definition select_partial (value_lower opt : string) : bool :=
  PyStr.str_in value_lower (PyStr.lower opt).

(** Stage 4: for each decline phrase in order, the options that contain
    it, in the order of the options. *)
Definition decline_candidates {A : Type} (text_of : A -> list string)
           (items : list A) : list A :=
  flat_map
    (fun decline_text =>
       filter (fun item =>
                 existsb (fun text => PyStr.str_in decline_text (PyStr.lower text))
                         (text_of item))
              items)
    EEO_DECLINE_OPTIONS.

(** A member of a radio group: the element, its value and its label. *)
Definition RadioOption : Type := (ElementHandle * string * string)%type.

Definition radio_value (r : RadioOption) : string := snd (fst r).
Definition radio_label (r : RadioOption) : string := snd r.
Definition radio_element (r : RadioOption) : ElementHandle := fst (fst r).

(** Stage 1 of [_select_radio_option] *)
Definition radio_exact (value_lower : string) (r : RadioOption) : bool :=
  String.eqb (PyStr.strip (PyStr.lower (radio_value r))) value_lower
  || String.eqb (PyStr.strip (PyStr.lower (radio_label r))) value_lower.

(** Stage 2 of [_select_radio_option] *)
Definition radio_yes_no (value_lower : string) (r : RadioOption) : bool :=
  let combined := PyStr.lower (radio_value r ++ " " ++ radio_label r) in
  if String.eqb value_lower "yes" && PyStr.any_in ["yes"; "true"; "1"] combined
  then true
  else if String.eqb value_lower "no" && PyStr.any_in ["no"; "false"; "0"] combined
  then negb (PyStr.any_in ["decline"; "wish"; "prefer not"] combined)
  else false.

(** Stage 3 of [_select_radio_option] *)
Definition radio_partial (value_lower : string) (r : RadioOption) : bool :=
  PyStr.str_in value_lower (PyStr.lower (radio_label r))
  || PyStr.str_in value_lower (PyStr.lower (radio_value r)).

(** The [if / elif] chain of [_fill_eeo_radio] that decides whether the
    control itself is the option to pick. *)
Definition should_select (label_lower value_lower : string) : bool :=
  if String.eqb label_lower value_lower then true
  else if String.eqb value_lower "male" && String.eqb label_lower "male" then true
  else if String.eqb value_lower "female" && String.eqb label_lower "female" then true
  else if String.eqb value_lower "asian" && PyStr.str_in "asian" label_lower then true
  else if String.eqb value_lower "no"
          && (PyStr.str_in "not hispanic" label_lower
              || PyStr.startswith label_lower "no")
       then true
  else if String.eqb value_lower "yes"
          && (PyStr.str_in "hispanic" label_lower
              && negb (PyStr.str_in "not" label_lower))
       then true
  else if String.eqb value_lower "no"
          && PyStr.str_in "not a protected veteran" label_lower
       then true
  else if String.eqb value_lower "no"
          && PyStr.str_in "not have a disability" label_lower
       then true
  else if PyStr.any_in ["decline"; "prefer not"; "don't wish"; "do not want"]
                       label_lower
       then PyStr.any_in ["decline"; "prefer not"] value_lower
  else false.

Section Filling.

Variable World : Type.
Variable browser : Browser World.
Variable self : FormFiller.

Local Open Scope fx_scope.

Definition F (A : Type) : Type := Fx.t (FillState World) A.

(** An awaited page call that may raise. *)
Definition on_page {A : Type} (op : World -> outcome A * World) : F A :=
  fun s => let (r, w) := op (page s) in
           (r, mkFillState w (disk s) (_file_input_count s)).

(** A page call that catches everything itself. *)
Definition on_page_total {A : Type} (op : World -> A * World) : F A :=
  fun s => let (r, w) := op (page s) in
           (Returned r, mkFillState w (disk s) (_file_input_count s)).

Definition asleep (seconds : Q) : F unit :=
  fun s => (Returned tt,
            mkFillState (sleep browser seconds (page s)) (disk s)
                        (_file_input_count s)).

Definition on_disk (op : Disk -> Disk) : F unit :=
  fun s => (Returned tt, mkFillState (page s) (op (disk s)) (_file_input_count s)).

(** [_get_value_for_field] as a step of the run. *)
Definition get_value (f : FormField) : F string :=
  fun s => let (value, count) := _get_value_for_field self f (_file_input_count s) in
           (Returned value, mkFillState (page s) (disk s) count).

(** The loop of [_fill_eeo_text_dropdown] that reads the visible
    options; an option whose reading raises is skipped. *)
Fixpoint collect_visible (option_elements : list ElementHandle)
  : F (list (ElementHandle * string)) :=
  match option_elements with
  | [] => Fx.ret []
  | opt :: rest =>
      found <- Fx.try_catch
                 (visible <- on_page (el_is_visible browser opt) ;;
                  if (visible : bool)
                  then text <- on_page (el_inner_text browser opt) ;;
                       if PyStr.truthy text && PyStr.truthy (PyStr.strip text)
                       then Fx.ret [(opt, PyStr.strip text)]
                       else Fx.ret []
                  else Fx.ret [])
                 (Fx.ret []) ;;
      more <- collect_visible rest ;;
      Fx.ret (found ++ more)
  end.

(** [await opt_el.click(); await asyncio.sleep(0.3); return True] under
    its [try]. *)
Definition click_option (opt_el : ElementHandle) : F bool :=
  Fx.try_catch
    (on_page (el_click browser opt_el) ;; asleep (3 # 10) ;; Fx.ret true)
    (Fx.ret false).

(** The decline fallback: the first decline-looking option whose click
    succeeds. *)
Fixpoint click_decline (visible_options : list (ElementHandle * string)) : F bool :=
  match visible_options with
  | [] => Fx.ret false
  | (opt_el, opt_text) :: rest =>
      if PyStr.any_in decline_words (PyStr.lower opt_text)
      then clicked <- click_option opt_el ;;
           if (clicked : bool) then Fx.ret true else click_decline rest
      else click_decline rest
  end.

(** [FormFiller._fill_eeo_text_dropdown]; the field comes back with the
    element the function stored into it. *)
Definition _fill_eeo_text_dropdown (f : FormField) (value : string)
  : F (bool * FormField) :=
  let value_lower := PyStr.strip (PyStr.lower value) in
  if negb (PyStr.truthy value_lower) then Fx.ret (false, f)
  else
    reacquired <- on_page_total (_reacquire_element browser f) ;;
    match reacquired with
    | None => Fx.ret (false, f)
    | Some element =>
        let f := set_element f element in
        success <-
          Fx.try_catch
            (on_page (el_focus browser element) ;;
             asleep (1 # 20) ;;
             on_page (el_click browser element) ;;
             asleep (1 # 2) ;;
             option_elements <- on_page (query_role_options browser) ;;
             visible_options <- collect_visible option_elements ;;
             selected <-
               (if nonempty visible_options
                then
                  let (best_match, best_score) :=
                    best_option value_lower visible_options in
                  clicked <-
                    match best_match with
                    | Some (opt_el, _) =>
                        if (0 <? best_score)%Z then click_option opt_el
                        else Fx.ret false
                    | None => Fx.ret false
                    end ;;
                  if (clicked : bool) then Fx.ret true
                  else click_decline visible_options
                else Fx.ret false) ;;
             if (selected : bool) then Fx.ret true
             else
               on_page (el_press browser element "Escape") ;;
               asleep (1 # 10) ;;
               (if nonempty visible_options
                then on_disk (_save_unanswered_question
                                self f (Some (map snd visible_options)))
                else Fx.ret tt) ;;
               Fx.ret false)
            (Fx.ret false) ;;
        Fx.ret (success, f)
    end.

(** ** The EEO variants *)

(** Runs the attempts in order until one returns [True]. *)
Fixpoint first_success (attempts : list (F bool)) : F bool :=
  match attempts with
  | [] => Fx.ret false
  | a :: rest =>
      ok <- a ;;
      if (ok : bool) then Fx.ret true else first_success rest
  end.

(** [try: await m; return True / except Exception: (go on)] *)
Definition succeeds (m : F unit) : F bool :=
  Fx.try_catch (m ;; Fx.ret true) (Fx.ret false).

Definition select_opt (f : FormField) (opt : string) : F bool :=
  succeeds (on_page (el_select_option browser (element f) opt)).

(** A loop that stops at the first matching option, selected or not
    ([return True] or [break]). *)
Definition select_first (f : FormField) (matching : string -> bool) : F bool :=
  match find matching (options f) with
  | Some opt => select_opt f opt
  | None => Fx.ret false
  end.

(** A loop that goes on to the next matching option when selecting
    raises ([return True] or [continue]). *)
Definition select_any (f : FormField) (candidates : list string) : F bool :=
  first_success (map (select_opt f) candidates).

(** The four stages of [_fill_eeo_select], in the order of the source. *)
Definition eeo_select_stages (f : FormField) (value : string) : list (F bool) :=
  let value_lower := PyStr.strip (PyStr.lower value) in
  let label_lower := PyStr.lower (label f) in
  [ select_first f (select_exact value_lower);
    (if str_mem value_lower ["yes"; "no"]
     then select_any f (filter (select_yes_no label_lower value_lower) (options f))
     else Fx.ret false);
    select_first f (select_partial value_lower);
    select_any f (decline_candidates (fun opt => [opt]) (options f)) ].

(** [FormFiller._fill_eeo_select] *)
Definition _fill_eeo_select (f : FormField) (value : string) : F bool :=
  first_success (eeo_select_stages f value).

Definition js_click (r : RadioOption) : F bool :=
  succeeds (on_page (el_js_click browser (radio_element r))).

(** [try: await radio.check() / except: try: (script click) / except:
    continue] *)
Definition check_or_js_click (r : RadioOption) : F bool :=
  Fx.try_catch
    (on_page (el_check browser (radio_element r)) ;; Fx.ret true)
    (js_click r).

(** The four stages of [_select_radio_option]. *)
Definition radio_stages (radio_options : list RadioOption) (value_lower : string)
  : list (F bool) :=
  [ first_success (map check_or_js_click
                       (filter (radio_exact value_lower) radio_options));
    (if str_mem value_lower ["yes"; "no"]
     then first_success (map js_click
                             (filter (radio_yes_no value_lower) radio_options))
     else Fx.ret false);
    first_success (map js_click
                       (filter (radio_partial value_lower) radio_options));
    first_success
      (map js_click
           (decline_candidates (fun r => [radio_label r; radio_value r])
                               radio_options)) ].

(** [FormFiller._select_radio_option] *)
Definition _select_radio_option (radio_options : list RadioOption)
           (value_lower : string) : F bool :=
  first_success (radio_stages radio_options value_lower).

(** The activation chain of [_fill_eeo_radio] for the control itself:
    [check], [click], script click, click of the label. *)
Definition activate_radio (f : FormField) : F bool :=
  reacquired <- on_page_total (_reacquire_element browser f) ;;
  first_success
    (match reacquired with
     | Some element =>
         [ succeeds (on_page (el_check browser element));
           succeeds (on_page (el_click browser element));
           succeeds (on_page (el_js_click browser element)) ]
     | None => []
     end
     ++ [ Fx.try_catch
            (label_el <- on_page (label_with_text browser (label f)) ;;
             match label_el with
             | Some l => on_page (el_click browser l) ;; Fx.ret true
             | None => Fx.ret false
             end)
            (Fx.ret false) ]).

(** [FormFiller._fill_eeo_radio] *)
Definition _fill_eeo_radio (f : FormField) (value : string) : F bool :=
  let value_lower := PyStr.strip (PyStr.lower value) in
  grouped <-
    (if PyStr.truthy (name f)
     then radios <- on_page (radio_group browser (name f)) ;;
          if nonempty radios then _select_radio_option radios value_lower
          else Fx.ret false
     else Fx.ret false) ;;
  if (grouped : bool) then Fx.ret true
  else
    let label_lower := PyStr.strip (PyStr.lower (label f)) in
    if should_select label_lower value_lower then activate_radio f
    else Fx.ret false.

(** The two places of [_fill_text] that give up: the phone fallback for a
    phone field, [False] otherwise. *)
Definition phone_or_false (f : FormField) (value : string) : F (bool * FormField) :=
  if FieldType_beq (field_type f) PHONE
  then ok <- on_page_total (_fill_phone_fallback browser f value) ;;
       Fx.ret (ok, f)
  else Fx.ret (false, f).

(** [FormFiller._fill_text] *)
Definition _fill_text (f : FormField) (value : string) : F (bool * FormField) :=
  visible <- Fx.attempt (on_page (el_is_visible browser (element f))) ;;
  match visible with
  | Raised => phone_or_false f value
  | Returned false => phone_or_false f value
  | Returned true =>
      '(success, f) <-
        (if is_custom_dropdown f then _fill_eeo_text_dropdown f value
         else Fx.ret (false, f)) ;;
      if (success : bool) then Fx.ret (true, f)
      else
        '(success, f) <-
          (if is_autocomplete_candidate f
           then '(ok, e) <- on_page_total (_fill_autocomplete_field browser f value) ;;
                Fx.ret (ok, set_element f e)
           else Fx.ret (false, f)) ;;
        if (success : bool) then Fx.ret (true, f)
        else
          typed <- Fx.attempt
                     (on_page (el_focus browser (element f)) ;;
                      asleep (1 # 20) ;;
                      on_page (el_click browser (element f)) ;;
                      on_page (el_fill browser (element f) "") ;;
                      on_page (el_fill browser (element f) value) ;;
                      asleep (1 # 10)) ;;
          match typed with
          | Returned _ => Fx.ret (true, f)
          | Raised => phone_or_false f value
          end
  end.

Definition run_strategy (st : Strategy) (f : FormField) (value : string)
  : F (bool * FormField) :=
  let plain (op : FormField -> string -> World -> outcome bool * World) :=
    ok <- on_page (op f value) ;; Fx.ret (ok, f) in
  match st with
  | fill_file => plain (_fill_file browser)
  | fill_select => plain (_fill_select browser)
  | fill_eeo_select => ok <- _fill_eeo_select f value ;; Fx.ret (ok, f)
  | fill_checkbox => plain (_fill_checkbox browser)
  | fill_radio => plain (_fill_radio browser)
  | fill_eeo_radio => ok <- _fill_eeo_radio f value ;; Fx.ret (ok, f)
  | fill_text => _fill_text f value
  end.

(** [FormFiller._fill_by_type]: the route, under [except Exception:
    return False]. *)
Definition _fill_by_type (f : FormField) (value : string) : F (bool * FormField) :=
  Fx.try_catch (run_strategy (strategy_for f) f value) (Fx.ret (false, f)).

(** [FormFiller.fill_field] *)
Definition fill_field (f : FormField) : F FilledField :=
  value <- get_value f ;;
  if negb (PyStr.truthy value) && negb (FieldType_beq (field_type f) UNKNOWN)
  then
    on_disk (_save_unanswered_question self f None) ;;
    Fx.ret (mkFilledField f "" false (is_high_risk_field (field_type f)))
  else
    reacquired <- on_page_total (_reacquire_element browser f) ;;
    found <- match reacquired with
             | Some e => Fx.ret (Some e)
             | None => on_page_total (_find_element_by_label browser f)
             end ;;
    match found with
    | None =>
        Fx.ret (mkFilledField f value false (is_high_risk_field (field_type f)))
    | Some e =>
        let f := set_element f e in
        '(success, f) <- _fill_by_type f value ;;
        (if (success : bool) && FieldType_beq (field_type f) FIRST_NAME
         then asleep (1 # 10) ;;
              _ <- Fx.attempt (on_page (el_input_value browser e)) ;;
              Fx.ret tt
         else Fx.ret tt) ;;
        Fx.ret (mkFilledField f value success (is_high_risk_field (field_type f)))
    end.

End Filling.


(* ================================================================== *)
(** * form_filler.py: the fill pass and the dynamic-field passes *)
(* ================================================================== *)

(** The calls that [fill_all_fields] and [_fill_dynamic_fields] make
    themselves, in the order they make them. *)
Inductive Call : Type :=
| call_sleep : Q -> Call
| call_get_active_frame : Call
| call_extract_form_fields : Call
| call_fill_field : FormField -> Call
| call_input_value : ElementHandle -> Call
| call_focus : ElementHandle -> Call
| call_fill : ElementHandle -> string -> Call.

Record RunState (World : Type) : Type := mkRunState {
  fill_state : FillState World;
  calls : list Call
}.

(** [f"{field.label}_{field.field_type.value}"] *)
Definition field_key (f : FormField) : string :=
  (label f ++ "_" ++ value_of (field_type f))%string.

(** [d[key] = v] on a dict written as an association list *)
Fixpoint dict_set {A : Type} (d : list (string * A)) (key : string) (v : A)
  : list (string * A) :=
  match d with
  | [] => [(key, v)]
  | (k, v') :: d' =>
      if String.eqb k key then (k, v) :: d' else (k, v') :: dict_set d' key v
  end.

(** [key in d] *)
Definition dict_mem {A : Type} (d : list (string * A)) (key : string) : bool :=
  match dict_get d key with Some _ => true | None => false end.

(** [if result.success: filled_labels[key] = True / elif key not in
    filled_labels: filled_labels[key] = False] *)
Definition mark (filled_labels : list (string * bool)) (key : string)
           (ok : bool) : list (string * bool) :=
  if ok then dict_set filled_labels key true
  else if dict_mem filled_labels key then filled_labels
       else dict_set filled_labels key false.

(** [filled_labels[key]] is present and true. *)
Definition marked_filled (filled_labels : list (string * bool)) (key : string) : bool :=
  match dict_get filled_labels key with Some true => true | _ => false end.

Definition location_types : list FieldType := [ COUNTRY; CITY; STATE ].

Definition location_keywords : list string := [ "country"; "location"; "city" ].

(** [is_dropdown_field] of the first pass. *)
Definition is_dropdown_field (f : FormField) : bool :=
  type_in (field_type f) location_types
  || PyStr.any_in location_keywords (PyStr.lower (label f)).

(** [field.field_type == FieldType.UNKNOWN and not field.is_required] *)
Definition unknown_optional (f : FormField) : bool :=
  FieldType_beq (field_type f) UNKNOWN && negb (is_required f).

(** The fields of a re-extraction that [_fill_dynamic_fields] keeps. *)
Definition dynamic_fields_of (results : list FilledField)
           (filled_labels : list (string * bool))
           (new_fields : list FormField) : list FormField :=
  let existing_selectors := map (fun r => selector (field r)) results in
  let existing_labels := map fst filled_labels in
  filter (fun f =>
            negb (str_mem (selector f) existing_selectors)
            && negb (str_mem (field_key f) existing_labels)
            && negb (unknown_optional f))
         new_fields.

(** The locals of the loop of [fill_all_fields]. *)
Record PassState : Type := mkPassState {
  ps_results : list FilledField;
  ps_filled_labels : list (string * bool);
  ps_first_name : option (ElementHandle * string);
  ps_is_first_field : bool
}.

Section Orchestration.

Variable World : Type.
Variable browser : Browser World.
Variable self : FormFiller.

Local Open Scope fx_scope.

Definition R (A : Type) : Type := Fx.t (RunState World) A.

(** Records the call, then makes it. *)
Definition calling {A : Type} (c : Call) (m : F World A) : R A :=
  fun s => let (r, fs) := m (fill_state s) in
           (r, mkRunState fs (calls s ++ [c])).

Definition do_sleep (seconds : Q) : R unit :=
  calling (call_sleep seconds) (asleep browser seconds).

Definition do_get_active_frame : R unit :=
  calling call_get_active_frame (on_page (_get_active_frame browser)).

(** [FormFiller.extract_form_fields] *)
Definition extract_form_fields : R (list FormField) :=
  raws <- calling call_extract_form_fields (on_page (analyze_controls browser)) ;;
  Fx.ret (map analyze raws).

Definition do_fill_field (f : FormField) : R FilledField :=
  calling (call_fill_field f) (fill_field browser self f).

(** [self._file_input_count = 0] *)
Definition reset_file_input_count : R unit :=
  fun s => (Returned tt,
            mkRunState (mkFillState (page (fill_state s)) (disk (fill_state s)) 0)
                       (calls s)).

(** The First Name check shared by the two loops: read the live value
    and, when it differs from the recorded one, focus the element and
    fill the recorded value again; any exception ends the check. *)
Definition verify_first_name (first_name_element : ElementHandle)
           (first_name_value : string) : R unit :=
  _ <- Fx.attempt
         (current_first_name <-
            calling (call_input_value first_name_element)
                    (on_page (el_input_value browser first_name_element)) ;;
          if negb (String.eqb current_first_name first_name_value)
          then
            calling (call_focus first_name_element)
                    (on_page (el_focus browser first_name_element)) ;;
            calling (call_fill first_name_element first_name_value)
                    (on_page (el_fill browser first_name_element first_name_value)) ;;
            do_sleep (1 # 10)
          else Fx.ret tt) ;;
  Fx.ret tt.

(** The body of [for field in fields] in [fill_all_fields]. *)
Definition first_pass_step (acc : PassState) (f : FormField) : R PassState :=
  if unknown_optional f then Fx.ret acc
  else if marked_filled (ps_filled_labels acc) (field_key f) then Fx.ret acc
  else
    (if ps_is_first_field acc then do_sleep 1 else Fx.ret tt) ;;
    result <- do_fill_field f ;;
    result <-
      (if negb (success result) && FieldType_beq (field_type f) FIRST_NAME
       then do_sleep 1 ;;
            do_get_active_frame ;;
            do_fill_field (field result)
       else Fx.ret result) ;;
    let first_name :=
      if FieldType_beq (field_type f) FIRST_NAME && success result
      then Some (element (field result), filled_value result)
      else ps_first_name acc in
    let results := ps_results acc ++ [result] in
    let filled_labels := mark (ps_filled_labels acc) (field_key f) (success result) in
    match first_name with
    | Some (first_name_element, first_name_value) =>
        if negb (FieldType_beq (field_type f) FIRST_NAME) && is_dropdown_field f
        then verify_first_name first_name_element first_name_value
        else Fx.ret tt
    | None => Fx.ret tt
    end ;;
    do_sleep (3 # 10) ;;
    Fx.ret (mkPassState results filled_labels first_name false).

Fixpoint first_pass (acc : PassState) (fields : list FormField) : R PassState :=
  match fields with
  | [] => Fx.ret acc
  | f :: rest => acc <- first_pass_step acc f ;; first_pass acc rest
  end.

(** The body of [for field in dynamic_fields].  The source also adds the
    selector of a filled field to [existing_selectors], a set that is not
    read again before the next pass rebuilds it. *)
Definition dynamic_step (first_name : option (ElementHandle * string))
           (acc : list FilledField * list (string * bool)) (f : FormField)
  : R (list FilledField * list (string * bool)) :=
  let (results, filled_labels) := acc in
  if marked_filled filled_labels (field_key f) then Fx.ret acc
  else
    result <- do_fill_field f ;;
    let results := results ++ [result] in
    let filled_labels := mark filled_labels (field_key f) (success result) in
    match first_name with
    | Some (first_name_element, first_name_value) =>
        if PyStr.truthy first_name_value
        then verify_first_name first_name_element first_name_value
        else Fx.ret tt
    | None => Fx.ret tt
    end ;;
    do_sleep (3 # 10) ;;
    Fx.ret (results, filled_labels).

Fixpoint dynamic_fill (first_name : option (ElementHandle * string))
         (acc : list FilledField * list (string * bool))
         (dynamic_fields : list FormField)
  : R (list FilledField * list (string * bool)) :=
  match dynamic_fields with
  | [] => Fx.ret acc
  | f :: rest =>
      acc <- dynamic_step first_name acc f ;; dynamic_fill first_name acc rest
  end.

(** [FormFiller._fill_dynamic_fields]: [for pass_num in range(max_passes)],
    left by [break] when a pass finds nothing new. *)
Fixpoint _fill_dynamic_fields (results : list FilledField)
         (filled_labels : list (string * bool))
         (first_name : option (ElementHandle * string))
         (max_passes : nat) : R (list FilledField) :=
  match max_passes with
  | O => Fx.ret results
  | S remaining =>
      do_sleep 1 ;;
      do_get_active_frame ;;
      new_fields <- extract_form_fields ;;
      let dynamic_fields := dynamic_fields_of results filled_labels new_fields in
      if negb (nonempty dynamic_fields) then Fx.ret results
      else
        '(results, filled_labels) <-
          dynamic_fill first_name (results, filled_labels) dynamic_fields ;;
        _fill_dynamic_fields results filled_labels first_name remaining
  end.

(** [FormFiller.fill_all_fields]; [_fill_dynamic_fields] is called with
    its default [max_passes = 2]. *)
Definition fill_all_fields (fields : option (list FormField)) : R (list FilledField) :=
  fields <- match fields with
            | Some fields => Fx.ret fields
            | None => extract_form_fields
            end ;;
  reset_file_input_count ;;
  do_sleep 3 ;;
  do_get_active_frame ;;
  do_sleep 1 ;;
  acc <- first_pass (mkPassState [] [] None true) fields ;;
  _fill_dynamic_fields (ps_results acc) (ps_filled_labels acc) (ps_first_name acc) 2.

End Orchestration.


(* ================================================================== *)
(** * The custom-answer score as the specification words it *)
(* ================================================================== *)

(** The keywords attached to a stored answer: its own list, or those of
    its question when the list is empty. *)
Definition stored_keywords (ca : CustomAnswer) : list string :=
  if nonempty (ca_keywords ca) then ca_keywords ca
  else _extract_keywords (ca_question ca).

(** The number of distinct keywords that the question and the stored answer share. *)
Definition shared_keyword_count (question : string) (ca : CustomAnswer) : nat :=
  List.length
    (filter (fun kw => str_mem kw (stored_keywords ca))
            (nodup string_dec (_extract_keywords question))).

(** One normalized question contains the other. *)
Definition contains_either (question : string) (ca : CustomAnswer) : bool :=
  let q := _normalize_question question in
  let c := _normalize_question (ca_question ca) in
  PyStr.str_in c q || PyStr.str_in q c.

(** The options term: it applies when the field has options and the
    stored answer is not empty. *)
Definition options_term (options : list string) (ca : CustomAnswer) : Z :=
  match options with
  | [] => 0%Z
  | _ => if PyStr.truthy (ca_answer ca)
         then if option_match (ca_answer ca) options then 10%Z else (-20)%Z
         else 0%Z
  end.

(** +50 for containment, +20 per shared keyword, +10 or -20 for the
    options. *)
Definition stated_score (question : string) (options : list string)
           (ca : CustomAnswer) : Z :=
  ((if contains_either question ca then 50 else 0)
   + 20 * Z.of_nat (shared_keyword_count question ca)
   + options_term options ca)%Z.

(** Exact equality of the normalized questions. *)
Definition exact_match (question : string) (ca : CustomAnswer) : bool :=
  String.eqb (_normalize_question question) (_normalize_question (ca_question ca)).


(* ================================================================== *)
(** * Scenarios *)
(* ================================================================== *)

(** Concrete profiles, fields and pages on which the theorems below are
    evaluated. *)

Definition acme_asked : string := "Have you ever been employed by Acme Corp?".

Definition acme_stored (keywords : list string) : CustomAnswer :=
  mkCustomAnswer "Have you ever worked at Acme Corp?" "No" [] keywords.

(** The profile file that holds the single answered question. *)
Definition acme_disk : Disk :=
  mkDisk
    (Some (mkProfileData
             (Some (mkCustomData
                      (Some [ mkItem (Some "Have you ever worked at Acme Corp?")
                                     (Some "No") None None None None ])
                      (Some [])))
             ""))
    false false None.

(** ** A scripted page *)

(** A page simple enough to run: every control is visible and can be
    focused and clicked; filling a control sets its live value and empties
    the controls that the page ties to it; an open dropdown shows
    [shown_options]; each extraction sees the next list of [appearing]. *)
Record ScriptedPage : Type := mkScriptedPage {
  live_values : list (ElementHandle * string);
  clears : list (ElementHandle * ElementHandle);
  shown_options : list (ElementHandle * string);
  appearing : list (list RawField)
}.

Fixpoint live_get (vs : list (ElementHandle * string)) (e : ElementHandle) : string :=
  match vs with
  | [] => ""
  | (e', v) :: vs' => if Nat.eqb e' e then v else live_get vs' e
  end.

Fixpoint live_set (vs : list (ElementHandle * string)) (e : ElementHandle)
         (v : string) : list (ElementHandle * string) :=
  match vs with
  | [] => [(e, v)]
  | (e', v') :: vs' =>
      if Nat.eqb e' e then (e, v) :: vs' else (e', v') :: live_set vs' e v
  end.

Definition scripted_fill (e : ElementHandle) (v : string) (w : ScriptedPage)
  : ScriptedPage :=
  let vs := live_set (live_values w) e v in
  let vs := fold_left
              (fun vs tie => if Nat.eqb (fst tie) e
                             then live_set vs (snd tie) "" else vs)
              (clears w) vs in
  mkScriptedPage vs (clears w) (shown_options w) (appearing w).

Definition scripted_text (w : ScriptedPage) (e : ElementHandle) : string :=
  match find (fun o => Nat.eqb (fst o) e) (shown_options w) with
  | Some o => snd o
  | None => ""
  end.

Definition scripted_browser : Browser ScriptedPage :=
  {| el_is_visible := fun _ w => (Returned true, w);
     el_focus := fun _ w => (Returned tt, w);
     el_click := fun _ w => (Returned tt, w);
     el_fill := fun e v w => (Returned tt, scripted_fill e v w);
     el_press := fun _ _ w => (Returned tt, w);
     el_input_value := fun e w => (Returned (live_get (live_values w) e), w);
     el_inner_text := fun e w => (Returned (scripted_text w e), w);
     el_select_option := fun e opt w => (Returned tt, scripted_fill e opt w);
     el_check := fun e w => (Returned tt, scripted_fill e "checked" w);
     el_js_click := fun e w => (Returned tt, scripted_fill e "checked" w);
     query_role_options := fun w => (Returned (map fst (shown_options w)), w);
     radio_group := fun _ w => (Returned [], w);
     label_with_text := fun _ w => (Returned None, w);
     sleep := fun _ w => w;
     _get_active_frame := fun w => (Returned tt, w);
     analyze_controls :=
       fun w => (Returned (hd [] (appearing w)),
                 mkScriptedPage (live_values w) (clears w) (shown_options w)
                                (tl (appearing w)));
     _reacquire_element := fun f w => (Some (element f), w);
     _find_element_by_label := fun _ w => (None, w);
     _fill_file := fun _ _ w => (Returned true, w);
     _fill_select := fun f v w => (Returned true, scripted_fill (element f) v w);
     _fill_checkbox := fun f v w => (Returned true, scripted_fill (element f) v w);
     _fill_radio := fun f v w => (Returned true, scripted_fill (element f) v w);
     _fill_autocomplete_field := fun f _ w => ((false, element f), w);
     _fill_phone_fallback := fun _ _ w => (false, w) |}.

Definition empty_personal : Personal := mkPersonal "" "" "" "" "" "" "" "".
Definition empty_location : Location := mkLocation "" "" "" "" "" true.
Definition empty_diversity : Diversity := mkDiversity "" "" "" "" "" "".

(** A profile with a first name, an e-mail address, a city and an H-1B
    visa status, and nothing else. *)
Definition sample_profile : Profile :=
  mkProfile
    (mkPersonal "Ada" "" "" "ada@example.org" "" "" "" "")
    (mkLocation "" "London" "" "" "" true)
    (mkWorkAuthorization true false "H-1B")
    (mkExperience 0 "" "")
    (mkEducation "" "" "" 0)
    (mkResume "" None)
    (mkSalary "" "" "" "USD")
    (mkAvailability "" false)
    empty_diversity
    [].


(** The questions of the answered and pending lists of a profile file. *)
Definition listed_items (data : ProfileData) : list Item :=
  let custom_data := get_or (custom_answers data) (mkCustomData None None) in
  get_or (cd_answered custom_data) [] ++ get_or (cd_pending custom_data) [].


(** A gender control whose [name] attribute makes the classifier take it
    for a visa-status field. *)
Definition gender_raw : RawField :=
  mkRawField 7 "Your gender" "immigration_2" "" "" "" "text" [] "" true "#q7".

Definition gender_field : FormField := analyze gender_raw.

(** A filler for [sample_profile] with one stored answer, and one with
    none; neither has a generative helper. *)
Definition gender_filler : FormFiller :=
  mkFormFiller sample_profile "Acme - Engineer" None
               [mkCustomAnswer "Your gender" "Male" [] []] "2026-01-01 10:00".

Definition bare_filler : FormFiller :=
  mkFormFiller sample_profile "Acme - Engineer" None [] "2026-01-01 10:00".


(** A work-authorization question rendered as a native dropdown. *)
Definition authorization_select : FormField :=
  analyze (mkRawField 3 "Are you legally authorized to work in the United States?"
                      "question_3" "" "" "" "select"
                      ["Select..."; "Yes"; "No"] "Select..." true "#question_3").

(** An EEO question rendered as a native dropdown. *)
Definition veteran_select : FormField :=
  analyze (mkRawField 4 "Veteran Status" "question_4" "" "" "" "select"
                      ["Select..."; "I am a veteran"; "I am not a protected veteran";
                       "I don't wish to answer"]
                      "Select..." false "#question_4").

(** The stages of [stages] run one after the other from [s] to [s'] and
    each returns [False]. *)
Fixpoint all_fail {S : Type} (stages : list (Fx.t S bool)) (s s' : S) : Prop :=
  match stages with
  | [] => s = s'
  | st :: rest => exists s1, st s = (Returned false, s1) /\ all_fail rest s1 s'
  end.

(** The stages run in order; the first that returns [True] ends the run
    and the later ones are not run; when none does, the result is
    [False].  Nothing is raised. *)
Definition staged {S : Type} (stages : list (Fx.t S bool)) (m : Fx.t S bool) : Prop :=
  forall s,
    (exists pre st post s1 s',
        stages = pre ++ st :: post
        /\ all_fail pre s s1
        /\ st s1 = (Returned true, s')
        /\ m s = (Returned true, s'))
    \/ (exists s', all_fail stages s s' /\ m s = (Returned false, s')).

(** A computation that catches what it raises. *)
Definition never_raises {S A : Type} (m : Fx.t S A) : Prop :=
  forall s, fst (m s) <> Raised.


(** A free-text control labelled with an EEO keyword that the classifier
    leaves unknown; the page shows two options when it is opened, and the
    profile stores an answer for a question worded slightly differently. *)
Definition sex_field : FormField :=
  analyze (mkRawField 9 "Sex (optional)" "q9" "" "" "" "text" [] "" true "#q9").

Definition sex_disk : Disk :=
  mkDisk
    (Some (mkProfileData
             (Some (mkCustomData
                      (Some [ mkItem (Some "Sex") (Some "Male") None None None None ])
                      (Some [])))
             ""))
    false false None.

Definition sex_filler : FormFiller :=
  mkFormFiller sample_profile "Acme - Engineer" None
               (fst (load_custom_answers sex_disk)) "2026-01-01 10:00".

Definition sex_page : ScriptedPage :=
  mkScriptedPage [] [] [(100, "Man"); (101, "Woman")] [].

(** A last-name control, for which [sample_profile] has nothing. *)
Definition last_name_field : FormField :=
  analyze (mkRawField 2 "Last Name" "last_name" "" "" "" "text" [] "" true
                      "#last_name").

(** A referral question, of a type that only a caller can give to a
    field. *)
Definition referral_field : FormField :=
  mkFormField 5 REFERRAL "Who referred you?" "referrer" "text" [] "" true
              conf_none "#referrer".

(** The pending list of the profile file. *)
Definition pending_items (d : Disk) : list Item :=
  match profile_file d with
  | Some data =>
      get_or (cd_pending (get_or (custom_answers data) (mkCustomData None None))) []
  | None => []
  end.

(** A step of a fill that leaves the profile file as it is. *)
Definition keeps_disk {World A : Type} (m : F World A) : Prop :=
  forall s, disk (snd (m s)) = disk s.


(** ** Reading the calls of a run *)

Definition is_extract (c : Call) : bool :=
  match c with call_extract_form_fields => true | _ => false end.

(** The number of extractions among some calls. *)
Definition extract_calls (cs : list Call) : nat :=
  List.length (filter is_extract cs).

(** The run [m] only adds calls, at most [n] extractions among them. *)
Definition extracts_at_most {World A : Type} (n : nat) (m : R World A) : Prop :=
  forall s, exists extra,
      calls (snd (m s)) = calls s ++ extra /\ extract_calls extra <= n.

(** An optional free-text control that no pattern recognises, and the
    page on which it appears at the first re-extraction. *)
Definition comments_raw : RawField :=
  mkRawField 11 "Anything else?" "q11" "" "" "" "textarea" [] "" false "#q11".

Definition comments_field : FormField := analyze comments_raw.

Definition comments_page : ScriptedPage :=
  mkScriptedPage [] [] [] [[comments_raw]].

Definition start_of {World : Type} (w : World) (d : Disk) : RunState World :=
  mkRunState (mkFillState w d 0) [].

(** A first-name, an e-mail and a city control, and a page on which
    filling the e-mail or the city control empties the first name. *)
Definition first_name_field : FormField :=
  analyze (mkRawField 1 "First Name" "first_name" "" "" "" "text" [] "" true
                      "#first_name").

Definition email_field : FormField :=
  analyze (mkRawField 2 "Email" "email" "" "" "" "text" [] "" true "#email").

Definition city_field : FormField :=
  analyze (mkRawField 3 "City" "city" "" "" "" "text" [] "" true "#city").

Definition clearing_page : ScriptedPage :=
  mkScriptedPage [] [(2, 1); (3, 1)] [] [].

(** The page in the state of a run, the rest of the state unchanged. *)
Definition with_page {World : Type} (s : RunState World) (w : World)
           (extra : list Call) : RunState World :=
  mkRunState (mkFillState w (disk (fill_state s))
                          (_file_input_count (fill_state s)))
             (calls s ++ extra).


(** A page on which a required city control appears at the first
    re-extraction; the second re-extraction shows it again, beside the
    optional control that no pattern recognises. *)
Definition city_raw : RawField :=
  mkRawField 3 "City" "city" "" "" "" "text" [] "" true "#city".

Definition growing_page : ScriptedPage :=
  mkScriptedPage [] [] [] [[city_raw]; [city_raw; comments_raw]].

(** A page on which filling the e-mail or the city control empties the
    first name, and on which the e-mail control appears only at the first
    re-extraction. *)
Definition email_raw : RawField :=
  mkRawField 2 "Email" "email" "" "" "" "text" [] "" true "#email".

Definition restoring_page : ScriptedPage :=
  mkScriptedPage [] [(2, 1); (3, 1)] [] [[email_raw]].


(* ================================================================== *)
(** * config.py: promotion of answered pending questions *)
(* ================================================================== *)

(** The entry that [promote_pending_to_answered] appends to the answered
    list for a pending entry with question [q]. *)
Definition answered_item (q : string) (item : Item) : Item :=
  mkItem (Some q) (item_answer item)
         (match item_options item with
          | Some (o :: os) => Some (o :: os)
          | _ => None
          end)
         (Some (_extract_keywords q)) None None.

(** [item.get("answer")] is truthy. *)
Definition has_answer (item : Item) : bool :=
  PyStr.truthy (get_or (item_answer item) "").

(** The loop over the pending entries: the entries to append to the
    answered list and the entries that stay pending; [None] is the
    [KeyError] of [item["question"]] on an answered entry without
    question. *)
Fixpoint promote_loop (pending : list Item) : option (list Item * list Item) :=
  match pending with
  | [] => Some ([], [])
  | item :: rest =>
      if has_answer item
      then match item_question item with
           | None => None
           | Some q =>
               match promote_loop rest with
               | Some (promoted, remaining) =>
                   Some (answered_item q item :: promoted, remaining)
               | None => None
               end
           end
      else match promote_loop rest with
           | Some (promoted, remaining) => Some (promoted, item :: remaining)
           | None => None
           end
  end.

(** [promote_pending_to_answered]: the number of promoted entries, or the
    exception, and the file system afterwards. *)
Definition promote_pending_to_answered (d : Disk) : outcome nat * Disk :=
  match profile_file d with
  | None => (Returned 0, d)
  | Some data =>
      if load_raises d then (Returned 0, d)
      else
        match custom_answers data with
        | Some (mkCustomData (Some answered) (Some pending)) =>
            match promote_loop pending with
            | None => (Raised, d)
            | Some (promoted, remaining_pending) =>
                match promoted with
                | [] => (Returned 0, d)
                | _ =>
                    let data' :=
                      mkProfileData
                        (Some (mkCustomData (Some (answered ++ promoted))
                                            (Some remaining_pending)))
                        (other_sections data) in
                    (Returned (List.length promoted),
                     if dump_raises d
                     then set_profile_file d (after_failed_dump d)
                     else set_profile_file d (Some data'))
                end
            end
        | _ => (Returned 0, d)
        end
  end.

(** [FormFiller._load_custom_answers]: the value given to
    [self._custom_answers] and the file system afterwards. *)
Definition _load_custom_answers (d : Disk) : list CustomAnswer * Disk :=
  let answered := fst (load_custom_answers d) in
  match promote_pending_to_answered d with
  | (Returned promoted, d') =>
      if Nat.ltb 0 promoted
      then (fst (load_custom_answers d'), d')
      else (answered, d')
  | (Raised, d') => ([], d')
  end.

(** A profile file with one answered question, and a pending list in
    which the user has answered the first of two questions. *)
Definition answered_pending_disk : Disk :=
  mkDisk
    (Some (mkProfileData
             (Some (mkCustomData
                      (Some [ mkItem (Some "Have you ever worked at Acme Corp?")
                                     (Some "No") None None None None ])
                      (Some [ mkItem (Some "Notice period?") (Some "1 month")
                                     (Some ["None"; "1 month"]) None
                                     (Some "2026-01-01 10:00") (Some "Acme - Engineer");
                              mkItem (Some "Security clearance level") (Some "")
                                     None None
                                     (Some "2026-01-01 10:05") (Some "Acme - Engineer") ])))
             "personal: ..."))
    false false None.


(* ================================================================== *)
(** * Theorems *)
(* ================================================================== *)

Example re_search_ex1 : Re.search "first\s*name" "your first  name" = true.
Proof. reflexivity. Qed.
Example re_search_ex2 : Re.search "^name$" "first name" = false.
Proof. reflexivity. Qed.
Example re_search_ex3 : Re.search "legally\s*(authorized|eligible)" "are you legally eligible" = true.
Proof. reflexivity. Qed.
Example re_search_ex4 : Re.search "\(\d{3}\)" "(415) 555" = true.
Proof. reflexivity. Qed.
Example re_search_ex5 : Re.search "years?\s*(of)?\s*experience" "year experience" = true.
Proof. reflexivity. Qed.
Example re_search_ex6 : Re.search "^title\*?$" "title*" = true.
Proof. reflexivity. Qed.
Example re_search_ex7 : Re.search "location.*city" "location (city)" = true.
Proof. reflexivity. Qed.
Example re_search_ex8 : Re.search "e-?mail" "gmail" = false.
Proof. reflexivity. Qed.
Example re_search_word_ex1 : Re.search_word "male" "female" = false.
Proof. reflexivity. Qed.
Example re_search_word_ex2 : Re.search_word "male" "i am male." = true.
Proof. reflexivity. Qed.

Example all_patterns_compile :
  forallb (fun pattern =>
             forallb (fun p => match Re.compile p with Some _ => true | None => false end)
                     (label_patterns pattern ++ name_patterns pattern
                      ++ placeholder_patterns pattern))
          FIELD_PATTERNS = true.
Proof. vm_compute. reflexivity. Qed.

Example match_ex_email :
  _match_field_type "Email Address" "" "" "" "" = (EMAIL, conf_label).
Proof. vm_compute. reflexivity. Qed.

Example match_ex_name :
  _match_field_type "Name" "" "" "" "" = (FIRST_NAME, conf_label).
Proof. vm_compute. reflexivity. Qed.

Example match_ex_none :
  _match_field_type "Favourite colour" "q_17" "" "" "" = (UNKNOWN, conf_none).
Proof. vm_compute. reflexivity. Qed.

(* ------------------------------------------------------------------ *)
(** ** Classification *)
(* ------------------------------------------------------------------ *)

Section Classification.

Variables label name id_attr placeholder : string.

Let score (p : FieldPattern) : Q := pattern_score p label name id_attr placeholder.
Let step := match_step label name id_attr placeholder.

Lemma conf_lt_true (a b : Q) : conf_lt a b = true -> (a < b)%Q.
Proof.
  unfold conf_lt. intros H. apply Qnot_le_lt. intros Hle.
  apply Qle_bool_iff in Hle. rewrite Hle in H. discriminate.
Qed.

Lemma conf_lt_false (a b : Q) : conf_lt a b = false -> (b <= a)%Q.
Proof.
  unfold conf_lt. intros H. apply Qle_bool_iff.
  destruct (Qle_bool b a); [reflexivity | discriminate].
Qed.

Lemma score_no_hit (p : FieldPattern) :
  any_hit p label name id_attr placeholder = false -> score p = conf_none.
Proof.
  unfold any_hit, score, pattern_score. intros H.
  apply orb_false_elim in H. destruct H as [H Hph].
  apply orb_false_elim in H. destruct H as [Hl Hn].
  rewrite Hl, Hn, Hph. reflexivity.
Qed.

Lemma score_label_hit (p : FieldPattern) :
  label_hit p label = true -> score p = conf_label.
Proof.
  unfold score, pattern_score. intros ->.
  destruct (name_hit p name id_attr), (placeholder_hit p placeholder);
    reflexivity.
Qed.

(** A pattern's score is one of the four literals. *)
Lemma score_values (p : FieldPattern) :
  score p = conf_none \/ score p = conf_placeholder
  \/ score p = conf_name \/ score p = conf_label.
Proof.
  unfold score, pattern_score.
  destruct (label_hit p label), (name_hit p name id_attr),
    (placeholder_hit p placeholder); cbn; auto.
Qed.

Lemma step_no_hit (best : FieldType * Q) (p : FieldPattern) :
  (conf_none <= snd best)%Q ->
  any_hit p label name id_attr placeholder = false ->
  step best p = best.
Proof.
  intros Hb Hp. unfold step, match_step. fold (score p).
  rewrite (score_no_hit p Hp).
  destruct (conf_lt (snd best) conf_none) eqn:E; [| reflexivity].
  apply conf_lt_true in E. exfalso. exact (Qlt_not_le _ _ E Hb).
Qed.

Lemma fold_no_hit (l : list FieldPattern) (best : FieldType * Q) :
  (conf_none <= snd best)%Q ->
  (forall q, In q l -> any_hit q label name id_attr placeholder = false) ->
  fold_left step l best = best.
Proof.
  induction l as [| p l IH]; intros Hb Hl; [reflexivity |].
  cbn [fold_left]. rewrite step_no_hit; auto with datatypes.
Qed.

(** Once the only firing pattern holds the best match, nothing replaces
    it; before that, the best match is still the default. *)
Lemma fold_single_label_hit (pat : FieldPattern) (l : list FieldPattern)
      (best : FieldType * Q) :
  label_hit pat label = true ->
  (forall q, In q l ->
             q = pat \/ any_hit q label name id_attr placeholder = false) ->
  (best = (UNKNOWN, conf_none) /\ In pat l)
  \/ best = (pat_field_type pat, conf_label) ->
  fold_left step l best = (pat_field_type pat, conf_label).
Proof.
  intros Hhit. revert best.
  induction l as [| p l IH]; intros best Hl Hbest.
  - destruct Hbest as [[_ []] | ->]. reflexivity.
  - cbn [fold_left]. apply IH; [intros q Hq; apply Hl; right; exact Hq |].
    destruct (Hl p (or_introl eq_refl)) as [-> | Hno].
    + right. unfold step, match_step. fold (score pat).
      rewrite (score_label_hit pat Hhit).
      destruct Hbest as [[-> _] | ->]; reflexivity.
    + rewrite step_no_hit; [| destruct Hbest as [[-> _] | ->]; cbn; discriminate | exact Hno].
      destruct Hbest as [[-> Hin] | ->]; [left | right; reflexivity].
      split; [reflexivity |].
      destruct Hin as [-> | Hin]; [| exact Hin].
      unfold any_hit in Hno. rewrite Hhit in Hno. discriminate.
Qed.

(** The running best match dominates every pattern seen, and is either the
    initial value or the first pattern that reaches the final score. *)
Lemma fold_best_inv (l : list FieldPattern) (best : FieldType * Q) :
  let r := fold_left step l best in
  (snd best <= snd r)%Q
  /\ (forall q, In q l -> (score q <= snd r)%Q)
  /\ (r = best
      \/ exists l1 p l2,
           l = l1 ++ p :: l2
           /\ r = (pat_field_type p, score p)
           /\ (forall q, In q l1 -> (score q < score p)%Q)
           /\ (snd best < score p)%Q).
Proof.
  revert best. induction l as [| p l IH]; intros best; cbn zeta.
  - cbn [fold_left]. split; [apply Qle_refl |].
    split; [intros q [] | left; reflexivity].
  - cbn [fold_left].
    assert (Hs : step best p
                 = if conf_lt (snd best) (score p)
                   then (pat_field_type p, score p) else best) by reflexivity.
    rewrite Hs. clear Hs.
    destruct (conf_lt (snd best) (score p)) eqn:E;
      [specialize (IH (pat_field_type p, score p)) | specialize (IH best)];
      cbn zeta in IH; destruct IH as (Hle & Hall & Hwho).
    + apply conf_lt_true in E. cbn [snd] in Hle.
      split; [apply Qlt_le_weak; eapply Qlt_le_trans; eauto |].
      split.
      * intros q [<- | Hq]; [exact Hle | apply Hall; exact Hq].
      * right. destruct Hwho as [Hr | (l1 & p' & l2 & -> & Hr & Hl1 & Hlt)].
        -- exists [], p, l. repeat split; auto. intros q [].
        -- cbn [snd] in Hlt. exists (p :: l1), p', l2. repeat split; auto.
           ++ intros q [<- | Hq]; [exact Hlt | apply Hl1; exact Hq].
           ++ eapply Qlt_trans; eauto.
    + apply conf_lt_false in E.
      split; [exact Hle |].
      split.
      * intros q [<- | Hq]; [eapply Qle_trans; eauto | apply Hall; exact Hq].
      * destruct Hwho as [Hr | (l1 & p' & l2 & -> & Hr & Hl1 & Hlt)].
        -- left. exact Hr.
        -- right. exists (p :: l1), p', l2. repeat split; auto.
           intros q [<- | Hq]; [| apply Hl1; exact Hq].
           eapply Qle_lt_trans; eauto.
Qed.

End Classification.

(** C2.  [_match_field_type] is a function of its first four arguments;
    when the label fires a label-regex of one pattern of [FIELD_PATTERNS]
    and no other pattern fires on the label, the name, the id or the
    placeholder, the result is that pattern's type with confidence 0.9;
    when no pattern fires on anything the result is [(UNKNOWN, 0)]; and in
    every case the highest-scoring pattern wins: no pattern scores above
    the returned confidence, and a non-default result is the type and the
    score of the first pattern of the table that reaches that score. *)
Theorem match_field_type_classifies
        (label name id_attr placeholder aria_label : string) :
  let result := _match_field_type label name id_attr placeholder aria_label in
  (forall aria_label',
      _match_field_type label name id_attr placeholder aria_label' = result)
  /\ (forall pat,
        In pat FIELD_PATTERNS ->
        label_hit pat label = true ->
        (forall q, In q FIELD_PATTERNS -> q <> pat ->
                   any_hit q label name id_attr placeholder = false) ->
        result = (pat_field_type pat, conf_label))
  /\ ((forall q, In q FIELD_PATTERNS ->
                 any_hit q label name id_attr placeholder = false) ->
      result = (UNKNOWN, conf_none))
  /\ (forall q, In q FIELD_PATTERNS ->
                (pattern_score q label name id_attr placeholder <= snd result)%Q)
  /\ (result = (UNKNOWN, conf_none)
      \/ exists l1 pat l2,
           FIELD_PATTERNS = l1 ++ pat :: l2
           /\ result = (pat_field_type pat,
                        pattern_score pat label name id_attr placeholder)
           /\ (forall q, In q l1 ->
                  (pattern_score q label name id_attr placeholder
                   < pattern_score pat label name id_attr placeholder)%Q)).
Proof.
  cbn zeta. unfold _match_field_type, match_field_type_in.
  split; [reflexivity |].
  split.
  { intros pat Hin Hhit Hothers.
    apply fold_single_label_hit; auto.
    intros q Hq.
    assert (Hdec : {q = pat} + {q <> pat}).
    { repeat decide equality. }
    destruct Hdec as [-> | Hne]; [left; reflexivity | right; auto]. }
  split.
  { intros Hnone. apply fold_no_hit; [cbn; discriminate | exact Hnone]. }
  pose proof (fold_best_inv label name id_attr placeholder
                FIELD_PATTERNS (UNKNOWN, conf_none)) as H.
  cbn zeta in H. destruct H as (_ & Hall & Hwho).
  split; [exact Hall |].
  destruct Hwho as [Hr | (l1 & p & l2 & Hsplit & Hr & Hl1 & _)].
  - left. exact Hr.
  - right. exists l1, p, l2. auto.
Qed.

(** The hypotheses of C2 hold for a control labelled "Email" and for a
    control on which nothing fires. *)
Lemma match_field_type_classifies_witness :
  _match_field_type "Email" "" "" "" "" = (EMAIL, conf_label)
  /\ _match_field_type "Favourite colour" "q_17" "" "" "" = (UNKNOWN, conf_none).
Proof.
  split.
  - refine (proj1 (proj2 (match_field_type_classifies "Email" "" "" "" ""))
                  (mkFieldPattern EMAIL
                     ["e-?mail"; "email\s*address"]
                     ["e-?mail"; "email_?address"]
                     ["e-?mail"; "@"; "example\.com"]) _ _ _).
    + do 3 right. left. reflexivity.
    + vm_compute. reflexivity.
    + intros q Hq Hne. cbn [FIELD_PATTERNS In] in Hq.
      repeat (destruct Hq as [<- | Hq]; [try (vm_compute; reflexivity) |]).
      * exfalso. apply Hne. reflexivity.
      * destruct Hq.
  - refine (proj1 (proj2 (proj2
              (match_field_type_classifies "Favourite colour" "q_17" "" "" ""))) _).
    intros q Hq. cbn [FIELD_PATTERNS In] in Hq.
    repeat (destruct Hq as [<- | Hq]; [vm_compute; reflexivity |]).
    destruct Hq.
Defined.

(* ------------------------------------------------------------------ *)
(** ** The custom-answer matcher *)
(* ------------------------------------------------------------------ *)

Lemma str_mem_In (x : string) (l : list string) :
  str_mem x l = true <-> In x l.
Proof.
  unfold str_mem. rewrite existsb_exists. split.
  - intros (y & Hy & E). apply String.eqb_eq in E. subst. exact Hy.
  - intros H. exists x. split; [exact H | apply String.eqb_refl].
Qed.

Lemma str_mem_py_set (x : string) (l : list string) :
  str_mem x (py_set l) = str_mem x l.
Proof.
  destruct (str_mem x l) eqn:E.
  - apply str_mem_In. apply nodup_In. apply str_mem_In. exact E.
  - destruct (str_mem x (py_set l)) eqn:E'; [| reflexivity].
    apply str_mem_In in E'. apply nodup_In in E'.
    apply str_mem_In in E'. congruence.
Qed.

Lemma nonempty_py_set (l : list string) : nonempty (py_set l) = nonempty l.
Proof.
  destruct l as [| x l]; [reflexivity |].
  destruct (py_set (x :: l)) eqn:E; [| reflexivity].
  assert (H : In x (py_set (x :: l))) by (apply nodup_In; left; reflexivity).
  rewrite E in H. destruct H.
Qed.

Lemma nonempty_length {A : Type} (l : list A) :
  nonempty l = false -> List.length l = 0%nat.
Proof. destruct l; [reflexivity | discriminate]. Qed.

Lemma set_inter_nil_r (a : list string) : set_inter a [] = [].
Proof. induction a as [| x a IH]; [reflexivity | exact IH]. Qed.

Lemma set_inter_py_set (a b : list string) :
  set_inter a (py_set b) = filter (fun x => str_mem x b) a.
Proof.
  unfold set_inter. apply filter_ext. intros x. apply str_mem_py_set.
Qed.


(** The keyword part of the score is twenty points per shared keyword. *)
Lemma overlap_term (score : Z) (qk ck : list string) :
  (if nonempty qk && nonempty (py_set ck)
   then let overlap := set_inter qk (py_set ck) in
        if nonempty overlap
        then (score + Z.of_nat (List.length overlap) * 20)%Z
        else score
   else score)
  = (score + 20 * Z.of_nat (List.length (filter (fun kw => str_mem kw ck) qk)))%Z.
Proof.
  cbv zeta. rewrite set_inter_py_set, nonempty_py_set.
  destruct qk as [| q qk]; [cbn; lia |].
  destruct ck as [| c ck].
  - change (nonempty (q :: qk) && nonempty []) with false.
    pose proof (set_inter_nil_r (q :: qk)) as E. unfold set_inter in E.
    rewrite E. cbn [List.length]. lia.
  - change (nonempty (q :: qk) && nonempty (c :: ck)) with true.
    generalize (filter (fun x => str_mem x (c :: ck)) (q :: qk)).
    intros l. destruct l; cbn [nonempty List.length]; lia.
Qed.

Lemma stored_keywords_set (ca : CustomAnswer) :
  (if nonempty (ca_keywords ca) then py_set (ca_keywords ca)
   else py_set (_extract_keywords (ca_question ca)))
  = py_set (stored_keywords ca).
Proof. unfold stored_keywords. destruct (nonempty (ca_keywords ca)); reflexivity. Qed.

(** The score computed in the loop is the stated sum. *)
Lemma ca_score_stated (question : string) (options : list string)
      (ca : CustomAnswer) :
  ca_score (_normalize_question question) (py_set (_extract_keywords question))
           options ca
  = stated_score question options ca.
Proof.
  unfold ca_score, stated_score, contains_either, shared_keyword_count,
    options_term.
  cbv zeta. rewrite stored_keywords_set.
  rewrite (overlap_term _ (py_set (_extract_keywords question)) (stored_keywords ca)).
  unfold py_set.
  generalize (List.length
                (filter (fun kw => str_mem kw (stored_keywords ca))
                        (nodup string_dec (_extract_keywords question)))).
  intros n.
  generalize (PyStr.str_in (_normalize_question (ca_question ca))
                           (_normalize_question question)
              || PyStr.str_in (_normalize_question question)
                              (_normalize_question (ca_question ca))).
  intros b.
  generalize (option_match (ca_answer ca) options). intros m.
  generalize (PyStr.truthy (ca_answer ca)). intros t.
  destruct options as [| o options]; cbn [nonempty andb];
    destruct b, t, m; lia.
Qed.

Section FindLoop.

Variables (question : string) (options : list string).

Let qn := _normalize_question question.
Let qk := py_set (_extract_keywords question).
Let score := stated_score question options.

Lemma find_loop_exact (pre : list CustomAnswer) (ca : CustomAnswer)
      (post : list CustomAnswer) (best_match : option string) (best_score : Z) :
  (forall c, In c pre -> exact_match question c = false) ->
  exact_match question ca = true ->
  find_loop qn qk options (pre ++ ca :: post) best_match best_score
  = Some (ca_answer ca).
Proof.
  revert best_match best_score.
  induction pre as [| c pre IH]; intros bm bs Hpre Hca.
  - cbn [app find_loop]. unfold exact_match in Hca. fold qn in Hca.
    rewrite Hca. reflexivity.
  - cbn [app find_loop].
    assert (Hc : exact_match question c = false) by (apply Hpre; left; reflexivity).
    unfold exact_match in Hc. fold qn in Hc. rewrite Hc.
    destruct (bs <? ca_score qn qk options c)%Z;
      apply IH; auto with datatypes.
Qed.

(** Candidates that do not beat the running best leave it in place. *)
Lemma find_loop_no_better (l : list CustomAnswer)
      (best_match : option string) (best_score : Z) :
  (forall c, In c l -> exact_match question c = false) ->
  (forall c, In c l -> (score c <= best_score)%Z) ->
  find_loop qn qk options l best_match best_score
  = if (30 <=? best_score)%Z then best_match else None.
Proof.
  induction l as [| c l IH]; intros Hex Hle; [reflexivity |].
  cbn [find_loop].
  assert (Hc : exact_match question c = false) by (apply Hex; left; reflexivity).
  unfold exact_match in Hc. fold qn in Hc. rewrite Hc.
  unfold qn, qk. rewrite ca_score_stated. fold qn qk score.
  assert (Hs : (score c <= best_score)%Z) by (apply Hle; left; reflexivity).
  destruct (Z.ltb_spec best_score (score c)); [lia |].
  apply IH; auto with datatypes.
Qed.

(** The first candidate that reaches the highest score becomes the best
    match, provided it beats the initial score. *)
Lemma find_loop_best (pre : list CustomAnswer) (ca : CustomAnswer)
      (post : list CustomAnswer) (best_match : option string) (best_score : Z) :
  (forall c, In c (pre ++ ca :: post) -> exact_match question c = false) ->
  (best_score < score ca)%Z ->
  (forall c, In c pre -> (score c < score ca)%Z) ->
  (forall c, In c post -> (score c <= score ca)%Z) ->
  find_loop qn qk options (pre ++ ca :: post) best_match best_score
  = if (30 <=? score ca)%Z then Some (ca_answer ca) else None.
Proof.
  revert best_match best_score.
  induction pre as [| c pre IH]; intros bm bs Hex Hbs Hpre Hpost.
  - cbn [app find_loop].
    assert (Hc : exact_match question ca = false) by (apply Hex; left; reflexivity).
    unfold exact_match in Hc. fold qn in Hc. rewrite Hc.
    unfold qn, qk. rewrite ca_score_stated. fold qn qk score.
    destruct (Z.ltb_spec bs (score ca)); [| lia].
    apply find_loop_no_better; [| exact Hpost].
    intros c Hin. apply Hex. right. exact Hin.
  - cbn [app find_loop].
    assert (Hc : exact_match question c = false) by (apply Hex; left; reflexivity).
    unfold exact_match in Hc. fold qn in Hc. rewrite Hc.
    unfold qn, qk. rewrite ca_score_stated. fold qn qk score.
    assert (Hcs : (score c < score ca)%Z) by (apply Hpre; left; reflexivity).
    destruct (Z.ltb_spec bs (score c)); apply IH; auto with datatypes;
      intros c' Hin; apply Hex; right; exact Hin.
Qed.

End FindLoop.

(** C5.  On the first stored answer whose normalized question equals the
    normalized question asked, [find_custom_answer] returns that answer at
    once, whatever was scored before it.  When no stored question is
    equal, every candidate is scored +50 if one normalized question
    contains the other, +20 per shared keyword, and +10 or -20 according
    to whether the stored answer fits the options of the field (nothing
    when the field has no options or the stored answer is empty); the
    first candidate with the highest score is returned exactly when that
    score is at least 30, and nothing is returned when every score is
    below 30. *)
Theorem find_custom_answer_scores (question : string) (options : list string)
        (answered : list CustomAnswer) :
  (forall pre ca post,
      answered = pre ++ ca :: post ->
      (forall c, In c pre -> exact_match question c = false) ->
      exact_match question ca = true ->
      find_custom_answer question options answered = Some (ca_answer ca))
  /\ ((forall c, In c answered -> exact_match question c = false) ->
      (forall pre ca post,
          answered = pre ++ ca :: post ->
          (forall c, In c pre ->
                     (stated_score question options c
                      < stated_score question options ca)%Z) ->
          (forall c, In c post ->
                     (stated_score question options c
                      <= stated_score question options ca)%Z) ->
          find_custom_answer question options answered
          = if (30 <=? stated_score question options ca)%Z
            then Some (ca_answer ca) else None)
      /\ ((forall c, In c answered ->
                     (stated_score question options c < 30)%Z) ->
          find_custom_answer question options answered = None)).
Proof.
  split.
  - intros pre ca post -> Hpre Hca. unfold find_custom_answer.
    destruct (pre ++ ca :: post) eqn:E; [destruct pre; discriminate |].
    rewrite <- E. apply find_loop_exact; assumption.
  - intros Hex. split.
    + intros pre ca post -> Hpre Hpost. unfold find_custom_answer.
      destruct (pre ++ ca :: post) eqn:E; [destruct pre; discriminate |].
      rewrite <- E in *.
      destruct (Z.ltb_spec 0 (stated_score question options ca)) as [Hpos | Hneg].
      * apply find_loop_best; assumption.
      * rewrite find_loop_no_better; [| exact Hex |].
        -- cbn. destruct (Z.leb_spec 30 (stated_score question options ca));
             [lia | reflexivity].
        -- intros x Hin. apply in_app_or in Hin.
           destruct Hin as [Hin | [<- | Hin]].
           ++ specialize (Hpre x Hin). lia.
           ++ exact Hneg.
           ++ specialize (Hpost x Hin). lia.
    + intros Hlow. unfold find_custom_answer.
      destruct answered as [| a answered]; [reflexivity |].
      revert Hex Hlow.
      generalize (a :: answered). intros l Hex Hlow.
      assert (G : forall bm bs, (bs < 30)%Z ->
                  find_loop (_normalize_question question)
                            (py_set (_extract_keywords question))
                            options l bm bs = None).
      { induction l as [| c l IH]; intros bm bs Hbs.
        - cbn [find_loop]. destruct (Z.leb_spec 30 bs); [lia | reflexivity].
        - cbn [find_loop].
          assert (Hc : exact_match question c = false)
            by (apply Hex; left; reflexivity).
          unfold exact_match in Hc. rewrite Hc. rewrite ca_score_stated.
          assert (Hs : (stated_score question options c < 30)%Z)
            by (apply Hlow; left; reflexivity).
          destruct (bs <? stated_score question options c)%Z;
            apply IH; auto with datatypes. }
      apply G. lia.
Qed.

(** The hypotheses of C5 hold for a relocation question asked in other
    words, and for the same question asked again with other punctuation. *)
Lemma find_custom_answer_scores_witness :
  find_custom_answer "Are you willing to relocate for this role?" ["Yes"; "No"]
    [ mkCustomAnswer "Notice period" "2 weeks" [] [];
      mkCustomAnswer "Are you willing to relocate?" "Yes" [] [] ]
  = Some "Yes"
  /\ find_custom_answer "notice period:" ["Yes"; "No"]
       [ mkCustomAnswer "Are you willing to relocate?" "Yes" [] [];
         mkCustomAnswer "Notice period" "2 weeks" [] [] ]
     = Some "2 weeks"
  /\ find_custom_answer "Favourite colour" []
       [ mkCustomAnswer "Notice period" "2 weeks" [] [] ]
     = None.
Proof.
  split; [| split].
  - refine (proj1 (proj2 (find_custom_answer_scores
                            "Are you willing to relocate for this role?"
                            ["Yes"; "No"] _) _)
                  [mkCustomAnswer "Notice period" "2 weeks" [] []]
                  (mkCustomAnswer "Are you willing to relocate?" "Yes" [] [])
                  [] eq_refl _ _).
    + intros c [<- | [<- | []]]; vm_compute; reflexivity.
    + intros c [<- | []]. vm_compute. reflexivity.
    + intros c [].
  - refine (proj1 (find_custom_answer_scores "notice period:" ["Yes"; "No"] _)
                  [mkCustomAnswer "Are you willing to relocate?" "Yes" [] []]
                  (mkCustomAnswer "Notice period" "2 weeks" [] [])
                  [] eq_refl _ _).
    + intros c [<- | []]. vm_compute. reflexivity.
    + vm_compute. reflexivity.
  - refine (proj2 (proj2 (find_custom_answer_scores "Favourite colour" [] _) _) _).
    + intros c [<- | []]. vm_compute. reflexivity.
    + intros c [<- | []]. vm_compute. reflexivity.
Defined.

(** ** The Acme example *)

(** Refutes C6 as stated: for the stored answer as it is loaded from the
    profile, the matcher does not return "No" for the reworded question. *)
Lemma acme_reworded_not_matched :
  find_custom_answer acme_asked [] (fst (load_custom_answers acme_disk))
  <> Some "No".
Proof. vm_compute. discriminate. Qed.

(** C6, amended.  Given the single stored answer "Have you ever worked at
    Acme Corp?" -> "No" and a field labelled "Have you ever been employed
    by Acme Corp?" with no options, the matcher returns nothing: the
    normalized questions differ and neither contains the other, the
    question asked has the one keyword "employed by" while the stored
    question has "worked at" and "ever worked", so the score is 0; and
    whatever keyword list the stored entry carries, the score is at most
    20, below the threshold of 30. *)
Theorem acme_reworded_returns_none :
  _extract_keywords acme_asked = ["employed by"]
  /\ _extract_keywords (ca_question (acme_stored [])) = ["worked at"; "ever worked"]
  /\ fst (load_custom_answers acme_disk)
     = [acme_stored ["worked at"; "ever worked"]]
  /\ stated_score acme_asked [] (acme_stored ["worked at"; "ever worked"]) = 0%Z
  /\ stated_score acme_asked [] (acme_stored []) = 0%Z
  /\ forall keywords,
       (stated_score acme_asked [] (acme_stored keywords) <= 20)%Z
       /\ find_custom_answer acme_asked [] [acme_stored keywords] = None.
Proof.
  repeat (split; [vm_compute; reflexivity |]).
  intros keywords.
  assert (Hs : (stated_score acme_asked [] (acme_stored keywords) <= 20)%Z).
  { unfold stated_score, shared_keyword_count.
    replace (contains_either acme_asked (acme_stored keywords)) with false
      by (vm_compute; reflexivity).
    replace (nodup string_dec (_extract_keywords acme_asked))
      with ["employed by"] by (vm_compute; reflexivity).
    cbn [filter options_term].
    destruct (str_mem "employed by" (stored_keywords (acme_stored keywords)));
      cbn [List.length]; lia. }
  split; [exact Hs |].
  refine (proj2 (proj2 (find_custom_answer_scores
                          acme_asked [] [acme_stored keywords]) _) _).
  - intros c [<- | []]. vm_compute. reflexivity.
  - intros c [<- | []]. lia.
Qed.

(* ------------------------------------------------------------------ *)
(** ** Saving a pending question *)
(* ------------------------------------------------------------------ *)

Lemma already_listed_exists (qn : string) (items : list Item) :
  already_listed qn items = true
  <-> exists item, In item items
                   /\ _normalize_question (get_or (item_question item) "") = qn.
Proof.
  unfold already_listed. rewrite existsb_exists.
  split; intros (item & Hin & H); exists item; split; auto;
    apply String.eqb_eq; exact H.
Qed.

Lemma already_listed_app (qn : string) (a b : list Item) :
  already_listed qn (a ++ b) = already_listed qn a || already_listed qn b.
Proof. unfold already_listed. apply existsb_app. Qed.

Lemma listed_items_sections (data : ProfileData) :
  listed_items data
  = get_or (cd_answered (get_or (custom_answers data)
                                (mkCustomData (Some []) (Some [])))) []
    ++ get_or (cd_pending (get_or (custom_answers data)
                                  (mkCustomData (Some []) (Some [])))) [].
Proof. unfold listed_items. destruct (custom_answers data); reflexivity. Qed.

(** The two outcomes of [save_pending_question] on a profile file that
    exists and loads: refused when the normalized question is listed,
    appended to the pending list otherwise. *)
Lemma save_pending_question_cases (d : Disk) (data : ProfileData)
        (question : string) (options : list string) (job_info now : string) :
  profile_file d = Some data ->
  load_raises d = false ->
  ((exists item, In item (listed_items data)
                 /\ _normalize_question (get_or (item_question item) "")
                    = _normalize_question question) ->
   save_pending_question d question options job_info now = (false, d))
  /\ ((forall item, In item (listed_items data) ->
                    _normalize_question (get_or (item_question item) "")
                    <> _normalize_question question) ->
      dump_raises d = false ->
      exists d' data' entry,
        save_pending_question d question options job_info now = (true, d')
        /\ profile_file d' = Some data'
        /\ load_raises d' = load_raises d /\ dump_raises d' = dump_raises d
        /\ other_sections data' = other_sections data
        /\ listed_items data' = listed_items data ++ [entry]
        /\ (exists answered pending,
              custom_answers data' = Some (mkCustomData (Some answered) (Some pending))
              /\ listed_items data = answered ++ removelast pending
              /\ last pending entry = entry
              /\ pending <> [])
        /\ item_question entry = Some question
        /\ item_answer entry = Some ""
        /\ item_job entry = Some job_info
        /\ item_options entry = match options with
                                | [] => None
                                | _ => Some options
                                end).
Proof.
  intros Hfile Hload. unfold save_pending_question. rewrite Hfile, Hload.
  set (cd := get_or (custom_answers data) (mkCustomData (Some []) (Some []))).
  set (answered := get_or (cd_answered cd) []).
  set (pending := get_or (cd_pending cd) []).
  assert (Hl : listed_items data = answered ++ pending)
    by apply listed_items_sections.
  split.
  - intros Hex. rewrite Hl in Hex.
    apply already_listed_exists in Hex. rewrite already_listed_app in Hex.
    destruct (already_listed (_normalize_question question) answered);
      [reflexivity |].
    cbn in Hex. rewrite Hex. reflexivity.
  - intros Hnone Hdump. rewrite Hl in Hnone.
    assert (Hno : already_listed (_normalize_question question)
                                 (answered ++ pending) = false).
    { destruct (already_listed (_normalize_question question)
                               (answered ++ pending)) eqn:E; [| reflexivity].
      apply already_listed_exists in E. destruct E as (item & Hin & E).
      exfalso. exact (Hnone item Hin E). }
    rewrite already_listed_app in Hno. apply orb_false_elim in Hno.
    destruct Hno as [Ha Hp]. rewrite Ha, Hp, Hdump.
    eexists _, _, (new_pending question options job_info now).
    split; [reflexivity |].
    cbn [set_profile_file profile_file load_raises dump_raises other_sections].
    repeat (split; [first [reflexivity | assumption] |]).
    split.
    { rewrite Hl. unfold listed_items.
      cbn [custom_answers get_or cd_answered cd_pending]. apply app_assoc. }
    split.
    { exists answered, (pending ++ [new_pending question options job_info now]).
      split; [reflexivity |]. rewrite removelast_last, last_last.
      repeat split; auto. intros E. destruct pending; discriminate. }
    cbn. repeat (split; [reflexivity |]).
    destruct options; reflexivity.
Qed.

(** C10.  For a profile file that exists and loads: when the normalized
    question equals the normalized question of an entry of the answered or
    pending list, [save_pending_question] returns [False] and leaves the
    file as it is; otherwise, when the file can be written, it returns
    [True] and the file differs only in that the pending list has one more
    entry at its end, holding the question, an empty answer, the job
    context, and the options only when there are some. *)
Theorem save_pending_question_dedup (d : Disk) (data : ProfileData)
        (question : string) (options : list string) (job_info now : string) :
  profile_file d = Some data ->
  load_raises d = false ->
  ((exists item, In item (listed_items data)
                 /\ _normalize_question (get_or (item_question item) "")
                    = _normalize_question question) ->
   save_pending_question d question options job_info now = (false, d))
  /\ ((forall item, In item (listed_items data) ->
                    _normalize_question (get_or (item_question item) "")
                    <> _normalize_question question) ->
      dump_raises d = false ->
      exists d' data' entry,
        save_pending_question d question options job_info now = (true, d')
        /\ profile_file d' = Some data'
        /\ load_raises d' = load_raises d /\ dump_raises d' = dump_raises d
        /\ other_sections data' = other_sections data
        /\ listed_items data' = listed_items data ++ [entry]
        /\ (exists answered pending,
              custom_answers data' = Some (mkCustomData (Some answered) (Some pending))
              /\ listed_items data = answered ++ removelast pending
              /\ last pending entry = entry
              /\ pending <> [])
        /\ item_question entry = Some question
        /\ item_answer entry = Some ""
        /\ item_job entry = Some job_info
        /\ item_options entry = match options with
                                | [] => None
                                | _ => Some options
                                end).
Proof.
  exact (save_pending_question_cases d question options job_info now).
Qed.

(** The hypotheses of C10 hold for the Acme profile: the stored question
    asked again in other letters is refused, a new question is queued. *)
Lemma save_pending_question_dedup_witness :
  save_pending_question acme_disk "have you EVER worked at acme corp" []
                        "Acme - Engineer" "2026-01-01 10:00"
  = (false, acme_disk)
  /\ exists d',
       save_pending_question acme_disk "Notice period?" ["None"; "1 month"]
                             "Acme - Engineer" "2026-01-01 10:00"
       = (true, d').
Proof.
  split.
  - refine (proj1 (save_pending_question_dedup
                     acme_disk "have you EVER worked at acme corp" []
                     "Acme - Engineer" "2026-01-01 10:00" eq_refl eq_refl) _).
    eexists. split; [left; reflexivity | vm_compute; reflexivity].
  - destruct (proj2 (save_pending_question_dedup
                       acme_disk "Notice period?" ["None"; "1 month"]
                       "Acme - Engineer" "2026-01-01 10:00" eq_refl eq_refl))
      as (d' & _ & _ & H & _).
    + intros item [<- | []]. vm_compute. discriminate.
    + reflexivity.
    + exists d'. exact H.
Defined.

(* ------------------------------------------------------------------ *)
(** ** Value resolution *)
(* ------------------------------------------------------------------ *)

Lemma is_visa_value_truthy (value : string) :
  is_visa_value value = true -> PyStr.truthy value = true.
Proof. destruct value; [vm_compute; discriminate | reflexivity]. Qed.

(** The profile has no entry for "how did you hear". *)
Lemma profile_lookup_not_how_did_you_hear (p : Profile) (t : FieldType) (v : string) :
  get_field_value p (value_of t) = Some v ->
  FieldType_beq t HOW_DID_YOU_HEAR = false.
Proof. destruct t; try reflexivity. cbn. discriminate. Qed.

(** Refutes C3 as stated: the control of [gender_raw] is classified as a
    visa-status field, the profile value resolved for it is "H-1B", its
    label has an EEO keyword and no authorization keyword, and yet the
    resolver returns a value, the stored custom answer. *)
Lemma gender_control_resolves_despite_conflict :
  field_type gender_field = VISA_STATUS
  /\ get_field_value (profile gender_filler) (value_of (field_type gender_field))
     = Some "H-1B"
  /\ is_visa_value "H-1B" = true
  /\ PyStr.any_in eeo_label_keywords (PyStr.lower (label gender_field)) = true
  /\ PyStr.any_in visa_label_keywords (PyStr.lower (label gender_field)) = false
  /\ fst (_get_value_for_field gender_filler gender_field 0) = "Male".
Proof. vm_compute. repeat split. Qed.

(** C3, amended.  When the value that the profile gives for a field
    contains a visa token, the field is not of an authorization type or
    its label has an EEO keyword, and the label has no authorization
    keyword, the resolver drops the profile value and goes on as if the
    profile had none: the result is what the later sources give (custom
    answers, the file branch, the generative fallback), and it is no
    value when no custom answer is found, the control is not a file input
    and the generative fallback gives nothing. *)
Theorem visa_value_is_discarded (self : FormFiller) (f : FormField)
        (count : nat) (value : string) :
  get_field_value (profile self) (value_of (field_type f)) = Some value ->
  is_visa_value value = true ->
  type_in (field_type f) visa_field_types = false
  \/ PyStr.any_in eeo_label_keywords (PyStr.lower (label f)) = true ->
  PyStr.any_in visa_label_keywords (PyStr.lower (label f)) = false ->
  profile_value self f = None
  /\ _get_value_for_field self f count = resolve_without_profile self f count
  /\ (_check_custom_answer self f = None ->
      String.eqb (input_type f) "file" = false ->
      llm_fallback self f = "" ->
      _get_value_for_field self f count = ("", count)).
Proof.
  intros Hval Hvisa Hfield Hlabel.
  assert (Hp : profile_value self f = None).
  { unfold profile_value. rewrite Hval, (is_visa_value_truthy _ Hvisa).
    unfold visa_conflict. cbv zeta. rewrite Hvisa, Hlabel.
    destruct Hfield as [-> | ->]; [reflexivity |].
    rewrite orb_true_r. reflexivity. }
  assert (Hr : _get_value_for_field self f count
               = resolve_without_profile self f count).
  { unfold _get_value_for_field. rewrite Hp. reflexivity. }
  repeat split; auto.
  intros Hca Hfile Hllm. rewrite Hr. unfold resolve_without_profile.
  rewrite (profile_lookup_not_how_did_you_hear _ _ Hval), Hca, Hfile, Hllm.
  reflexivity.
Qed.

(** The hypotheses of C3 hold for the gender control when nothing is
    stored for it: it resolves to no value. *)
Lemma visa_value_is_discarded_witness :
  _get_value_for_field bare_filler gender_field 0 = ("", 0%nat).
Proof.
  refine (proj2 (proj2 (visa_value_is_discarded
                          bare_filler gender_field 0 (value := "H-1B")
                          _ _ _ _)) _ _ _).
  - vm_compute. reflexivity.
  - vm_compute. reflexivity.
  - right. vm_compute. reflexivity.
  - vm_compute. reflexivity.
  - vm_compute. reflexivity.
  - vm_compute. reflexivity.
  - vm_compute. reflexivity.
Defined.

(* ------------------------------------------------------------------ *)
(** ** Routing of the fill strategies *)
(* ------------------------------------------------------------------ *)

Section Stages.

Variable World : Type.
Variable browser : Browser World.
Variable self : FormFiller.

Lemma never_raises_ret {S A : Type} (a : A) : never_raises (@Fx.ret S A a).
Proof. intros s. cbn. discriminate. Qed.

Lemma succeeds_never_raises (m : F World unit) :
  never_raises (succeeds m).
Proof.
  intros s. unfold succeeds, Fx.try_catch, Fx.bind, Fx.ret.
  destruct (m s) as [[[] |] s1]; cbn; discriminate.
Qed.

Lemma first_success_staged (stages : list (F World bool)) :
  Forall never_raises stages ->
  staged stages (first_success stages).
Proof.
  induction stages as [| st stages IH]; intros Hnr s.
  - right. exists s. split; reflexivity.
  - inversion Hnr as [| ? ? Hst Hrest]; subst.
    specialize (IH Hrest).
    cbn [first_success]. unfold Fx.bind.
    destruct (st s) as [[[|] |] s1] eqn:E.
    + left. exists [], st, stages, s, s1. repeat split; auto.
    + destruct (IH s1) as [(pre & st' & post & s2 & s' & -> & Hpre & Hst' & Hm)
                          | (s' & Hall & Hm)].
      * left. exists (st :: pre), st', post, s2, s'.
        repeat split; auto. cbn [all_fail]. exists s1. auto.
      * right. exists s'. split; [| exact Hm].
        cbn [all_fail]. exists s1. auto.
    + exfalso. apply (Hst s). rewrite E. reflexivity.
Qed.

Lemma staged_never_raises {S : Type} (stages : list (Fx.t S bool))
      (m : Fx.t S bool) :
  staged stages m -> never_raises m.
Proof.
  intros H s.
  destruct (H s) as [(? & ? & ? & ? & ? & _ & _ & _ & ->) | (? & _ & ->)];
    cbn; discriminate.
Qed.

Lemma first_success_never_raises (stages : list (F World bool)) :
  Forall never_raises stages -> never_raises (first_success stages).
Proof.
  intros H. eapply staged_never_raises. apply first_success_staged. exact H.
Qed.

Lemma select_first_never_raises (f : FormField) (matching : string -> bool) :
  never_raises (select_first browser f matching).
Proof.
  unfold select_first. destruct (find matching (options f)).
  - apply succeeds_never_raises.
  - apply never_raises_ret.
Qed.

Lemma select_any_never_raises (f : FormField) (candidates : list string) :
  never_raises (select_any browser f candidates).
Proof.
  apply first_success_never_raises. apply Forall_forall.
  intros m Hin. apply in_map_iff in Hin. destruct Hin as (opt & <- & _).
  apply succeeds_never_raises.
Qed.

Lemma eeo_select_stages_never_raise (f : FormField) (value : string) :
  Forall never_raises (eeo_select_stages browser f value).
Proof.
  unfold eeo_select_stages. cbv zeta.
  repeat constructor.
  - apply select_first_never_raises.
  - destruct (str_mem _ _);
      [apply select_any_never_raises | apply never_raises_ret].
  - apply select_first_never_raises.
  - apply select_any_never_raises.
Qed.

Lemma js_clicks_never_raise (rs : list RadioOption) :
  never_raises (first_success (map (js_click browser) rs)).
Proof.
  apply first_success_never_raises. apply Forall_forall.
  intros m Hin. apply in_map_iff in Hin. destruct Hin as (r & <- & _).
  apply succeeds_never_raises.
Qed.

Lemma check_or_js_click_never_raises (r : RadioOption) :
  never_raises (check_or_js_click browser r).
Proof.
  intros s. unfold check_or_js_click, Fx.try_catch, Fx.bind, Fx.ret, on_page.
  destruct (el_check browser (radio_element r) (page s)) as [[[] |] w]; cbn.
  - discriminate.
  - apply (succeeds_never_raises).
Qed.

Lemma radio_stages_never_raise (rs : list RadioOption) (value_lower : string) :
  Forall never_raises (radio_stages browser rs value_lower).
Proof.
  unfold radio_stages. repeat constructor.
  - apply first_success_never_raises. apply Forall_forall.
    intros m Hin. apply in_map_iff in Hin. destruct Hin as (r & <- & _).
    apply check_or_js_click_never_raises.
  - destruct (str_mem _ _);
      [apply js_clicks_never_raise | apply never_raises_ret].
  - apply js_clicks_never_raise.
  - apply js_clicks_never_raise.
Qed.

(** What [_fill_by_type] returns when the route is a variant that hands
    the field back unchanged. *)
Lemma fill_by_type_of_flag (f : FormField) (value : string)
      (m : F World bool) (s : FillState World) :
  run_strategy browser self (strategy_for f) f value
  = Fx.bind m (fun ok => Fx.ret (ok, f)) ->
  _fill_by_type browser self f value s
  = match m s with
    | (Returned ok, s') => (Returned (ok, f), s')
    | (Raised, s') => (Returned (false, f), s')
    end.
Proof.
  intros H. unfold _fill_by_type, Fx.try_catch. rewrite H.
  unfold Fx.bind, Fx.ret. destruct (m s) as [[ok |] s']; reflexivity.
Qed.

End Stages.

(** Refutes C4 as stated: a work-authorization dropdown is a high-risk
    select field, and it is filled by the plain select strategy. *)
Lemma authorization_select_uses_plain_strategy :
  field_type authorization_select = AUTHORIZED_TO_WORK
  /\ is_high_risk_field (field_type authorization_select) = true
  /\ input_type authorization_select = "select"
  /\ strategy_for authorization_select = fill_select.
Proof. vm_compute. repeat split. Qed.

(** C4, amended.  A select or radio field whose type is an EEO type or
    whose label contains an EEO keyword is filled by the EEO variant
    ([_fill_eeo_select], [_fill_eeo_radio]); any other select or radio
    field, the other high-risk types included, is filled by the plain
    strategy.  The select variant and the radio-group helper run four
    stages in order (exact, yes/no equivalent, partial, decline): the
    first stage that selects something ends the fill with [True], the
    later stages are not run, and when no stage selects anything the
    result is [False]; neither raises, and [_fill_by_type] returns the
    outcome of the variant with an exception turned into [False]. *)
Theorem eeo_select_radio_routing (World : Type) (browser : Browser World)
        (self : FormFiller) (f : FormField) (value : string) :
  let is_eeo := is_eeo_field (field_type f) || is_eeo_keyword_in_text (label f) in
  (input_type f = "select" ->
   strategy_for f = (if is_eeo then fill_eeo_select else fill_select))
  /\ (input_type f = "radio" ->
      strategy_for f = (if is_eeo then fill_eeo_radio else fill_radio))
  /\ (input_type f = "select" -> is_eeo = true ->
      forall s,
        _fill_by_type browser self f value s
        = match _fill_eeo_select browser f value s with
          | (Returned ok, s') => (Returned (ok, f), s')
          | (Raised, s') => (Returned (false, f), s')
          end)
  /\ (input_type f = "radio" -> is_eeo = true ->
      forall s,
        _fill_by_type browser self f value s
        = match _fill_eeo_radio browser f value s with
          | (Returned ok, s') => (Returned (ok, f), s')
          | (Raised, s') => (Returned (false, f), s')
          end)
  /\ staged (eeo_select_stages browser f value) (_fill_eeo_select browser f value)
  /\ forall radio_options value_lower,
       staged (radio_stages browser radio_options value_lower)
              (_select_radio_option browser radio_options value_lower).
Proof.
  cbv zeta.
  assert (Hsel : input_type f = "select" ->
                 strategy_for f
                 = (if is_eeo_field (field_type f) || is_eeo_keyword_in_text (label f)
                    then fill_eeo_select else fill_select)).
  { intros E. unfold strategy_for. rewrite E. reflexivity. }
  assert (Hrad : input_type f = "radio" ->
                 strategy_for f
                 = (if is_eeo_field (field_type f) || is_eeo_keyword_in_text (label f)
                    then fill_eeo_radio else fill_radio)).
  { intros E. unfold strategy_for. rewrite E. reflexivity. }
  split; [exact Hsel |]. split; [exact Hrad |].
  split; [| split; [| split]].
  - intros E Heeo s. apply fill_by_type_of_flag.
    rewrite (Hsel E), Heeo. reflexivity.
  - intros E Heeo s. apply fill_by_type_of_flag.
    rewrite (Hrad E), Heeo. reflexivity.
  - apply first_success_staged. apply eeo_select_stages_never_raise.
  - intros rs v. apply first_success_staged. apply radio_stages_never_raise.
Qed.

(** The hypotheses of C4 hold for a veteran-status dropdown. *)
Lemma eeo_select_radio_routing_witness :
  strategy_for veteran_select = fill_eeo_select
  /\ strategy_for authorization_select = fill_select.
Proof.
  split.
  - exact (proj1 (eeo_select_radio_routing scripted_browser bare_filler
                    veteran_select "No") eq_refl).
  - exact (proj1 (eeo_select_radio_routing scripted_browser bare_filler
                    authorization_select "Yes") eq_refl).
Defined.

(* ------------------------------------------------------------------ *)
(** ** Queueing unanswered questions *)
(* ------------------------------------------------------------------ *)

(** The classifier only returns types of the pattern table, or
    [UNKNOWN]. *)
Lemma match_field_type_range (patterns : list FieldPattern)
      (label name id_attr placeholder : string) (best : FieldType * Q) :
  let r := fold_left (match_step label name id_attr placeholder) patterns best in
  fst r = fst best \/ In (fst r) (map pat_field_type patterns).
Proof.
  revert best. induction patterns as [| p l IH]; intros best; cbn zeta.
  - left. reflexivity.
  - cbn [fold_left map]. destruct (IH (match_step label name id_attr placeholder best p))
      as [H | H].
    + rewrite H. unfold match_step.
      destruct (conf_lt _ _); cbn [fst]; [right; left; reflexivity | left; reflexivity].
    + right. right. exact H.
Qed.

Lemma analyze_field_type (r : RawField) :
  field_type (analyze r)
  = fst (_match_field_type (raw_label r) (raw_name r) (raw_id r)
                           (raw_placeholder r) (raw_aria_label r)).
Proof.
  unfold analyze. destruct (_match_field_type _ _ _ _ _). reflexivity.
Qed.

(** An extracted field is never of type [REFERRAL] or [CUSTOM_QUESTION]. *)
Lemma analyze_never_referral_or_custom (r : RawField) :
  field_type (analyze r) <> REFERRAL /\ field_type (analyze r) <> CUSTOM_QUESTION.
Proof.
  rewrite analyze_field_type. unfold _match_field_type, match_field_type_in.
  destruct (match_field_type_range FIELD_PATTERNS (raw_label r) (raw_name r)
              (raw_id r) (raw_placeholder r) (UNKNOWN, conf_none)) as [H | H].
  - cbn [fst] in H. rewrite H. split; discriminate.
  - split; intros E; rewrite E in H; cbn in H;
      repeat (destruct H as [H | H]; [discriminate |]); exact H.
Qed.

(** The types for which [_save_unanswered_question] reaches
    [save_pending_question]. *)
Lemma queued_types (t : FieldType) :
  is_eeo_field t = false /\ type_in t standard_fields = false
  <-> t = REFERRAL \/ t = CUSTOM_QUESTION \/ t = UNKNOWN.
Proof.
  split.
  - destruct t; cbn; intros [H1 H2]; try discriminate; auto.
  - intros [-> | [-> | ->]]; split; reflexivity.
Qed.

Lemma save_unanswered_guarded (self : FormFiller) (f : FormField)
      (options_arg : option (list string)) (d : Disk) :
  is_eeo_field (field_type f) = true \/ type_in (field_type f) standard_fields = true ->
  _save_unanswered_question self f options_arg d = d.
Proof.
  unfold _save_unanswered_question. intros [-> | ->]; [reflexivity |].
  destruct (is_eeo_field (field_type f)); reflexivity.
Qed.

Section DiskFrame.

Variable World : Type.
Variable browser : Browser World.
Variable self : FormFiller.

Lemma keeps_ret {A : Type} (a : A) : keeps_disk (@Fx.ret (FillState World) A a).
Proof. intros s. reflexivity. Qed.

Lemma keeps_bind {A B : Type} (m : F World A) (k : A -> F World B) :
  keeps_disk m -> (forall a, keeps_disk (k a)) -> keeps_disk (Fx.bind m k).
Proof.
  intros Hm Hk s. unfold Fx.bind. specialize (Hm s).
  destruct (m s) as [[a |] s1]; cbn in *; [| exact Hm].
  rewrite (Hk a s1). exact Hm.
Qed.

Lemma keeps_try_catch {A : Type} (m h : F World A) :
  keeps_disk m -> keeps_disk h -> keeps_disk (Fx.try_catch m h).
Proof.
  intros Hm Hh s. unfold Fx.try_catch. specialize (Hm s).
  destruct (m s) as [[a |] s1]; cbn in *; [exact Hm |].
  rewrite (Hh s1). exact Hm.
Qed.

Lemma keeps_attempt {A : Type} (m : F World A) :
  keeps_disk m -> keeps_disk (Fx.attempt m).
Proof.
  intros Hm s. unfold Fx.attempt. specialize (Hm s).
  destruct (m s) as [r s1]. exact Hm.
Qed.

Lemma keeps_on_page {A : Type} (op : World -> outcome A * World) :
  keeps_disk (on_page op).
Proof. intros s. unfold on_page. destruct (op (page s)). reflexivity. Qed.

Lemma keeps_on_page_total {A : Type} (op : World -> A * World) :
  keeps_disk (on_page_total op).
Proof. intros s. unfold on_page_total. destruct (op (page s)). reflexivity. Qed.

Lemma keeps_asleep (seconds : Q) : keeps_disk (asleep browser seconds).
Proof. intros s. reflexivity. Qed.

Lemma keeps_get_value (f : FormField) :
  keeps_disk (get_value (World := World) self f).
Proof.
  intros s. unfold get_value. destruct (_get_value_for_field _ _ _). reflexivity.
Qed.

Lemma keeps_on_disk_id (op : Disk -> Disk) :
  (forall d, op d = d) -> keeps_disk (@on_disk World op).
Proof. intros H s. cbn. apply H. Qed.

Lemma keeps_first_success (attempts : list (F World bool)) :
  Forall keeps_disk attempts -> keeps_disk (first_success attempts).
Proof.
  induction 1 as [| a l Ha Hl IH]; cbn [first_success].
  - apply keeps_ret.
  - apply keeps_bind; [exact Ha |]. intros [|]; [apply keeps_ret | exact IH].
Qed.

End DiskFrame.

(** Breaks a computation into its steps and closes the ones that only
    touch the page. *)
Ltac keeps_step :=
  match goal with
  | |- keeps_disk (Fx.ret _) => apply keeps_ret
  | |- keeps_disk (Fx.bind _ _) => apply keeps_bind; [| intros ?]
  | |- keeps_disk (Fx.try_catch _ _) => apply keeps_try_catch
  | |- keeps_disk (Fx.attempt _) => apply keeps_attempt
  | |- keeps_disk (on_page _) => apply keeps_on_page
  | |- keeps_disk (on_page_total _) => apply keeps_on_page_total
  | |- keeps_disk (asleep _ _) => apply keeps_asleep
  | |- keeps_disk (get_value _ _) => apply keeps_get_value
  | |- keeps_disk (if ?b then _ else _) => destruct b
  | |- keeps_disk (match ?x with _ => _ end) => destruct x
  | |- keeps_disk (let (_, _) := ?x in _) => destruct x
  end.

Ltac keeps := repeat keeps_step.

Section Queueing.

Variable World : Type.
Variable browser : Browser World.
Variable self : FormFiller.

Lemma keeps_succeeds (m : F World unit) :
  keeps_disk m -> keeps_disk (succeeds m).
Proof. intros H. unfold succeeds. keeps. exact H. Qed.

Lemma keeps_collect_visible (l : list ElementHandle) :
  keeps_disk (collect_visible browser l).
Proof. induction l as [| e l IH]; cbn [collect_visible]; keeps; exact IH. Qed.

Lemma keeps_click_option (e : ElementHandle) :
  keeps_disk (click_option browser e).
Proof. unfold click_option. keeps. Qed.

Lemma keeps_click_decline (l : list (ElementHandle * string)) :
  keeps_disk (click_decline browser l).
Proof.
  induction l as [| [e t] l IH]; cbn [click_decline]; keeps;
    auto using keeps_click_option.
Qed.

Lemma keeps_fill_eeo_select (f : FormField) (value : string) :
  keeps_disk (_fill_eeo_select browser f value).
Proof.
  assert (Hopt : forall opt, keeps_disk (select_opt browser f opt)).
  { intros opt. apply keeps_succeeds. keeps. }
  assert (Hany : forall l, keeps_disk (select_any browser f l)).
  { intros l. apply keeps_first_success. apply Forall_forall. intros m Hin.
    apply in_map_iff in Hin. destruct Hin as (o & <- & _). apply Hopt. }
  assert (Hfirst : forall p, keeps_disk (select_first browser f p)).
  { intros p. unfold select_first. keeps. apply Hopt. }
  unfold _fill_eeo_select. apply keeps_first_success.
  unfold eeo_select_stages. cbv zeta. repeat constructor; keeps; auto.
Qed.

Lemma keeps_js_clicks (rs : list RadioOption) :
  keeps_disk (first_success (map (js_click browser) rs)).
Proof.
  apply keeps_first_success. apply Forall_forall. intros m Hin.
  apply in_map_iff in Hin. destruct Hin as (o & <- & _).
  apply keeps_succeeds. keeps.
Qed.

Lemma keeps_select_radio_option (rs : list RadioOption) (v : string) :
  keeps_disk (_select_radio_option browser rs v).
Proof.
  unfold _select_radio_option. apply keeps_first_success.
  unfold radio_stages. repeat constructor; keeps; try apply keeps_js_clicks.
  apply keeps_first_success. apply Forall_forall. intros m Hin.
  apply in_map_iff in Hin. destruct Hin as (o & <- & _).
  unfold check_or_js_click. keeps. apply keeps_succeeds. keeps.
Qed.

Lemma keeps_fill_eeo_radio (f : FormField) (value : string) :
  keeps_disk (_fill_eeo_radio browser f value).
Proof.
  unfold _fill_eeo_radio. cbv zeta. keeps;
    try apply keeps_select_radio_option.
  unfold activate_radio. keeps.
  apply keeps_first_success.
  match goal with |- Forall _ (match ?a with _ => _ end ++ _) => destruct a end;
    cbn [app]; repeat constructor; try apply keeps_succeeds; keeps.
Qed.

(** The custom-dropdown strategy changes the profile file only through
    [_save_unanswered_question]. *)
Lemma keeps_fill_eeo_text_dropdown (f : FormField) (value : string) :
  (forall e o d, _save_unanswered_question self (set_element f e) o d = d) ->
  keeps_disk (_fill_eeo_text_dropdown browser self f value).
Proof.
  intros Hsave. unfold _fill_eeo_text_dropdown. cbv zeta.
  keeps; auto using keeps_collect_visible, keeps_click_option,
         keeps_click_decline, keeps_on_disk_id.
Qed.

Lemma keeps_phone_or_false (f : FormField) (value : string) :
  keeps_disk (phone_or_false browser f value).
Proof. unfold phone_or_false. keeps. Qed.

End Queueing.

Section QueueingClaims.

Variable World : Type.
Variable browser : Browser World.
Variable self : FormFiller.

(** The field keeps its type when its element is replaced. *)
Lemma save_unanswered_guarded_element (f : FormField) :
  is_eeo_field (field_type f) = true \/ type_in (field_type f) standard_fields = true ->
  forall e o d, _save_unanswered_question self (set_element f e) o d = d.
Proof. intros H e o d. apply save_unanswered_guarded. exact H. Qed.

Lemma keeps_fill_text (f : FormField) (value : string) :
  is_eeo_field (field_type f) = true \/ type_in (field_type f) standard_fields = true ->
  keeps_disk (_fill_text browser self f value).
Proof.
  intros H. unfold _fill_text. keeps;
    auto using keeps_phone_or_false, keeps_fill_eeo_text_dropdown,
               save_unanswered_guarded_element.
Qed.

Lemma keeps_fill_by_type (f : FormField) (value : string) :
  is_eeo_field (field_type f) = true \/ type_in (field_type f) standard_fields = true ->
  keeps_disk (_fill_by_type browser self f value).
Proof.
  intros H. unfold _fill_by_type. keeps.
  unfold run_strategy. cbv zeta. destruct (strategy_for f); keeps;
    auto using keeps_fill_text, keeps_fill_eeo_select, keeps_fill_eeo_radio.
Qed.

(** Filling a field whose type is an EEO type or a standard profile type
    never writes the profile file. *)
Lemma fill_field_keeps_disk (f : FormField) :
  is_eeo_field (field_type f) = true \/ type_in (field_type f) standard_fields = true ->
  keeps_disk (fill_field browser self f).
Proof.
  intros H. unfold fill_field. keeps;
    auto using keeps_on_disk_id, save_unanswered_guarded.
  all: apply keeps_fill_by_type; exact H.
Qed.

Lemma not_unknown_beq (t : FieldType) :
  t <> UNKNOWN -> FieldType_beq t UNKNOWN = false.
Proof. destruct t; try reflexivity. intros H. contradiction H. reflexivity. Qed.

(** The branch of [fill_field] taken when nothing was resolved. *)
Lemma fill_field_unresolved (f : FormField) (s : FillState World) :
  field_type f <> UNKNOWN ->
  fst (_get_value_for_field self f (_file_input_count s)) = "" ->
  fill_field browser self f s
  = (Returned (mkFilledField f "" false (is_high_risk_field (field_type f))),
     mkFillState (page s)
                 (_save_unanswered_question self f None (disk s))
                 (snd (_get_value_for_field self f (_file_input_count s)))).
Proof.
  intros Ht Hv. unfold fill_field, Fx.bind, get_value.
  destruct (_get_value_for_field self f (_file_input_count s)) as [v c].
  cbn [fst snd] in *. subst v. rewrite (not_unknown_beq Ht). reflexivity.
Qed.

End QueueingClaims.

(** Refutes C7 as stated: the last-name control is neither unknown nor
    EEO, nothing is resolved for it, and no pending question is recorded:
    the profile file is as before. *)
Lemma last_name_gap_not_queued :
  field_type last_name_field = LAST_NAME
  /\ fst (_get_value_for_field bare_filler last_name_field 0) = ""
  /\ snd (fill_field scripted_browser bare_filler last_name_field
                     (mkFillState sex_page acme_disk 0))
     = mkFillState sex_page acme_disk 0
  /\ pending_items acme_disk = [].
Proof. vm_compute. repeat split. Qed.

(** C7, amended.  When nothing is resolved for a field whose type is not
    unknown, [fill_field] returns normally with the field marked
    unsuccessful (no written value) and does not touch the page.  The
    profile file is left as it is when the type is an EEO type or a
    standard profile type; for the two remaining types, referral and
    custom question, the question is handed to [save_pending_question]
    with the options of the field and the job context, which appends it to
    the pending list when the file loads, can be written and does not list
    the normalized question yet. *)
Theorem unresolved_field_marked_unsuccessful (World : Type)
        (browser : Browser World) (self : FormFiller) (f : FormField)
        (s : FillState World) :
  field_type f <> UNKNOWN ->
  fst (_get_value_for_field self f (_file_input_count s)) = "" ->
  exists s',
    fill_field browser self f s
    = (Returned (mkFilledField f "" false (is_high_risk_field (field_type f))), s')
    /\ page s' = page s
    /\ (is_eeo_field (field_type f) = true
        \/ type_in (field_type f) standard_fields = true ->
        disk s' = disk s)
    /\ (is_eeo_field (field_type f) = false
        /\ type_in (field_type f) standard_fields = false
        <-> field_type f = REFERRAL \/ field_type f = CUSTOM_QUESTION)
    /\ (field_type f = REFERRAL \/ field_type f = CUSTOM_QUESTION ->
        disk s' = snd (save_pending_question (disk s) (label f) (options f)
                                             (job_info self) (now self))
        /\ forall data,
             profile_file (disk s) = Some data ->
             load_raises (disk s) = false ->
             dump_raises (disk s) = false ->
             (forall item, In item (listed_items data) ->
                           _normalize_question (get_or (item_question item) "")
                           <> _normalize_question (label f)) ->
             exists data' entry,
               profile_file (disk s') = Some data'
               /\ listed_items data' = listed_items data ++ [entry]
               /\ item_question entry = Some (label f)
               /\ item_answer entry = Some ""
               /\ item_job entry = Some (job_info self)
               /\ item_options entry = match options f with
                                       | [] => None
                                       | _ => Some (options f)
                                       end).
Proof.
  intros Ht Hv. eexists. split; [apply fill_field_unresolved; assumption |].
  cbn [page disk]. split; [reflexivity |].
  split; [intros H; apply save_unanswered_guarded; exact H |].
  split.
  { rewrite queued_types. split.
    - intros [H | [H | H]]; auto. contradiction.
    - intros [H | H]; auto. }
  intros Hq.
  assert (Hsave : _save_unanswered_question self f None (disk s)
                  = snd (save_pending_question (disk s) (label f) (options f)
                                               (job_info self) (now self))).
  { unfold _save_unanswered_question.
    destruct Hq as [-> | ->]; reflexivity. }
  split; [exact Hsave |].
  intros data Hfile Hload Hdump Hnew. rewrite Hsave.
  destruct (proj2 (save_pending_question_cases (disk s) (label f) (options f)
                     (job_info self) (now self) Hfile Hload) Hnew Hdump)
    as (d' & data' & entry & Heq & Hf' & _ & _ & _ & Hl & _ & Hq' & Ha & Hj & Ho).
  rewrite Heq. cbn [snd]. exists data', entry. auto 10.
Qed.

(** C1, at an input where the code departs from it.  The required text
    control labelled "Sex (optional)" is of unknown type and carries an EEO
    keyword in its label, so [_fill_text] takes it for an EEO field and
    hands it to [_fill_eeo_text_dropdown].  The stored answer "Male" is
    typed, none of the options shown ("Man", "Woman") matches it, and
    [_save_unanswered_question], whose guard "Don't save EEO fields" looks
    at the semantic type only, records the label and the options as a
    pending question. *)
Lemma eeo_keyword_field_is_queued :
  field_type sex_field = UNKNOWN
  /\ is_eeo_field (field_type sex_field) = false
  /\ is_eeo_keyword_in_text (label sex_field) = true
  /\ pending_items sex_disk = []
  /\ (let (result, s') :=
        fill_field scripted_browser sex_filler sex_field
                   (mkFillState sex_page sex_disk 0) in
      result = Returned (mkFilledField sex_field "Male" true false)
      /\ map item_question (pending_items (disk s')) = [Some "Sex (optional)"]
      /\ map item_options (pending_items (disk s')) = [Some ["Man"; "Woman"]]).
Proof. vm_compute. repeat split. Qed.

(** The guard of [_save_unanswered_question] on the semantic type.  For a
    field whose semantic type is an EEO type (gender, ethnicity, race,
    hispanic_latino, veteran_status, disability_status),
    [_save_unanswered_question] does nothing, from either place that calls
    it, and filling the field leaves the profile file, hence its pending
    list, as it was, whether the fill succeeds or not and whatever the
    page does. *)
Theorem eeo_typed_field_never_queued (World : Type) (browser : Browser World)
        (self : FormFiller) (f : FormField) :
  is_eeo_field (field_type f) = true ->
  (forall options_arg d, _save_unanswered_question self f options_arg d = d)
  /\ (forall value s,
         disk (snd (_fill_eeo_text_dropdown browser self f value s)) = disk s)
  /\ (forall s,
         disk (snd (fill_field browser self f s)) = disk s
         /\ pending_items (disk (snd (fill_field browser self f s)))
            = pending_items (disk s)).
Proof.
  intros H. split; [| split].
  - intros o d. apply save_unanswered_guarded. left. exact H.
  - intros value s. apply keeps_fill_eeo_text_dropdown.
    apply save_unanswered_guarded_element. left. exact H.
  - intros s.
    assert (E : disk (snd (fill_field browser self f s)) = disk s)
      by (apply fill_field_keeps_disk; left; exact H).
    rewrite E. split; reflexivity.
Qed.

(** The hypothesis on the type holds for a veteran-status dropdown. *)
Lemma eeo_typed_field_never_queued_witness :
  is_eeo_field (field_type veteran_select) = true
  /\ disk (snd (fill_field scripted_browser sex_filler veteran_select
                           (mkFillState sex_page sex_disk 0)))
     = sex_disk.
Proof.
  split; [reflexivity |].
  exact (proj1 (proj2 (proj2 (eeo_typed_field_never_queued
                                scripted_browser sex_filler veteran_select
                                eq_refl))
                      (mkFillState sex_page sex_disk 0))).
Defined.

(** The hypotheses of C7 hold for a referral question built by hand: it
    is marked unsuccessful and queued. *)
Lemma unresolved_field_marked_unsuccessful_witness :
  exists s',
    fill_field scripted_browser bare_filler referral_field
               (mkFillState sex_page acme_disk 0)
    = (Returned (mkFilledField referral_field "" false false), s')
    /\ disk s' = snd (save_pending_question acme_disk "Who referred you?" []
                                            "Acme - Engineer" "2026-01-01 10:00").
Proof.
  destruct (unresolved_field_marked_unsuccessful
              scripted_browser bare_filler referral_field
              (mkFillState sex_page acme_disk 0))
    as (s' & Hres & _ & _ & _ & Hq).
  - discriminate.
  - vm_compute. reflexivity.
  - exists s'. split; [exact Hres |].
    exact (proj1 (Hq (or_introl eq_refl))).
Defined.

(* ------------------------------------------------------------------ *)
(** ** What a fill never raises *)
(* ------------------------------------------------------------------ *)

Section NoRaise.

Variable World : Type.
Variable browser : Browser World.
Variable self : FormFiller.

Lemma nr_bind {S A B : Type} (m : Fx.t S A) (k : A -> Fx.t S B) :
  never_raises m -> (forall a, never_raises (k a)) -> never_raises (Fx.bind m k).
Proof.
  intros Hm Hk s. unfold Fx.bind. specialize (Hm s).
  destruct (m s) as [[a |] s1]; cbn in *; [apply Hk | congruence].
Qed.

Lemma nr_try_catch {S A : Type} (m h : Fx.t S A) :
  never_raises h -> never_raises (Fx.try_catch m h).
Proof.
  intros Hh s. unfold Fx.try_catch.
  destruct (m s) as [[a |] s1]; cbn; [discriminate | apply Hh].
Qed.

Lemma nr_attempt {S A : Type} (m : Fx.t S A) : never_raises (Fx.attempt m).
Proof. intros s. unfold Fx.attempt. destruct (m s). cbn. discriminate. Qed.

Lemma nr_on_page_total {A : Type} (op : World -> A * World) :
  never_raises (on_page_total op).
Proof. intros s. unfold on_page_total. destruct (op (page s)). cbn. discriminate. Qed.

Lemma nr_asleep (seconds : Q) : never_raises (asleep browser seconds).
Proof. intros s. cbn. discriminate. Qed.

Lemma nr_on_disk (op : Disk -> Disk) : never_raises (@on_disk World op).
Proof. intros s. cbn. discriminate. Qed.

Lemma nr_get_value (f : FormField) : never_raises (get_value (World := World) self f).
Proof.
  intros s. unfold get_value. destruct (_get_value_for_field _ _ _).
  cbn. discriminate.
Qed.

End NoRaise.

(** Breaks a computation into its steps; what is under a [try] needs no
    look. *)
Ltac no_raise_step :=
  match goal with
  | |- never_raises (Fx.ret _) => apply never_raises_ret
  | |- never_raises (Fx.bind _ _) => apply nr_bind; [| intros ?]
  | |- never_raises (Fx.try_catch _ _) => apply nr_try_catch
  | |- never_raises (Fx.attempt _) => apply nr_attempt
  | |- never_raises (on_page_total _) => apply nr_on_page_total
  | |- never_raises (asleep _ _) => apply nr_asleep
  | |- never_raises (on_disk _) => apply nr_on_disk
  | |- never_raises (get_value _ _) => apply nr_get_value
  | |- never_raises (if ?b then _ else _) => destruct b
  | |- never_raises (match ?x with _ => _ end) => destruct x
  | |- never_raises (let (_, _) := ?x in _) => destruct x
  end.

Ltac no_raise := repeat no_raise_step.

Section FillNeverRaises.

Variable World : Type.
Variable browser : Browser World.
Variable self : FormFiller.

Lemma fill_eeo_text_dropdown_never_raises (f : FormField) (value : string) :
  never_raises (_fill_eeo_text_dropdown browser self f value).
Proof. unfold _fill_eeo_text_dropdown. cbv zeta. no_raise. Qed.

Lemma phone_or_false_never_raises (f : FormField) (value : string) :
  never_raises (phone_or_false browser f value).
Proof. unfold phone_or_false. no_raise. Qed.

Lemma fill_text_never_raises (f : FormField) (value : string) :
  never_raises (_fill_text browser self f value).
Proof.
  unfold _fill_text. no_raise;
    auto using phone_or_false_never_raises, fill_eeo_text_dropdown_never_raises.
Qed.

Lemma fill_by_type_never_raises (f : FormField) (value : string) :
  never_raises (_fill_by_type browser self f value).
Proof. unfold _fill_by_type. no_raise. Qed.

Lemma fill_field_never_raises (f : FormField) :
  never_raises (fill_field browser self f).
Proof.
  unfold fill_field. no_raise; apply fill_by_type_never_raises.
Qed.

End FillNeverRaises.

(* ------------------------------------------------------------------ *)
(** ** The dynamic-field passes *)
(* ------------------------------------------------------------------ *)

Lemma extract_calls_app (a b : list Call) :
  extract_calls (a ++ b) = extract_calls a + extract_calls b.
Proof. unfold extract_calls. rewrite filter_app, length_app. reflexivity. Qed.

Section CallLog.

Variable World : Type.
Variable browser : Browser World.
Variable self : FormFiller.

Lemma ea_ret {A : Type} (a : A) (n : nat) :
  extracts_at_most n (@Fx.ret (RunState World) A a).
Proof.
  intros s. exists []. cbn. rewrite app_nil_r. split; [reflexivity | lia].
Qed.

Lemma ea_weaken {A : Type} (n n' : nat) (m : R World A) :
  n <= n' -> extracts_at_most n m -> extracts_at_most n' m.
Proof.
  intros Hle H s. destruct (H s) as (extra & E & Hn).
  exists extra. split; [exact E | lia].
Qed.

Lemma ea_bind {A B : Type} (a b : nat) (m : R World A) (k : A -> R World B) :
  extracts_at_most a m -> (forall x, extracts_at_most b (k x)) ->
  extracts_at_most (a + b) (Fx.bind m k).
Proof.
  intros Hm Hk s. unfold Fx.bind. destruct (Hm s) as (e1 & E1 & H1).
  destruct (m s) as [[x |] s1]; cbn [snd] in *.
  - destruct (Hk x s1) as (e2 & E2 & H2). exists (e1 ++ e2).
    rewrite E2, E1, app_assoc, extract_calls_app. split; [reflexivity | lia].
  - exists e1. split; [exact E1 | lia].
Qed.

Lemma ea_bind0 {A B : Type} (n : nat) (m : R World A) (k : A -> R World B) :
  extracts_at_most 0 m -> (forall x, extracts_at_most n (k x)) ->
  extracts_at_most n (Fx.bind m k).
Proof. intros Hm Hk. exact (@ea_bind A B 0 n m k Hm Hk). Qed.

Lemma ea_attempt {A : Type} (n : nat) (m : R World A) :
  extracts_at_most n m -> extracts_at_most n (Fx.attempt m).
Proof.
  intros H s. unfold Fx.attempt. specialize (H s). destruct (m s). exact H.
Qed.

Lemma ea_calling {A : Type} (c : Call) (m : F World A) :
  extracts_at_most (if is_extract c then 1 else 0) (calling c m).
Proof.
  intros s. unfold calling. destruct (m (fill_state s)). exists [c].
  split; [reflexivity |]. unfold extract_calls. cbn.
  destruct (is_extract c); cbn; lia.
Qed.

Lemma ea_reset : extracts_at_most 0 (@reset_file_input_count World).
Proof. intros s. exists []. cbn. rewrite app_nil_r. split; [reflexivity | lia]. Qed.

Lemma ea_do_sleep (q : Q) : extracts_at_most 0 (do_sleep browser q).
Proof. apply (ea_calling (call_sleep q)). Qed.

Lemma ea_do_fill_field (f : FormField) :
  extracts_at_most 0 (do_fill_field browser self f).
Proof. apply (ea_calling (call_fill_field f)). Qed.

Lemma ea_do_get_active_frame : extracts_at_most 0 (do_get_active_frame browser).
Proof. apply (ea_calling call_get_active_frame). Qed.

Lemma ea_extract_form_fields : extracts_at_most 1 (extract_form_fields browser).
Proof.
  unfold extract_form_fields.
  apply (ea_bind (a := 1) (b := 0)).
  - apply (ea_calling call_extract_form_fields).
  - intros x. apply ea_ret.
Qed.

Lemma ea_verify_first_name (e : ElementHandle) (v : string) :
  extracts_at_most 0 (verify_first_name browser e v).
Proof.
  unfold verify_first_name. apply ea_bind0; [| intros; apply ea_ret].
  apply ea_attempt. apply ea_bind0; [apply (ea_calling (call_input_value e)) |].
  intros cur. destruct (negb _); [| apply ea_ret].
  apply ea_bind0; [apply (ea_calling (call_focus e)) |]. intros _.
  apply ea_bind0; [apply (ea_calling (call_fill e v)) |]. intros _.
  apply ea_do_sleep.
Qed.

Lemma ea_dynamic_step (fn : option (ElementHandle * string))
      (acc : list FilledField * list (string * bool)) (f : FormField) :
  extracts_at_most 0 (dynamic_step browser self fn acc f).
Proof.
  unfold dynamic_step. destruct acc as [rs fl].
  destruct (marked_filled fl (field_key f)); [apply ea_ret |].
  apply ea_bind0; [apply ea_do_fill_field |]. intros r.
  apply ea_bind0.
  - destruct fn as [[e v] |]; [| apply ea_ret].
    destruct (PyStr.truthy v); [apply ea_verify_first_name | apply ea_ret].
  - intros _. apply ea_bind0; [apply ea_do_sleep | intros; apply ea_ret].
Qed.

Lemma ea_dynamic_fill (fn : option (ElementHandle * string))
      (l : list FormField) (acc : list FilledField * list (string * bool)) :
  extracts_at_most 0 (dynamic_fill browser self fn acc l).
Proof.
  revert acc. induction l as [| f l IH]; intros acc; cbn [dynamic_fill].
  - apply ea_ret.
  - apply ea_bind0; [apply ea_dynamic_step | intros; apply IH].
Qed.

(** A call of [_fill_dynamic_fields] extracts at most [max_passes]
    times. *)
Lemma ea_fill_dynamic_fields (max_passes : nat) (rs : list FilledField)
      (fl : list (string * bool)) (fn : option (ElementHandle * string)) :
  extracts_at_most max_passes (_fill_dynamic_fields browser self rs fl fn max_passes).
Proof.
  revert rs fl. induction max_passes as [| n IH]; intros rs fl;
    cbn [_fill_dynamic_fields].
  - apply ea_ret.
  - apply ea_bind0; [apply ea_do_sleep |]. intros _.
    apply ea_bind0; [apply ea_do_get_active_frame |]. intros _.
    change (S n) with (1 + n). apply ea_bind; [apply ea_extract_form_fields |].
    intros new_fields.
    destruct (negb _); [apply ea_ret |].
    apply ea_bind0; [apply ea_dynamic_fill |]. intros [rs' fl']. apply IH.
Qed.

Lemma ea_first_pass_step (acc : PassState) (f : FormField) :
  extracts_at_most 0 (first_pass_step browser self acc f).
Proof.
  unfold first_pass_step.
  destruct (unknown_optional f); [apply ea_ret |].
  destruct (marked_filled _ _); [apply ea_ret |].
  apply ea_bind0; [destruct (ps_is_first_field acc);
                   [apply ea_do_sleep | apply ea_ret] |]. intros _.
  apply ea_bind0; [apply ea_do_fill_field |]. intros r.
  apply ea_bind0.
  { destruct (_ && _); [| apply ea_ret].
    apply ea_bind0; [apply ea_do_sleep |]. intros _.
    apply ea_bind0; [apply ea_do_get_active_frame |]. intros _.
    apply ea_do_fill_field. }
  intros r'. cbv zeta.
  apply ea_bind0.
  { match goal with
    | |- extracts_at_most _ (match ?x with _ => _ end) =>
        destruct x as [[e v] |]
    end; [| apply ea_ret].
    destruct (_ && _); [apply ea_verify_first_name | apply ea_ret]. }
  intros _. apply ea_bind0; [apply ea_do_sleep | intros; apply ea_ret].
Qed.

Lemma ea_first_pass (fields : list FormField) (acc : PassState) :
  extracts_at_most 0 (first_pass browser self acc fields).
Proof.
  revert acc. induction fields as [| f l IH]; intros acc; cbn [first_pass].
  - apply ea_ret.
  - apply ea_bind0; [apply ea_first_pass_step | intros; apply IH].
Qed.

End CallLog.

Lemma dict_get_set_same {A : Type} (d : list (string * A)) (k : string) (v : A) :
  dict_get (dict_set d k v) k = Some v.
Proof.
  induction d as [| [k' v'] d IH]; cbn.
  - rewrite String.eqb_refl. reflexivity.
  - destruct (String.eqb k' k) eqn:E; cbn; rewrite E; [reflexivity | exact IH].
Qed.

Lemma dict_get_set_other {A : Type} (d : list (string * A)) (k k' : string) (v : A) :
  k <> k' -> dict_get (dict_set d k v) k' = dict_get d k'.
Proof.
  intros Hne. induction d as [| [k0 v0] d IH]; cbn.
  - destruct (String.eqb k k') eqn:E; [apply String.eqb_eq in E; contradiction |].
    reflexivity.
  - destruct (String.eqb k0 k) eqn:E; cbn.
    + apply String.eqb_eq in E. subst k0.
      destruct (String.eqb k k') eqn:E'; [apply String.eqb_eq in E'; contradiction |].
      reflexivity.
    + destruct (String.eqb k0 k'); [reflexivity | exact IH].
Qed.

Lemma dict_get_None_keys {A : Type} (d : list (string * A)) (k : string) :
  str_mem k (map fst d) = false <-> dict_get d k = None.
Proof.
  induction d as [| [k' v] d IH]; cbn; [tauto |].
  rewrite (String.eqb_sym k k').
  destruct (String.eqb k' k); cbn; [split; discriminate | exact IH].
Qed.

(** A key marked as filled stays marked. *)
Lemma marked_filled_mark (fl : list (string * bool)) (k k' : string) (ok : bool) :
  marked_filled fl k' = true -> marked_filled (mark fl k ok) k' = true.
Proof.
  unfold marked_filled, mark, dict_mem. intros H.
  destruct (string_dec k k') as [-> | Hne].
  - destruct ok; [rewrite dict_get_set_same; reflexivity |].
    destruct (dict_get fl k') as [b |] eqn:E; [| discriminate H].
    rewrite E. exact H.
  - destruct ok; [rewrite dict_get_set_other; auto |].
    destruct (dict_get fl k); [exact H |].
    rewrite dict_get_set_other; auto.
Qed.

Lemma marked_filled_success (fl : list (string * bool)) (k : string) :
  marked_filled (mark fl k true) k = true.
Proof. unfold marked_filled, mark. rewrite dict_get_set_same. reflexivity. Qed.

(** Which fields of a re-extraction are kept as new. *)
Lemma dynamic_fields_of_spec (rs : list FilledField) (fl : list (string * bool))
      (new_fields : list FormField) (f : FormField) :
  In f (dynamic_fields_of rs fl new_fields)
  <-> In f new_fields
      /\ ~ In (selector f) (map (fun r => selector (field r)) rs)
      /\ dict_get fl (field_key f) = None
      /\ unknown_optional f = false.
Proof.
  unfold dynamic_fields_of. rewrite filter_In.
  rewrite !andb_true_iff, !negb_true_iff, dict_get_None_keys.
  split.
  - intros (Hin & (Hs & Hk) & Hu). repeat split; auto.
    intros Hsel. apply str_mem_In in Hsel. congruence.
  - intros (Hin & Hs & Hk & Hu). repeat split; auto.
    destruct (str_mem (selector f) _) eqn:E; [| reflexivity].
    apply str_mem_In in E. contradiction.
Qed.

Section Passes.

Variable World : Type.
Variable browser : Browser World.
Variable self : FormFiller.

Lemma returns {S A : Type} (m : Fx.t S A) :
  never_raises m -> forall s, exists a s', m s = (Returned a, s').
Proof.
  intros H s. specialize (H s). destruct (m s) as [[a |] s'].
  - exists a, s'. reflexivity.
  - contradiction H. reflexivity.
Qed.

Lemma run_bind {S A B : Type} (m : Fx.t S A) (k : A -> Fx.t S B)
      (s s' : S) (a : A) :
  m s = (Returned a, s') -> Fx.bind m k s = k a s'.
Proof. intros E. unfold Fx.bind. rewrite E. reflexivity. Qed.

Lemma calling_calls {A : Type} (c : Call) (m : F World A)
      (s s' : RunState World) (r : outcome A) :
  calling c m s = (r, s') -> calls s' = calls s ++ [c].
Proof.
  unfold calling. destruct (m (fill_state s)). intros E.
  injection E as _ <-. reflexivity.
Qed.

Lemma calling_never_raises {A : Type} (c : Call) (m : F World A) :
  never_raises m -> never_raises (calling c m).
Proof.
  intros H s. unfold calling. specialize (H (fill_state s)).
  destruct (m (fill_state s)). exact H.
Qed.

Lemma do_sleep_never_raises (q : Q) : never_raises (do_sleep browser q).
Proof. apply calling_never_raises. apply nr_asleep. Qed.

Lemma do_fill_field_never_raises (f : FormField) :
  never_raises (do_fill_field browser self f).
Proof. apply calling_never_raises. apply fill_field_never_raises. Qed.

Lemma verify_first_name_never_raises (e : ElementHandle) (v : string) :
  never_raises (verify_first_name browser e v).
Proof.
  unfold verify_first_name. apply nr_bind; [apply nr_attempt |].
  intros _. apply never_raises_ret.
Qed.

Lemma dynamic_step_never_raises (fn : option (ElementHandle * string))
      (acc : list FilledField * list (string * bool)) (f : FormField) :
  never_raises (dynamic_step browser self fn acc f).
Proof.
  unfold dynamic_step. destruct acc as [rs fl].
  destruct (marked_filled fl (field_key f)); [apply never_raises_ret |].
  apply nr_bind; [apply do_fill_field_never_raises |]. intros r.
  apply nr_bind.
  - destruct fn as [[e v] |]; [| apply never_raises_ret].
    destruct (PyStr.truthy v);
      [apply verify_first_name_never_raises | apply never_raises_ret].
  - intros _. apply nr_bind; [apply do_sleep_never_raises |].
    intros _. apply never_raises_ret.
Qed.

(** One step of the fill of the new fields: the field is handed to
    [fill_field] unless its key is already marked as filled, and the keys
    marked as filled stay so. *)
Lemma dynamic_step_fills (fn : option (ElementHandle * string))
      (rs : list FilledField) (fl : list (string * bool)) (f : FormField)
      (s : RunState World) :
  exists rs' fl' s' extra,
    dynamic_step browser self fn (rs, fl) f s = (Returned (rs', fl'), s')
    /\ calls s' = calls s ++ extra
    /\ (In (call_fill_field f) extra \/ marked_filled fl' (field_key f) = true)
    /\ (marked_filled fl (field_key f) = false ->
        exists rest, extra = call_fill_field f :: rest)
    /\ (forall k, marked_filled fl k = true -> marked_filled fl' k = true)
    /\ (exists new, rs' = rs ++ new).
Proof.
  unfold dynamic_step.
  destruct (marked_filled fl (field_key f)) eqn:Em.
  - exists rs, fl, s, []. cbn. rewrite app_nil_r.
    repeat split; auto; try discriminate. exists []. rewrite app_nil_r. reflexivity.
  - destruct (returns (@do_fill_field_never_raises f) s) as (r & s1 & E1).
    rewrite (@run_bind _ _ _ _ _ _ _ _ E1).
    assert (C1 : calls s1 = calls s ++ [call_fill_field f]).
    { apply (@calling_calls _ _ _ _ _ _ E1). }
    set (v := match fn with
              | Some (e, val) =>
                  if PyStr.truthy val then verify_first_name browser e val
                  else Fx.ret tt
              | None => Fx.ret tt
              end).
    assert (Hv : never_raises v /\ extracts_at_most 0 v).
    { unfold v. destruct fn as [[e val] |];
        [destruct (PyStr.truthy val) |];
        split; auto using verify_first_name_never_raises, ea_verify_first_name,
               never_raises_ret, ea_ret. }
    destruct Hv as [Hvn Hve].
    destruct (returns Hvn s1) as ([] & s2 & E2). rewrite (@run_bind _ _ _ _ _ _ _ _ E2).
    destruct (Hve s1) as (e1 & C2 & _). rewrite E2 in C2. cbn [snd] in C2.
    destruct (returns (@do_sleep_never_raises (3 # 10)%Q) s2) as ([] & s3 & E3).
    rewrite (@run_bind _ _ _ _ _ _ _ _ E3).
    assert (C3 : calls s3 = calls s2 ++ [call_sleep (3 # 10)%Q]).
    { apply (@calling_calls _ _ _ _ _ _ E3). }
    eexists _, _, _, ([call_fill_field f] ++ e1 ++ [call_sleep (3 # 10)%Q]).
    split; [reflexivity |].
    split; [rewrite C3, C2, C1, <- !app_assoc; reflexivity |].
    split; [left; left; reflexivity |].
    split; [intros _; eexists; reflexivity |].
    split; [intros k Hk; apply marked_filled_mark; exact Hk |].
    eexists. reflexivity.
Qed.

Lemma dynamic_fill_fills (fn : option (ElementHandle * string))
      (l : list FormField) (rs : list FilledField) (fl : list (string * bool))
      (s : RunState World) :
  exists rs' fl' s' extra,
    dynamic_fill browser self fn (rs, fl) l s = (Returned (rs', fl'), s')
    /\ calls s' = calls s ++ extra
    /\ (forall f, In f l ->
          In (call_fill_field f) extra \/ marked_filled fl' (field_key f) = true)
    /\ (forall f rest, l = f :: rest -> marked_filled fl (field_key f) = false ->
          exists more, extra = call_fill_field f :: more)
    /\ (forall k, marked_filled fl k = true -> marked_filled fl' k = true)
    /\ (exists new, rs' = rs ++ new).
Proof.
  revert rs fl s. induction l as [| f l IH]; intros rs fl s.
  - exists rs, fl, s, []. cbn. rewrite app_nil_r.
    repeat split; auto; try discriminate; try contradiction.
    exists []. rewrite app_nil_r. reflexivity.
  - cbn [dynamic_fill]. unfold Fx.bind.
    destruct (dynamic_step_fills fn rs fl f s)
      as (rs1 & fl1 & s1 & e1 & -> & E1 & Hf & Hhead & Hmono1 & (n1 & ->)).
    destruct (IH (rs ++ n1) fl1 s1)
      as (rs2 & fl2 & s2 & e2 & -> & E2 & Hall & _ & Hmono2 & (n2 & ->)).
    exists ((rs ++ n1) ++ n2), fl2, s2, (e1 ++ e2).
    split; [reflexivity |].
    split; [rewrite E2, E1, app_assoc; reflexivity |].
    split.
    { intros g [<- | Hg].
      - destruct Hf as [Hf | Hf]; [left; apply in_or_app; left; exact Hf |].
        right. apply Hmono2. exact Hf.
      - destruct (Hall g Hg) as [H | H]; [left; apply in_or_app; right; exact H |].
        right. exact H. }
    split.
    { intros g rest Heq Hm. injection Heq as <- <-.
      destruct (Hhead Hm) as (more & ->). eexists. reflexivity. }
    split; [intros k Hk; apply Hmono2, Hmono1, Hk |].
    exists (n1 ++ n2). rewrite app_assoc. reflexivity.
Qed.

(** A pass that finds nothing new ends the loop at once. *)
Lemma fill_dynamic_fields_stops (rs : list FilledField)
      (fl : list (string * bool)) (fn : option (ElementHandle * string))
      (remaining : nat) (s : RunState World) (w1 w2 : World)
      (raws : list RawField) :
  _get_active_frame browser (sleep browser 1%Q (page (fill_state s)))
  = (Returned tt, w1) ->
  analyze_controls browser w1 = (Returned raws, w2) ->
  dynamic_fields_of rs fl (map analyze raws) = [] ->
  _fill_dynamic_fields browser self rs fl fn (S remaining) s
  = (Returned rs,
     mkRunState (mkFillState w2 (disk (fill_state s))
                             (_file_input_count (fill_state s)))
                (calls s ++ [call_sleep 1%Q; call_get_active_frame;
                             call_extract_form_fields])).
Proof.
  intros Hf He Hd. cbn [_fill_dynamic_fields].
  unfold Fx.bind, do_sleep, do_get_active_frame, extract_form_fields, calling,
    asleep, on_page, Fx.bind, Fx.ret.
  cbn [fill_state page disk _file_input_count calls].
  rewrite Hf. cbn [fill_state page disk _file_input_count calls].
  rewrite He. cbn [fill_state page disk _file_input_count calls].
  rewrite Hd. cbn [nonempty negb]. rewrite <- !app_assoc. reflexivity.
Qed.

End Passes.

(** Refutes C8 as stated: the optional control "Anything else?" appears
    at the first re-extraction with a locator and a key that the run has
    not seen, and it is not treated as new: the pass finds nothing to fill
    and the loop ends without a call of [fill_field]. *)
Lemma unknown_optional_field_is_not_new :
  field_type comments_field = UNKNOWN
  /\ is_required comments_field = false
  /\ ~ In (selector comments_field)
          (map (fun r => selector (field r)) (@nil FilledField))
  /\ dict_get (@nil (string * bool)) (field_key comments_field) = None
  /\ dynamic_fields_of [] [] [comments_field] = []
  /\ (let (out, s') :=
        _fill_dynamic_fields scripted_browser bare_filler [] [] None 2
                             (start_of comments_page acme_disk) in
      out = Returned []
      /\ calls s' = [call_sleep 1%Q; call_get_active_frame;
                     call_extract_form_fields]).
Proof. vm_compute. repeat split. intros []. Qed.

Section PassesRun.

Variable World : Type.
Variable browser : Browser World.
Variable self : FormFiller.

(** The first three calls of a pass, when the frame and the controls can
    be read. *)
Lemma fill_dynamic_fields_pass (rs : list FilledField)
      (fl : list (string * bool)) (fn : option (ElementHandle * string))
      (remaining : nat) (s : RunState World) (w1 w2 : World)
      (raws : list RawField) :
  _get_active_frame browser (sleep browser 1%Q (page (fill_state s)))
  = (Returned tt, w1) ->
  analyze_controls browser w1 = (Returned raws, w2) ->
  _fill_dynamic_fields browser self rs fl fn (S remaining) s
  = (if negb (nonempty (dynamic_fields_of rs fl (map analyze raws)))
     then Fx.ret rs
     else Fx.bind (dynamic_fill browser self fn (rs, fl)
                     (dynamic_fields_of rs fl (map analyze raws)))
            (fun acc =>
               _fill_dynamic_fields browser self (fst acc) (snd acc) fn remaining))
      (with_page s w2 [call_sleep 1%Q; call_get_active_frame;
                       call_extract_form_fields]).
Proof.
  intros Hf He. cbn [_fill_dynamic_fields].
  unfold do_sleep, do_get_active_frame, extract_form_fields, calling,
    asleep, on_page, with_page.
  unfold Fx.bind at 1 2 3 4. unfold Fx.ret at 1.
  cbn [fill_state page disk _file_input_count calls].
  rewrite Hf. cbn [fill_state page disk _file_input_count calls].
  rewrite He. cbn [fill_state page disk _file_input_count calls].
  rewrite <- !app_assoc. cbn [app].
  destruct (negb (nonempty _)); [reflexivity |].
  unfold Fx.bind.
  match goal with
  | |- (let (_, _) := ?x in _) = (let (_, _) := ?y in _) =>
      change y with x; destruct x as [[[rs' fl'] |] s1]
  end; reflexivity.
Qed.

(** Every pass begins by sleeping and re-acquiring the frame. *)
Lemma fill_dynamic_fields_begins (rs : list FilledField)
      (fl : list (string * bool)) (fn : option (ElementHandle * string))
      (remaining : nat) (s : RunState World) :
  exists more,
    calls (snd (_fill_dynamic_fields browser self rs fl fn (S remaining) s))
    = calls s ++ call_sleep 1%Q :: call_get_active_frame :: more.
Proof.
  cbn [_fill_dynamic_fields].
  set (k := fun _ : unit => Fx.bind (extract_form_fields browser) _).
  unfold Fx.bind at 1 2. unfold do_sleep at 1. unfold calling at 1.
  unfold asleep. cbn [fill_state page disk _file_input_count calls].
  unfold do_get_active_frame, calling, on_page.
  cbn [fill_state page disk _file_input_count calls].
  destruct (_get_active_frame browser _) as [[[] |] w1]; cbn [snd calls].
  - assert (Hk : forall u, extracts_at_most (1 + remaining) (k u)).
    { intros u. unfold k. apply ea_bind; [apply ea_extract_form_fields |].
      intros new_fields. destruct (negb _); [apply ea_ret |].
      apply ea_bind0; [apply ea_dynamic_fill |].
      intros [rs' fl']. apply ea_fill_dynamic_fields. }
    match goal with
    | |- exists more, calls (snd (k tt ?s0)) = _ =>
        destruct (Hk tt s0) as (extra & E & _)
    end.
    cbn [calls] in E. exists extra. rewrite E.
    rewrite <- !app_assoc. reflexivity.
  - exists []. rewrite <- !app_assoc. reflexivity.
Qed.

(** The first new field of a pass whose key is unmarked is filled by
    [fill_field] in the state the pass starts from, and its result is the
    first that the pass appends. *)
Lemma dynamic_fill_head (fn : option (ElementHandle * string))
      (f : FormField) (rest : list FormField) (rs rs' : list FilledField)
      (fl fl' : list (string * bool)) (s s' : RunState World) :
  marked_filled fl (field_key f) = false ->
  dynamic_fill browser self fn (rs, fl) (f :: rest) s = (Returned (rs', fl'), s') ->
  exists r fs more,
    fill_field browser self f (fill_state s) = (Returned r, fs)
    /\ rs' = rs ++ r :: more.
Proof.
  intros Hm. cbn [dynamic_fill]. unfold Fx.bind at 1. unfold dynamic_step.
  rewrite Hm. unfold Fx.bind at 1. unfold do_fill_field at 1. unfold calling at 1.
  destruct (fill_field browser self f (fill_state s)) as [[r |] fs]; [| discriminate].
  unfold Fx.bind at 1.
  match goal with
  | |- (let (_, _) := (let (_, _) := ?x in _) in _) = _ -> _ =>
      destruct x as [[[] |] s2]; [| discriminate]
  end.
  unfold Fx.bind at 1.
  destruct (do_sleep browser (3 # 10)%Q s2) as [[[] |] s3]; [| discriminate].
  cbn [Fx.ret]. intros E.
  destruct (dynamic_fill_fills browser self fn rest (rs ++ [r])
              (mark fl (field_key f) (success r)) s3)
    as (rs2 & fl2 & s4 & e2 & E2 & _ & _ & _ & _ & (new & ->)).
  rewrite E2 in E. injection E as <- _ _.
  exists r, fs, new. split; [reflexivity |].
  rewrite <- app_assoc. reflexivity.
Qed.

End PassesRun.

(** C8, amended.  After the first fill pass the reconciler extracts the
    fields again at most twice.  A re-extracted field is treated as new
    exactly when its locator is not the locator of a field attempted
    earlier in the run, its (label, type) key is unmarked, and it is not
    an unknown-type field without the required flag.  The new fields of a
    pass are handed to [fill_field] one after the other, the first always,
    a later one unless a new field with the same key was filled
    successfully before it in the pass; the fill of a pass never raises.
    A pass of [_fill_dynamic_fields] that finds new fields fills them in
    this way, the first by [fill_field] in the state the extraction left,
    appends the results, and goes on with the remaining passes, each of
    which begins by sleeping and re-acquiring the frame.  A pass that finds
    no new field returns the results at once, without a further
    extraction. *)
Theorem dynamic_passes_reconcile (World : Type) (browser : Browser World)
        (self : FormFiller) (rs : list FilledField)
        (fl : list (string * bool)) (fn : option (ElementHandle * string)) :
  extracts_at_most 2 (_fill_dynamic_fields browser self rs fl fn 2)
  /\ (forall fields,
         extracts_at_most 2 (fill_all_fields browser self (Some fields)))
  /\ (forall new_fields f,
         In f (dynamic_fields_of rs fl new_fields)
         <-> In f new_fields
             /\ ~ In (selector f) (map (fun r => selector (field r)) rs)
             /\ dict_get fl (field_key f) = None
             /\ unknown_optional f = false)
  /\ (forall new_fields s,
         exists rs' fl' s' extra,
           dynamic_fill browser self fn (rs, fl)
                        (dynamic_fields_of rs fl new_fields) s
           = (Returned (rs', fl'), s')
           /\ calls s' = calls s ++ extra
           /\ (forall f, In f (dynamic_fields_of rs fl new_fields) ->
                  In (call_fill_field f) extra
                  \/ marked_filled fl' (field_key f) = true)
           /\ (forall f rest,
                  dynamic_fields_of rs fl new_fields = f :: rest ->
                  exists more, extra = call_fill_field f :: more)
           /\ exists new, rs' = rs ++ new)
  /\ (forall remaining s w1 w2 raws,
         _get_active_frame browser (sleep browser 1%Q (page (fill_state s)))
         = (Returned tt, w1) ->
         analyze_controls browser w1 = (Returned raws, w2) ->
         dynamic_fields_of rs fl (map analyze raws) <> [] ->
         exists rs' fl' s1 extra,
           dynamic_fill browser self fn (rs, fl)
                        (dynamic_fields_of rs fl (map analyze raws))
                        (with_page s w2 [call_sleep 1%Q; call_get_active_frame;
                                         call_extract_form_fields])
           = (Returned (rs', fl'), s1)
           /\ _fill_dynamic_fields browser self rs fl fn (S remaining) s
              = _fill_dynamic_fields browser self rs' fl' fn remaining s1
           /\ calls s1 = calls s ++ [call_sleep 1%Q; call_get_active_frame;
                                     call_extract_form_fields] ++ extra
           /\ (forall f, In f (dynamic_fields_of rs fl (map analyze raws)) ->
                  In (call_fill_field f) extra
                  \/ marked_filled fl' (field_key f) = true)
           /\ (forall f rest,
                  dynamic_fields_of rs fl (map analyze raws) = f :: rest ->
                  exists r fs more more',
                    fill_field browser self f
                      (mkFillState w2 (disk (fill_state s))
                                   (_file_input_count (fill_state s)))
                    = (Returned r, fs)
                    /\ rs' = rs ++ r :: more
                    /\ extra = call_fill_field f :: more')
           /\ (forall k, remaining = S k ->
                  exists more,
                    calls (snd (_fill_dynamic_fields browser self rs fl fn
                                  (S remaining) s))
                    = calls s1 ++ call_sleep 1%Q :: call_get_active_frame :: more))
  /\ (forall remaining s w1 w2 raws,
         _get_active_frame browser (sleep browser 1%Q (page (fill_state s)))
         = (Returned tt, w1) ->
         analyze_controls browser w1 = (Returned raws, w2) ->
         dynamic_fields_of rs fl (map analyze raws) = [] ->
         _fill_dynamic_fields browser self rs fl fn (S remaining) s
         = (Returned rs,
            with_page s w2 [call_sleep 1%Q; call_get_active_frame;
                            call_extract_form_fields])).
Proof.
  assert (Hunmarked : forall new_fields f rest,
             dynamic_fields_of rs fl new_fields = f :: rest ->
             marked_filled fl (field_key f) = false).
  { intros new_fields f rest Heq.
    assert (Hin : In f (dynamic_fields_of rs fl new_fields))
      by (rewrite Heq; left; reflexivity).
    apply dynamic_fields_of_spec in Hin. destruct Hin as (_ & _ & Hk & _).
    unfold marked_filled. rewrite Hk. reflexivity. }
  split; [apply ea_fill_dynamic_fields |].
  split.
  { intros fields. unfold fill_all_fields.
    apply ea_bind0; [apply ea_ret |]. intros fs.
    apply ea_bind0; [apply ea_reset |]. intros _.
    apply ea_bind0; [apply ea_do_sleep |]. intros _.
    apply ea_bind0; [apply ea_do_get_active_frame |]. intros _.
    apply ea_bind0; [apply ea_do_sleep |]. intros _.
    apply ea_bind0; [apply ea_first_pass |]. intros acc.
    apply ea_fill_dynamic_fields. }
  split; [intros new_fields f; apply dynamic_fields_of_spec |].
  split.
  { intros new_fields s.
    destruct (dynamic_fill_fills browser self fn
                (dynamic_fields_of rs fl new_fields) rs fl s)
      as (rs' & fl' & s' & extra & E & C & Hall & Hhead & _ & Hnew).
    exists rs', fl', s', extra. repeat split; auto.
    intros f rest Heq. apply (Hhead f rest Heq).
    exact (Hunmarked new_fields f rest Heq). }
  split.
  { intros remaining s w1 w2 raws Hf He Hd.
    set (dyn := dynamic_fields_of rs fl (map analyze raws)) in *.
    set (s0 := with_page s w2 [call_sleep 1%Q; call_get_active_frame;
                               call_extract_form_fields]).
    destruct (dynamic_fill_fills browser self fn dyn rs fl s0)
      as (rs' & fl' & s1 & extra & E & C & Hall & Hhead & _ & Hnew).
    assert (Hrun : _fill_dynamic_fields browser self rs fl fn (S remaining) s
                   = _fill_dynamic_fields browser self rs' fl' fn remaining s1).
    { rewrite (@fill_dynamic_fields_pass World browser self rs fl fn remaining
                 s w1 w2 raws Hf He).
      fold dyn. fold s0.
      destruct dyn as [| f0 rest0]; [contradiction Hd; reflexivity |].
      cbn [nonempty negb]. unfold Fx.bind. rewrite E. reflexivity. }
    exists rs', fl', s1, extra.
    split; [exact E |].
    split; [exact Hrun |].
    split; [rewrite C; unfold s0, with_page; cbn [calls];
            rewrite <- app_assoc; reflexivity |].
    split; [exact Hall |].
    split.
    { intros f rest Heq.
      pose proof (Hunmarked (map analyze raws) f rest Heq) as Hm.
      fold dyn in Heq. rewrite Heq in E.
      destruct (@dynamic_fill_head World browser self fn f rest rs rs' fl fl'
                  s0 s1 Hm E) as (r & fs & more & Er & ->).
      destruct (Hhead f rest Heq Hm) as (more' & ->).
      exists r, fs, more, more'. repeat split. exact Er. }
    intros k ->. rewrite Hrun.
    apply fill_dynamic_fields_begins. }
  intros remaining s w1 w2 raws Hf He Hd.
  exact (@fill_dynamic_fields_stops World browser self rs fl fn remaining
           s w1 w2 raws Hf He Hd).
Qed.

(** The hypotheses of C8 hold on a page where a city control appears
    after the first pass: the first re-extraction finds it new, the pass
    hands it to [fill_field], which fills it from the profile, and the
    second re-extraction, which shows nothing new, ends the loop; on a page
    where nothing appears the first re-extraction ends it. *)
Lemma dynamic_passes_reconcile_witness :
  dynamic_fields_of [] [] (map analyze [city_raw]) = [city_field]
  /\ (exists r s',
         _fill_dynamic_fields scripted_browser bare_filler [] [] None 2
                              (start_of growing_page acme_disk)
         = (Returned [r], s')
         /\ field r = city_field /\ filled_value r = "London"
         /\ success r = true
         /\ calls s' = [call_sleep 1%Q; call_get_active_frame;
                        call_extract_form_fields; call_fill_field city_field;
                        call_sleep (3 # 10)%Q; call_sleep 1%Q;
                        call_get_active_frame; call_extract_form_fields])
  /\ _fill_dynamic_fields scripted_browser bare_filler [] [] None 2
                          (start_of sex_page acme_disk)
     = (Returned [],
        with_page (start_of sex_page acme_disk) sex_page
                  [call_sleep 1%Q; call_get_active_frame;
                   call_extract_form_fields]).
Proof.
  pose proof (dynamic_passes_reconcile scripted_browser bare_filler [] [] None)
    as (_ & _ & _ & _ & Hgoes & Hstops).
  split; [vm_compute; reflexivity |]. split.
  - assert (Hnew : dynamic_fields_of [] [] (map analyze [city_raw]) <> [])
      by (vm_compute; discriminate).
    destruct (Hgoes 1 (start_of growing_page acme_disk) growing_page
                (mkScriptedPage [] [] [] [[city_raw; comments_raw]]) [city_raw]
                eq_refl eq_refl Hnew)
      as (rs' & fl' & s1 & extra & E & Hrun & _).
    rewrite Hrun. vm_compute in E. injection E as <- <- <-.
    eexists _, _. split; [vm_compute; reflexivity |].
    repeat split.
  - exact (Hstops 1 (start_of sex_page acme_disk) sex_page sex_page []
                  eq_refl eq_refl eq_refl).
Defined.

(* ------------------------------------------------------------------ *)
(** ** The First Name check *)
(* ------------------------------------------------------------------ *)

Section FirstName.

Variable World : Type.
Variable browser : Browser World.
Variable self : FormFiller.

(** What the check does when the live value can be read. *)
Lemma verify_first_name_runs (e : ElementHandle) (v : string)
      (s : RunState World) (cur : string) (w1 : World) :
  el_input_value browser e (page (fill_state s)) = (Returned cur, w1) ->
  (cur = v ->
   verify_first_name browser e v s
   = (Returned tt, with_page s w1 [call_input_value e]))
  /\ (cur <> v ->
      forall w2 w3,
        el_focus browser e w1 = (Returned tt, w2) ->
        el_fill browser e v w2 = (Returned tt, w3) ->
        verify_first_name browser e v s
        = (Returned tt,
           with_page s (sleep browser (1 # 10)%Q w3)
                     [call_input_value e; call_focus e; call_fill e v;
                      call_sleep (1 # 10)%Q])).
Proof.
  intros Hread.
  unfold verify_first_name, Fx.bind, Fx.attempt, calling, on_page, do_sleep,
    calling, asleep, Fx.ret, with_page.
  cbn [fill_state page disk _file_input_count calls].
  rewrite Hread. cbn [fill_state page disk _file_input_count calls].
  split.
  - intros ->. rewrite String.eqb_refl. reflexivity.
  - intros Hne w2 w3 Hfocus Hfill.
    destruct (String.eqb cur v) eqn:E; [apply String.eqb_eq in E; contradiction |].
    cbn [negb fill_state page disk _file_input_count calls].
    rewrite Hfocus. cbn [fill_state page disk _file_input_count calls].
    rewrite Hfill. cbn [fill_state page disk _file_input_count calls].
    rewrite <- !app_assoc. reflexivity.
Qed.

Lemma not_first_name_beq (t : FieldType) :
  t <> FIRST_NAME -> FieldType_beq t FIRST_NAME = false.
Proof. destruct t; try reflexivity. intros H. contradiction H. reflexivity. Qed.

(** The step of the first pass for a field other than the First Name,
    once a First Name fill is recorded. *)
Lemma first_pass_step_after_first_name (acc : PassState) (f : FormField)
      (e : ElementHandle) (v : string) (s : RunState World) :
  ps_first_name acc = Some (e, v) ->
  unknown_optional f = false ->
  marked_filled (ps_filled_labels acc) (field_key f) = false ->
  field_type f <> FIRST_NAME ->
  first_pass_step browser self acc f s
  = Fx.bind (if ps_is_first_field acc then do_sleep browser 1%Q else Fx.ret tt)
      (fun _ =>
         Fx.bind (do_fill_field browser self f)
           (fun result =>
              Fx.bind (if is_dropdown_field f
                       then verify_first_name browser e v else Fx.ret tt)
                (fun _ =>
                   Fx.bind (do_sleep browser (3 # 10)%Q)
                     (fun _ =>
                        Fx.ret (mkPassState
                                  (ps_results acc ++ [result])
                                  (mark (ps_filled_labels acc) (field_key f)
                                        (success result))
                                  (Some (e, v)) false))))) s.
Proof.
  intros Hfn Hu Hm Ht. unfold first_pass_step.
  rewrite Hu, Hm, Hfn, (not_first_name_beq Ht).
  unfold Fx.bind.
  match goal with
  | |- (let (_, _) := ?x in _) = _ => destruct x as [[[] |] s0]
  end; [| reflexivity].
  destruct (do_fill_field browser self f s0) as [[result |] s1]; [| reflexivity].
  rewrite andb_false_r. cbn [Fx.ret andb negb]. reflexivity.
Qed.

(** The step of a dynamic pass for a field whose key is not marked as
    filled, once a First Name fill with a value is recorded. *)
Lemma dynamic_step_after_first_name (rs : list FilledField)
      (fl : list (string * bool)) (f : FormField)
      (e : ElementHandle) (v : string) :
  PyStr.truthy v = true ->
  marked_filled fl (field_key f) = false ->
  dynamic_step browser self (Some (e, v)) (rs, fl) f
  = Fx.bind (do_fill_field browser self f)
      (fun result =>
         Fx.bind (verify_first_name browser e v)
           (fun _ =>
              Fx.bind (do_sleep browser (3 # 10)%Q)
                (fun _ =>
                   Fx.ret (rs ++ [result],
                           mark fl (field_key f) (success result))))).
Proof. intros Hv Hm. unfold dynamic_step. rewrite Hm, Hv. reflexivity. Qed.

End FirstName.

Section SuccessValue.

Variable World : Type.
Variable browser : Browser World.
Variable self : FormFiller.

(** A fill that [fill_field] reports as successful for a field of a known
    type has written a non-empty value. *)
Lemma fill_field_success_value (f : FormField) (s s' : FillState World)
      (r : FilledField) :
  field_type f <> UNKNOWN ->
  fill_field browser self f s = (Returned r, s') ->
  success r = true ->
  PyStr.truthy (filled_value r) = true.
Proof.
  intros Ht. unfold fill_field. unfold Fx.bind at 1. unfold get_value.
  destruct (_get_value_for_field self f (_file_input_count s)) as [value count].
  assert (Hb : FieldType_beq (field_type f) UNKNOWN = false).
  { destruct (field_type f); try reflexivity. contradiction Ht. reflexivity. }
  rewrite Hb. cbn [negb andb]. rewrite andb_true_r.
  destruct (PyStr.truthy value) eqn:Hv; cbn [negb].
  - unfold Fx.bind at 1.
    match goal with
    | |- (let (_, _) := ?x in _) = _ -> _ => destruct x as [[re |] s1]
    end; [| discriminate].
    unfold Fx.bind at 1.
    match goal with
    | |- (let (_, _) := ?x in _) = _ -> _ => destruct x as [[[e |] |] s2]
    end; [| | discriminate].
    + cbv zeta. unfold Fx.bind at 1.
      match goal with
      | |- (let (_, _) := ?x in _) = _ -> _ => destruct x as [[[ok f'] |] s3]
      end; [| discriminate].
      unfold Fx.bind at 1.
      match goal with
      | |- (let (_, _) := ?x in _) = _ -> _ => destruct x as [[[] |] s4]
      end; [| discriminate].
      cbn [Fx.ret]. intros E _. injection E as <- _. exact Hv.
    + cbn [Fx.ret]. intros E _. injection E as <- _. exact Hv.
  - unfold Fx.bind at 1.
    match goal with
    | |- (let (_, _) := ?x in _) = _ -> _ => destruct x as [[[] |] s1]
    end; [| discriminate].
    cbn [Fx.ret]. intros E Hok. injection E as <- _. discriminate Hok.
Qed.

End SuccessValue.

Lemma bind_assoc {S A B C : Type} (m : Fx.t S A) (k1 : A -> Fx.t S B)
      (k2 : B -> Fx.t S C) (s : S) :
  Fx.bind (Fx.bind m k1) k2 s = Fx.bind m (fun x => Fx.bind (k1 x) k2) s.
Proof. unfold Fx.bind. destruct (m s) as [[a |] s1]; reflexivity. Qed.

Lemma bind_ext {S A B : Type} (m : Fx.t S A) (k1 k2 : A -> Fx.t S B) (s : S) :
  (forall a s', k1 a s' = k2 a s') -> Fx.bind m k1 s = Fx.bind m k2 s.
Proof. intros H. unfold Fx.bind. destruct (m s) as [[a |] s1]; auto. Qed.

Lemma bind_cong {S A B : Type} (m m' : Fx.t S A) (k : A -> Fx.t S B) (s : S) :
  m s = m' s -> Fx.bind m k s = Fx.bind m' k s.
Proof. intros H. unfold Fx.bind. rewrite H. reflexivity. Qed.

Lemma bind_ret_l {S A B : Type} (a : A) (k : A -> Fx.t S B) (s : S) :
  Fx.bind (Fx.ret a) k s = k a s.
Proof. reflexivity. Qed.

Lemma bind_returned {S A B : Type} (m : Fx.t S A) (k : A -> Fx.t S B)
      (s s' : S) (a : A) :
  m s = (Returned a, s') -> Fx.bind m k s = k a s'.
Proof. intros E. unfold Fx.bind. rewrite E. reflexivity. Qed.

Section FirstNameRun.

Variable World : Type.
Variable browser : Browser World.
Variable self : FormFiller.

Lemma first_pass_app (l1 l2 : list FormField) (acc : PassState)
      (s : RunState World) :
  first_pass browser self acc (l1 ++ l2) s
  = Fx.bind (first_pass browser self acc l1)
            (fun acc1 => first_pass browser self acc1 l2) s.
Proof.
  revert acc s. induction l1 as [| f l1 IH]; intros acc s; cbn [first_pass app].
  - reflexivity.
  - rewrite bind_assoc. apply bind_ext. intros acc1 s1. apply IH.
Qed.

Lemma dynamic_fill_app (fn : option (ElementHandle * string))
      (l1 l2 : list FormField) (acc : list FilledField * list (string * bool))
      (s : RunState World) :
  dynamic_fill browser self fn acc (l1 ++ l2) s
  = Fx.bind (dynamic_fill browser self fn acc l1)
            (fun acc1 => dynamic_fill browser self fn acc1 l2) s.
Proof.
  revert acc s. induction l1 as [| f l1 IH]; intros acc s; cbn [dynamic_fill app].
  - reflexivity.
  - rewrite bind_assoc. apply bind_ext. intros acc1 s1. apply IH.
Qed.

(** What a step of the first pass that returns has done to the locals of
    the loop: nothing when the field is skipped; otherwise it has appended
    one result, marked the key, and replaced the recorded First Name
    exactly when the field is a First Name whose fill succeeded. *)
Lemma first_pass_step_cases (acc acc' : PassState) (f : FormField)
      (s s' : RunState World) :
  first_pass_step browser self acc f s = (Returned acc', s') ->
  (acc' = acc
   /\ (unknown_optional f = true
       \/ marked_filled (ps_filled_labels acc) (field_key f) = true))
  \/ (exists r,
         ps_results acc' = ps_results acc ++ [r]
         /\ ps_filled_labels acc'
            = mark (ps_filled_labels acc) (field_key f) (success r)
         /\ ps_is_first_field acc' = false
         /\ ps_first_name acc'
            = if FieldType_beq (field_type f) FIRST_NAME && success r
              then Some (element (field r), filled_value r)
              else ps_first_name acc).
Proof.
  unfold first_pass_step.
  destruct (unknown_optional f) eqn:Hu.
  { intros E. injection E as <- _. left. auto. }
  destruct (marked_filled _ _) eqn:Hm.
  { intros E. injection E as <- _. left. auto. }
  unfold Fx.bind at 1.
  match goal with
  | |- (let (_, _) := ?x in _) = _ -> _ => destruct x as [[[] |] s0]
  end; [| discriminate].
  unfold Fx.bind at 1.
  destruct (do_fill_field browser self f s0) as [[r0 |] s1]; [| discriminate].
  unfold Fx.bind at 1.
  match goal with
  | |- (let (_, _) := ?x in _) = _ -> _ => destruct x as [[r |] s2]
  end; [| discriminate].
  cbv zeta. unfold Fx.bind at 1.
  match goal with
  | |- (let (_, _) := ?x in _) = _ -> _ => destruct x as [[[] |] s3]
  end; [| discriminate].
  unfold Fx.bind at 1.
  destruct (do_sleep browser (3 # 10)%Q s3) as [[[] |] s4]; [| discriminate].
  cbn [Fx.ret]. intros E. injection E as <- _.
  right. exists r. cbn [ps_results ps_filled_labels ps_is_first_field ps_first_name].
  repeat split.
Qed.

(** Fields other than the First Name leave the recorded First Name as it
    is, and the first-field delay is not taken again. *)
Lemma first_pass_keeps_first_name (l : list FormField) (acc acc' : PassState)
      (s s' : RunState World) :
  (forall f, In f l -> field_type f <> FIRST_NAME) ->
  first_pass browser self acc l s = (Returned acc', s') ->
  ps_first_name acc' = ps_first_name acc
  /\ (ps_is_first_field acc = false -> ps_is_first_field acc' = false).
Proof.
  revert acc s. induction l as [| f l IH]; intros acc s Hl; cbn [first_pass].
  - intros E. injection E as <- _. auto.
  - unfold Fx.bind.
    destruct (first_pass_step browser self acc f s) as [[acc1 |] s1] eqn:E1;
      [| discriminate].
    intros E.
    destruct (IH acc1 s1 (fun g Hg => Hl g (or_intror Hg)) E) as [Hn Hf].
    destruct (@first_pass_step_cases _ _ _ _ _ E1) as [[-> _] | (r & _ & _ & Hfirst & Hrec)].
    + auto.
    + rewrite (not_first_name_beq (Hl f (or_introl eq_refl))) in Hrec.
      cbn [andb] in Hrec. rewrite Hn, Hrec. auto.
Qed.

(** A First Name whose fill succeeds at once is recorded with the element
    that [fill_field] left in the field and the value it wrote. *)
Lemma first_pass_step_records (acc : PassState) (f : FormField)
      (s : RunState World) (r : FilledField) (fs : FillState World) :
  field_type f = FIRST_NAME ->
  marked_filled (ps_filled_labels acc) (field_key f) = false ->
  fill_field browser self f
    (fill_state (if ps_is_first_field acc
                 then snd (do_sleep browser 1%Q s) else s))
  = (Returned r, fs) ->
  success r = true ->
  first_pass_step browser self acc f s
  = (Returned (mkPassState (ps_results acc ++ [r])
                           (mark (ps_filled_labels acc) (field_key f) true)
                           (Some (element (field r), filled_value r)) false),
     mkRunState (mkFillState (sleep browser (3 # 10)%Q (page fs)) (disk fs)
                             (_file_input_count fs))
                (calls (if ps_is_first_field acc
                        then snd (do_sleep browser 1%Q s) else s)
                 ++ [call_fill_field f; call_sleep (3 # 10)%Q])).
Proof.
  intros Ht Hm Hfill Hok. unfold first_pass_step.
  unfold unknown_optional. rewrite Ht. cbn [FieldType_beq andb]. rewrite Hm.
  destruct (ps_is_first_field acc).
  - set (s0 := snd (do_sleep browser 1%Q s)) in *.
    unfold Fx.bind at 1. change (do_sleep browser 1%Q s) with (Returned tt, s0).
    cbv iota beta.
    unfold Fx.bind at 1. unfold do_fill_field at 1. unfold calling at 1.
    rewrite Hfill. unfold Fx.bind at 1. rewrite Hok. cbn [negb andb Fx.ret].
    unfold Fx.bind, Fx.ret, do_sleep, calling, asleep.
    rewrite ?Hok. cbn [fill_state page disk _file_input_count calls].
    rewrite <- app_assoc. reflexivity.
  - unfold Fx.bind at 1. cbn [Fx.ret].
    unfold Fx.bind at 1. unfold do_fill_field at 1. unfold calling at 1.
    rewrite Hfill. unfold Fx.bind at 1. rewrite Hok. cbn [negb andb Fx.ret].
    unfold Fx.bind, Fx.ret, do_sleep, calling, asleep.
    rewrite ?Hok. cbn [fill_state page disk _file_input_count calls].
    rewrite <- app_assoc. reflexivity.
Qed.

(** In the first pass, once a First Name fill has succeeded with result
    [r], a later field [g] that is not a First Name and is not skipped is
    filled and then, when it is location-like, followed by the check of
    the element and value taken from [r]; the fields in between may be
    any fields but a First Name. *)
Lemma first_pass_checks_recorded (acc accf acc1 : PassState)
      (f g : FormField) (mid post : list FormField)
      (s sf s1 : RunState World) (r : FilledField) :
  field_type f = FIRST_NAME ->
  first_pass_step browser self acc f s = (Returned accf, sf) ->
  ps_results accf = ps_results acc ++ [r] ->
  success r = true ->
  (forall m, In m mid -> field_type m <> FIRST_NAME) ->
  first_pass browser self accf mid sf = (Returned acc1, s1) ->
  unknown_optional g = false ->
  marked_filled (ps_filled_labels acc1) (field_key g) = false ->
  field_type g <> FIRST_NAME ->
  first_pass browser self acc (f :: mid ++ g :: post) s
  = Fx.bind (do_fill_field browser self g)
      (fun result =>
         Fx.bind (if is_dropdown_field g
                  then verify_first_name browser (element (field r))
                                         (filled_value r)
                  else Fx.ret tt)
           (fun _ =>
              Fx.bind (do_sleep browser (3 # 10)%Q)
                (fun _ =>
                   first_pass browser self
                     (mkPassState (ps_results acc1 ++ [result])
                                  (mark (ps_filled_labels acc1) (field_key g)
                                        (success result))
                                  (Some (element (field r), filled_value r))
                                  false)
                     post))) s1.
Proof.
  intros Ht Ef Hr Hok Hmid Emid Hu Hm Hg.
  assert (Hrec : ps_first_name accf = Some (element (field r), filled_value r)
                 /\ ps_is_first_field accf = false).
  { destruct (@first_pass_step_cases _ _ _ _ _ Ef) as [[-> _] | (r0 & Hr0 & _ & Hfirst & Hrec)].
    - exfalso. apply (f_equal (@List.length FilledField)) in Hr.
      rewrite length_app in Hr. cbn in Hr. lia.
    - rewrite Hr in Hr0. apply app_inv_head in Hr0. injection Hr0 as <-.
      rewrite Ht, Hok in Hrec. cbn in Hrec. auto. }
  destruct Hrec as [Hrec Hfirst].
  destruct (@first_pass_keeps_first_name mid _ _ _ _ Hmid Emid) as [Hrec1 Hfirst1].
  rewrite Hrec in Hrec1. specialize (Hfirst1 Hfirst).
  cbn [first_pass]. rewrite (@bind_returned _ _ _ _ _ _ _ _ Ef).
  rewrite first_pass_app. rewrite (@bind_returned _ _ _ _ _ _ _ _ Emid).
  cbn [first_pass].
  rewrite (@bind_cong _ _ _ _ _ _ _
             (@first_pass_step_after_first_name World browser self acc1 g
                (element (field r)) (filled_value r) s1 Hrec1 Hu Hm Hg)).
  rewrite Hfirst1. rewrite bind_assoc, bind_ret_l.
  rewrite bind_assoc. apply bind_ext. intros result s2.
  rewrite bind_assoc. apply bind_ext. intros [] s3.
  rewrite bind_assoc. apply bind_ext. intros [] s4.
  reflexivity.
Qed.

(** [fill_all_fields] runs the first pass from the empty locals and hands
    the results, the marks and the recorded First Name to
    [_fill_dynamic_fields]. *)
Lemma fill_all_fields_hands_over (fields : list FormField)
      (s : RunState World) (w1 : World) :
  _get_active_frame browser (sleep browser 3%Q (page (fill_state s)))
  = (Returned tt, w1) ->
  fill_all_fields browser self (Some fields) s
  = Fx.bind (first_pass browser self (mkPassState [] [] None true) fields)
      (fun acc =>
         _fill_dynamic_fields browser self (ps_results acc)
                              (ps_filled_labels acc) (ps_first_name acc) 2)
      (mkRunState (mkFillState (sleep browser 1%Q w1) (disk (fill_state s)) 0)
                  (calls s ++ [call_sleep 3%Q; call_get_active_frame;
                               call_sleep 1%Q])).
Proof.
  intros Hf. unfold fill_all_fields.
  unfold Fx.bind at 1. cbn [Fx.ret].
  unfold Fx.bind at 1. unfold reset_file_input_count.
  unfold Fx.bind at 1. unfold do_sleep at 1. unfold calling at 1. unfold asleep at 1.
  cbn [fill_state page disk _file_input_count calls].
  unfold Fx.bind at 1. unfold do_get_active_frame, calling at 1, on_page.
  cbn [fill_state page disk _file_input_count calls].
  rewrite Hf.
  unfold Fx.bind at 1. unfold do_sleep at 1. unfold calling at 1. unfold asleep at 1.
  cbn [fill_state page disk _file_input_count calls].
  rewrite <- !app_assoc. reflexivity.
Qed.

(** In a dynamic pass that runs with a recorded First Name of non-empty
    value, every new field that is filled is followed by the check of the
    recorded element and value. *)
Lemma dynamic_pass_checks_recorded (e : ElementHandle) (v : string)
      (rs rs1 : list FilledField) (fl fl1 : list (string * bool))
      (remaining : nat) (s s1 : RunState World) (w1 w2 : World)
      (raws : list RawField) (l1 l2 : list FormField) (g : FormField) :
  PyStr.truthy v = true ->
  _get_active_frame browser (sleep browser 1%Q (page (fill_state s)))
  = (Returned tt, w1) ->
  analyze_controls browser w1 = (Returned raws, w2) ->
  dynamic_fields_of rs fl (map analyze raws) = l1 ++ g :: l2 ->
  dynamic_fill browser self (Some (e, v)) (rs, fl) l1
               (with_page s w2 [call_sleep 1%Q; call_get_active_frame;
                                call_extract_form_fields])
  = (Returned (rs1, fl1), s1) ->
  marked_filled fl1 (field_key g) = false ->
  _fill_dynamic_fields browser self rs fl (Some (e, v)) (S remaining) s
  = Fx.bind (do_fill_field browser self g)
      (fun result =>
         Fx.bind (verify_first_name browser e v)
           (fun _ =>
              Fx.bind (do_sleep browser (3 # 10)%Q)
                (fun _ =>
                   Fx.bind (dynamic_fill browser self (Some (e, v))
                              (rs1 ++ [result],
                               mark fl1 (field_key g) (success result)) l2)
                     (fun acc =>
                        _fill_dynamic_fields browser self (fst acc) (snd acc)
                                             (Some (e, v)) remaining)))) s1.
Proof.
  intros Hv Hf He Hd E1 Hm.
  rewrite (@fill_dynamic_fields_pass World browser self rs fl (Some (e, v))
             remaining s w1 w2 raws Hf He).
  rewrite Hd.
  assert (Hne : negb (nonempty (l1 ++ g :: l2)) = false)
    by (destruct l1; reflexivity).
  rewrite Hne. rewrite (@bind_cong _ _ _ _ _ _ _ (@dynamic_fill_app (Some (e, v)) l1 (g :: l2) _ _)).
  rewrite bind_assoc. rewrite (@bind_returned _ _ _ _ _ _ _ _ E1). cbn [dynamic_fill].
  rewrite (@dynamic_step_after_first_name World browser self rs1 fl1 g e v Hv Hm).
  rewrite !bind_assoc. apply bind_ext. intros result s2.
  rewrite !bind_assoc. apply bind_ext. intros [] s3.
  rewrite !bind_assoc. apply bind_ext. intros [] s4.
  rewrite bind_ret_l. reflexivity.
Qed.

End FirstNameRun.

(** Refutes C9 as stated: on a page where filling the e-mail control
    empties the first name, the first pass fills the first name with
    "Ada", then the e-mail, and ends with the first name empty: after the
    e-mail fill the live value is neither read nor written again. *)
Lemma first_name_not_restored_after_email :
  let (out, s') :=
    fill_all_fields scripted_browser bare_filler
                    (Some [first_name_field; email_field])
                    (start_of clearing_page acme_disk) in
  (exists r1 r2,
      out = Returned [r1; r2]
      /\ field_type (field r1) = FIRST_NAME /\ success r1 = true
      /\ filled_value r1 = "Ada"
      /\ field_type (field r2) = EMAIL /\ success r2 = true)
  /\ live_get (live_values (page (fill_state s'))) 1 = ""
  /\ existsb (fun c => match c with
                       | call_input_value _ | call_fill _ _ => true
                       | _ => false
                       end) (calls s') = false.
Proof. vm_compute. split; [| split; reflexivity]. eexists _, _. repeat split. Qed.

(** C9, amended.  The filler records the First Name element and value
    when a First Name fill succeeds.  After it has filled, in the first
    pass, a later field of type country, city or state or whose label
    contains "country", "location" or "city", or, in a dynamic pass, any
    new field (the recorded value being non-empty), it reads the live
    value of the First Name element; when the read succeeds and the value
    differs from the recorded one, it focuses the element and fills the
    recorded value again at once; when the value is the same, it does
    nothing more.  After any other first-pass field the live value is not
    read.  The record is made by the step of the first pass that fills a
    First Name with success, from the element and the value of its result,
    a value that is not empty; the first pass carries it over every later
    field that is not a First Name, [fill_all_fields] hands it to
    [_fill_dynamic_fields], and every dynamic pass runs the check with
    it. *)
Theorem first_name_is_restored (World : Type) (browser : Browser World)
        (self : FormFiller) (e : ElementHandle) (v : string) :
  (forall s cur w1,
      el_input_value browser e (page (fill_state s)) = (Returned cur, w1) ->
      (cur = v ->
       verify_first_name browser e v s
       = (Returned tt, with_page s w1 [call_input_value e]))
      /\ (cur <> v ->
          forall w2 w3,
            el_focus browser e w1 = (Returned tt, w2) ->
            el_fill browser e v w2 = (Returned tt, w3) ->
            verify_first_name browser e v s
            = (Returned tt,
               with_page s (sleep browser (1 # 10)%Q w3)
                         [call_input_value e; call_focus e; call_fill e v;
                          call_sleep (1 # 10)%Q])))
  /\ (forall acc f s,
         ps_first_name acc = Some (e, v) ->
         unknown_optional f = false ->
         marked_filled (ps_filled_labels acc) (field_key f) = false ->
         field_type f <> FIRST_NAME ->
         first_pass_step browser self acc f s
         = Fx.bind (if ps_is_first_field acc
                    then do_sleep browser 1%Q else Fx.ret tt)
             (fun _ =>
                Fx.bind (do_fill_field browser self f)
                  (fun result =>
                     Fx.bind (if is_dropdown_field f
                              then verify_first_name browser e v
                              else Fx.ret tt)
                       (fun _ =>
                          Fx.bind (do_sleep browser (3 # 10)%Q)
                            (fun _ =>
                               Fx.ret (mkPassState
                                         (ps_results acc ++ [result])
                                         (mark (ps_filled_labels acc)
                                               (field_key f) (success result))
                                         (Some (e, v)) false))))) s)
  /\ (forall rs fl f,
         PyStr.truthy v = true ->
         marked_filled fl (field_key f) = false ->
         dynamic_step browser self (Some (e, v)) (rs, fl) f
         = Fx.bind (do_fill_field browser self f)
             (fun result =>
                Fx.bind (verify_first_name browser e v)
                  (fun _ =>
                     Fx.bind (do_sleep browser (3 # 10)%Q)
                       (fun _ =>
                          Fx.ret (rs ++ [result],
                                  mark fl (field_key f) (success result))))))
  /\ (forall acc f s r fs,
         field_type f = FIRST_NAME ->
         marked_filled (ps_filled_labels acc) (field_key f) = false ->
         fill_field browser self f
           (fill_state (if ps_is_first_field acc
                        then snd (do_sleep browser 1%Q s) else s))
         = (Returned r, fs) ->
         success r = true ->
         first_pass_step browser self acc f s
         = (Returned (mkPassState
                        (ps_results acc ++ [r])
                        (mark (ps_filled_labels acc) (field_key f) true)
                        (Some (element (field r), filled_value r)) false),
            mkRunState (mkFillState (sleep browser (3 # 10)%Q (page fs))
                                    (disk fs) (_file_input_count fs))
                       (calls (if ps_is_first_field acc
                               then snd (do_sleep browser 1%Q s) else s)
                        ++ [call_fill_field f; call_sleep (3 # 10)%Q]))
         /\ PyStr.truthy (filled_value r) = true)
  /\ (forall acc accf acc1 f g mid post s sf s1 r,
         field_type f = FIRST_NAME ->
         first_pass_step browser self acc f s = (Returned accf, sf) ->
         ps_results accf = ps_results acc ++ [r] ->
         success r = true ->
         (forall m, In m mid -> field_type m <> FIRST_NAME) ->
         first_pass browser self accf mid sf = (Returned acc1, s1) ->
         unknown_optional g = false ->
         marked_filled (ps_filled_labels acc1) (field_key g) = false ->
         field_type g <> FIRST_NAME ->
         first_pass browser self acc (f :: mid ++ g :: post) s
         = Fx.bind (do_fill_field browser self g)
             (fun result =>
                Fx.bind (if is_dropdown_field g
                         then verify_first_name browser (element (field r))
                                                (filled_value r)
                         else Fx.ret tt)
                  (fun _ =>
                     Fx.bind (do_sleep browser (3 # 10)%Q)
                       (fun _ =>
                          first_pass browser self
                            (mkPassState
                               (ps_results acc1 ++ [result])
                               (mark (ps_filled_labels acc1) (field_key g)
                                     (success result))
                               (Some (element (field r), filled_value r))
                               false)
                            post))) s1)
  /\ (forall fields acc acc' s s',
         (forall f, In f fields -> field_type f <> FIRST_NAME) ->
         first_pass browser self acc fields s = (Returned acc', s') ->
         ps_first_name acc' = ps_first_name acc)
  /\ (forall fields s w1,
         _get_active_frame browser (sleep browser 3%Q (page (fill_state s)))
         = (Returned tt, w1) ->
         fill_all_fields browser self (Some fields) s
         = Fx.bind (first_pass browser self (mkPassState [] [] None true) fields)
             (fun acc =>
                _fill_dynamic_fields browser self (ps_results acc)
                                     (ps_filled_labels acc) (ps_first_name acc) 2)
             (mkRunState
                (mkFillState (sleep browser 1%Q w1) (disk (fill_state s)) 0)
                (calls s ++ [call_sleep 3%Q; call_get_active_frame;
                             call_sleep 1%Q])))
  /\ (forall rs rs1 fl fl1 remaining s s1 w1 w2 raws l1 l2 g,
         PyStr.truthy v = true ->
         _get_active_frame browser (sleep browser 1%Q (page (fill_state s)))
         = (Returned tt, w1) ->
         analyze_controls browser w1 = (Returned raws, w2) ->
         dynamic_fields_of rs fl (map analyze raws) = l1 ++ g :: l2 ->
         dynamic_fill browser self (Some (e, v)) (rs, fl) l1
                      (with_page s w2 [call_sleep 1%Q; call_get_active_frame;
                                       call_extract_form_fields])
         = (Returned (rs1, fl1), s1) ->
         marked_filled fl1 (field_key g) = false ->
         _fill_dynamic_fields browser self rs fl (Some (e, v)) (S remaining) s
         = Fx.bind (do_fill_field browser self g)
             (fun result =>
                Fx.bind (verify_first_name browser e v)
                  (fun _ =>
                     Fx.bind (do_sleep browser (3 # 10)%Q)
                       (fun _ =>
                          Fx.bind (dynamic_fill browser self (Some (e, v))
                                     (rs1 ++ [result],
                                      mark fl1 (field_key g) (success result))
                                     l2)
                            (fun acc =>
                               _fill_dynamic_fields browser self (fst acc)
                                 (snd acc) (Some (e, v)) remaining)))) s1).
Proof.
  split; [intros s cur w1; apply verify_first_name_runs |].
  split; [intros acc f s; apply first_pass_step_after_first_name |].
  split; [intros rs fl f; apply dynamic_step_after_first_name |].
  split.
  { intros acc f s r fs Ht Hm Hfill Hok.
    split; [apply first_pass_step_records; assumption |].
    assert (Hknown : field_type f <> UNKNOWN) by (rewrite Ht; discriminate).
    exact (@fill_field_success_value World browser self f _ fs r
             Hknown Hfill Hok). }
  split.
  { intros acc accf acc1 f g mid post s sf s1 r.
    apply first_pass_checks_recorded. }
  split.
  { intros fields acc acc' s s' Hnone E.
    exact (proj1 (@first_pass_keeps_first_name World browser self fields
                    acc acc' s s' Hnone E)). }
  split; [intros fields s w1; apply fill_all_fields_hands_over |].
  intros rs rs1 fl fl1 remaining s s1 w1 w2 raws l1 l2 g.
  apply dynamic_pass_checks_recorded.
Qed.

(** The hypotheses of C9 hold on a run over a page on which filling the
    city or the e-mail control empties the first name: the first pass
    fills the first name with "Ada" and records element 1 with that value;
    after the city fill the check finds the control empty and writes "Ada"
    back; the e-mail control appears at the first re-extraction, and after
    its fill the check writes "Ada" back again. *)
Lemma first_name_is_restored_witness :
  match fst (first_pass scripted_browser bare_filler
               (mkPassState [] [] None true) [first_name_field; city_field]
               (mkRunState (mkFillState restoring_page acme_disk 0)
                           [call_sleep 3%Q; call_get_active_frame;
                            call_sleep 1%Q])) with
  | Returned acc => ps_first_name acc = Some (1, "Ada")
  | Raised => False
  end
  /\ (exists r1 r2 r3 s',
      fill_all_fields scripted_browser bare_filler
                      (Some [first_name_field; city_field])
                      (start_of restoring_page acme_disk)
      = (Returned [r1; r2; r3], s')
      /\ field r1 = first_name_field /\ filled_value r1 = "Ada"
      /\ success r1 = true
      /\ field r2 = city_field /\ success r2 = true
      /\ field r3 = analyze email_raw /\ success r3 = true
      /\ live_get (live_values (page (fill_state s'))) 1 = "Ada"
      /\ calls s'
         = [call_sleep 3%Q; call_get_active_frame; call_sleep 1%Q;
            call_sleep 1%Q; call_fill_field first_name_field;
            call_sleep (3 # 10)%Q;
            call_fill_field city_field;
            call_input_value 1; call_focus 1; call_fill 1 "Ada";
            call_sleep (1 # 10)%Q; call_sleep (3 # 10)%Q;
            call_sleep 1%Q; call_get_active_frame; call_extract_form_fields;
            call_fill_field (analyze email_raw);
            call_input_value 1; call_focus 1; call_fill 1 "Ada";
            call_sleep (1 # 10)%Q; call_sleep (3 # 10)%Q;
            call_sleep 1%Q; call_get_active_frame; call_extract_form_fields])
  /\ (let s := start_of (scripted_fill 3 "London"
                           (scripted_fill 1 "Ada" clearing_page)) acme_disk in
      live_get (live_values (page (fill_state s))) 1 = ""
      /\ exists s',
           verify_first_name scripted_browser 1 "Ada" s = (Returned tt, s')
           /\ live_get (live_values (page (fill_state s'))) 1 = "Ada"
           /\ calls s' = [call_input_value 1; call_focus 1; call_fill 1 "Ada";
                          call_sleep (1 # 10)%Q]).
Proof.
  pose proof (first_name_is_restored scripted_browser bare_filler 1 "Ada")
    as (Hverify & _ & _ & Hrecord & Hfirst & Hkeeps & Hhand & Hdyn).
  pose (s_pre := mkRunState (mkFillState restoring_page acme_disk 0)
                            [call_sleep 3%Q; call_get_active_frame;
                             call_sleep 1%Q]).
  pose (init := mkPassState [] [] None true).
  assert (Hfill : fill_field scripted_browser bare_filler first_name_field
                    (fill_state (snd (do_sleep scripted_browser 1%Q s_pre)))
                  = (Returned (mkFilledField first_name_field "Ada" true false),
                     mkFillState (scripted_fill 1 "Ada" restoring_page)
                                 acme_disk 0))
    by (vm_compute; reflexivity).
  assert (Htype : field_type first_name_field = FIRST_NAME)
    by (vm_compute; reflexivity).
  assert (Hunmarked : marked_filled [] (field_key first_name_field) = false)
    by (vm_compute; reflexivity).
  pose proof (Hrecord init first_name_field s_pre _ _ Htype Hunmarked Hfill
                      eq_refl) as [Estep _].
  assert (Hcity : unknown_optional city_field = false
                  /\ field_type city_field <> FIRST_NAME)
    by (vm_compute; split; [reflexivity | discriminate]).
  destruct Hcity as [Hcity_known Hcity_type].
  split; [| split].
  - change (match fst (first_pass scripted_browser bare_filler init
                         [first_name_field; city_field] s_pre) with
            | Returned acc => ps_first_name acc = Some (1, "Ada")
            | Raised => False
            end).
    cbn [first_pass]. rewrite (@bind_returned _ _ _ _ _ _ _ _ Estep).
    match goal with
    | |- match fst (Fx.bind ?m ?k ?st) with _ => _ end =>
        destruct (Fx.bind m k st) as [[acc1 |] s1] eqn:E; cbn [fst]
    end.
    + assert (Hnone : forall f, In f [city_field] -> field_type f <> FIRST_NAME)
        by (intros f [<- | []]; exact Hcity_type).
      rewrite (Hkeeps [city_field] _ acc1 _ s1 Hnone E). reflexivity.
    + vm_compute in E. discriminate E.
  - rewrite (Hhand [first_name_field; city_field]
                   (start_of restoring_page acme_disk) restoring_page eq_refl).
    change (mkRunState (mkFillState (sleep scripted_browser 1%Q restoring_page)
                                    (disk (fill_state (start_of restoring_page
                                                                acme_disk))) 0)
                       (calls (start_of restoring_page acme_disk)
                        ++ [call_sleep 3%Q; call_get_active_frame;
                            call_sleep 1%Q]))
      with s_pre.
    change (mkPassState [] [] None true) with init.
    pose proof (Hfirst init _ _ first_name_field city_field [] [] s_pre _ _ _
                       Htype Estep eq_refl eq_refl
                       (fun m (H : In m []) => match H with end) eq_refl
                       Hcity_known) as Erun.
    assert (Hcity_unmarked :
              marked_filled (mark [] (field_key first_name_field) true)
                            (field_key city_field) = false)
      by (vm_compute; reflexivity).
    specialize (Erun Hcity_unmarked Hcity_type).
    change (first_name_field :: [] ++ [city_field])
      with [first_name_field; city_field] in Erun.
    unfold Fx.bind at 1. rewrite Erun. clear Erun.
    match goal with
    | |- context [Fx.bind (do_fill_field scripted_browser bare_filler city_field)
                          ?k ?st] =>
        let t := constr:(Fx.bind (do_fill_field scripted_browser bare_filler
                                                city_field) k st) in
        let v := eval vm_compute in t in
        replace t with v by (vm_compute; reflexivity)
    end.
    cbv beta iota. cbn [ps_results ps_filled_labels ps_first_name].
    match goal with
    | |- context [_fill_dynamic_fields _ _ ?rs ?fl _ 2 ?st] =>
        assert (Hnew : dynamic_fields_of rs fl (map analyze [email_raw])
                       = [] ++ analyze email_raw :: [])
          by (vm_compute; reflexivity);
        assert (Hemail : marked_filled fl (field_key (analyze email_raw)) = false)
          by (vm_compute; reflexivity);
        rewrite (Hdyn rs rs fl fl 1 st _ _ _ [email_raw] [] [] (analyze email_raw)
                      eq_refl eq_refl eq_refl Hnew eq_refl Hemail)
    end.
    eexists _, _, _, _. split; [vm_compute; reflexivity |].
    vm_compute. repeat split.
  - cbv zeta. split; [reflexivity |].
    eexists. split.
    + refine (proj2 (Hverify
                       (start_of (scripted_fill 3 "London"
                                    (scripted_fill 1 "Ada" clearing_page))
                                 acme_disk)
                       "" _ eq_refl)
                    _ _ _ eq_refl eq_refl).
      discriminate.
    + split; reflexivity.
Defined.

(* ------------------------------------------------------------------ *)
(** ** More on classification *)
(* ------------------------------------------------------------------ *)

Section SignalOrder.

Variables label name id_attr placeholder : string.

Let score (p : FieldPattern) : Q := pattern_score p label name id_attr placeholder.
Let step := match_step label name id_attr placeholder.

Lemma fold_no_update (l : list FieldPattern) (best : FieldType * Q) :
  (forall q, In q l -> (score q <= snd best)%Q) ->
  fold_left step l best = best.
Proof.
  induction l as [| p l IH]; intros H; [reflexivity |].
  cbn [fold_left].
  assert (E : step best p = best).
  { unfold step, match_step. fold (score p).
    destruct (conf_lt (snd best) (score p)) eqn:C; [| reflexivity].
    apply conf_lt_true in C. exfalso.
    apply (Qlt_not_le _ _ C). apply H. left. reflexivity. }
  rewrite E. apply IH. intros q Hq. apply H. right. exact Hq.
Qed.

(** The first pattern that reaches the highest score wins. *)
Lemma fold_first_max (l1 : list FieldPattern) (pat : FieldPattern)
      (l2 : list FieldPattern) (best : FieldType * Q) :
  (snd best < score pat)%Q ->
  (forall q, In q l1 -> (score q < score pat)%Q) ->
  (forall q, In q l2 -> (score q <= score pat)%Q) ->
  fold_left step (l1 ++ pat :: l2) best = (pat_field_type pat, score pat).
Proof.
  revert best. induction l1 as [| p l1 IH]; intros best Hb H1 H2.
  - cbn [app fold_left].
    assert (E : step best pat = (pat_field_type pat, score pat)).
    { unfold step, match_step. fold (score pat).
      destruct (conf_lt (snd best) (score pat)) eqn:C; [reflexivity |].
      apply conf_lt_false in C. exfalso. exact (Qlt_not_le _ _ Hb C). }
    rewrite E. apply fold_no_update. exact H2.
  - cbn [app fold_left]. apply IH.
    + unfold step, match_step. fold (score p).
      destruct (conf_lt (snd best) (score p)); cbn [snd];
        [apply H1; left; reflexivity | exact Hb].
    + intros q Hq. apply H1. right. exact Hq.
    + exact H2.
Qed.

Lemma score_name_hit (p : FieldPattern) :
  label_hit p label = false -> name_hit p name id_attr = true ->
  score p = conf_name.
Proof.
  unfold score, pattern_score. intros -> ->.
  destruct (placeholder_hit p placeholder); reflexivity.
Qed.

Lemma score_placeholder_hit (p : FieldPattern) :
  label_hit p label = false -> name_hit p name id_attr = false ->
  placeholder_hit p placeholder = true ->
  score p = conf_placeholder.
Proof. unfold score, pattern_score. intros -> -> ->. reflexivity. Qed.

Lemma score_without_label (p : FieldPattern) :
  label_hit p label = false -> (score p <= conf_name)%Q.
Proof.
  unfold score, pattern_score. intros ->.
  destruct (name_hit p name id_attr), (placeholder_hit p placeholder);
    cbn; discriminate.
Qed.

Lemma score_without_label_name (p : FieldPattern) :
  label_hit p label = false -> name_hit p name id_attr = false ->
  (score p <= conf_placeholder)%Q.
Proof.
  unfold score, pattern_score. intros -> ->.
  destruct (placeholder_hit p placeholder); cbn; discriminate.
Qed.

Lemma score_at_most_label (p : FieldPattern) : (score p <= conf_label)%Q.
Proof.
  destruct (score_values label name id_attr placeholder p) as [E | [E | [E | E]]];
    unfold score; rewrite E; cbn; discriminate.
Qed.

End SignalOrder.

(** A label match outranks a name or id match, which outranks a
    placeholder match: the result is the type of the first pattern of the
    table that fires on the label, with confidence 0.9, whatever fires on
    the other attributes; failing any label match, the first pattern that
    fires on the name or the id, with 0.8; failing that too, the first
    that fires on the placeholder, with 0.7. *)
Theorem match_field_type_signal_order
        (label name id_attr placeholder aria_label : string)
        (l1 : list FieldPattern) (pat : FieldPattern) (l2 : list FieldPattern) :
  FIELD_PATTERNS = l1 ++ pat :: l2 ->
  let result := _match_field_type label name id_attr placeholder aria_label in
  (label_hit pat label = true ->
   (forall q, In q l1 -> label_hit q label = false) ->
   result = (pat_field_type pat, conf_label))
  /\ ((forall q, In q FIELD_PATTERNS -> label_hit q label = false) ->
      name_hit pat name id_attr = true ->
      (forall q, In q l1 -> name_hit q name id_attr = false) ->
      result = (pat_field_type pat, conf_name))
  /\ ((forall q, In q FIELD_PATTERNS ->
                 label_hit q label = false /\ name_hit q name id_attr = false) ->
      placeholder_hit pat placeholder = true ->
      (forall q, In q l1 -> placeholder_hit q placeholder = false) ->
      result = (pat_field_type pat, conf_placeholder)).
Proof.
  intros Hsplit. cbv zeta. unfold _match_field_type, match_field_type_in.
  assert (Hin : forall q, In q l1 \/ q = pat \/ In q l2 -> In q FIELD_PATTERNS).
  { intros q H. rewrite Hsplit. apply in_or_app.
    destruct H as [H | [-> | H]]; [left; exact H | right; left; reflexivity
                                  | right; right; exact H]. }
  split; [| split].
  - intros Hhit Hbefore. rewrite Hsplit.
    rewrite <- (score_label_hit label name id_attr placeholder pat Hhit).
    apply fold_first_max.
    + rewrite (score_label_hit _ _ _ _ _ Hhit). reflexivity.
    + intros q Hq. rewrite (score_label_hit _ _ _ _ _ Hhit).
      eapply Qle_lt_trans; [apply score_without_label, Hbefore, Hq |].
      reflexivity.
    + intros q Hq. rewrite (score_label_hit _ _ _ _ _ Hhit).
      apply score_at_most_label.
  - intros Hnolabel Hhit Hbefore.
    assert (Hs : pattern_score pat label name id_attr placeholder = conf_name).
    { apply score_name_hit; [apply Hnolabel, Hin; auto | exact Hhit]. }
    rewrite Hsplit, <- Hs. apply fold_first_max.
    + rewrite Hs. reflexivity.
    + intros q Hq. rewrite Hs.
      eapply Qle_lt_trans;
        [apply score_without_label_name;
         [apply Hnolabel, Hin; auto | apply Hbefore, Hq] |].
      reflexivity.
    + intros q Hq. rewrite Hs. apply score_without_label.
      apply Hnolabel, Hin. auto.
  - intros Hnone Hhit Hbefore.
    assert (Hs : pattern_score pat label name id_attr placeholder
                 = conf_placeholder).
    { apply score_placeholder_hit; try apply Hnone, Hin; auto. }
    rewrite Hsplit, <- Hs. apply fold_first_max.
    + rewrite Hs. reflexivity.
    + intros q Hq. rewrite Hs.
      assert (Hz : pattern_score q label name id_attr placeholder = conf_none).
      { apply score_no_hit. unfold any_hit.
        destruct (Hnone q (Hin q (or_introl Hq))) as [-> ->].
        rewrite (Hbefore q Hq). reflexivity. }
      rewrite Hz. reflexivity.
    + intros q Hq. rewrite Hs. apply score_without_label_name;
        apply Hnone, Hin; auto.
Qed.

(** A control labelled "Full Name" whose name attribute says "email" is
    classified by its label; a control without label whose id says
    "zipcode" is classified by the id. *)
Lemma match_field_type_signal_order_witness :
  _match_field_type "Full Name" "email" "" "" "" = (FULL_NAME, conf_label)
  /\ _match_field_type "" "" "zipcode" "e.g. 94105" "" = (ZIP_CODE, conf_name).
Proof.
  split.
  - refine (proj1 (match_field_type_signal_order "Full Name" "email" "" "" ""
                     (firstn 2 FIELD_PATTERNS) (nth 2 FIELD_PATTERNS (mkFieldPattern UNKNOWN [] [] []))
                     (skipn 3 FIELD_PATTERNS) eq_refl) _ _).
    + vm_compute. reflexivity.
    + intros q [<- | [<- | []]]; vm_compute; reflexivity.
  - refine (proj1 (proj2 (match_field_type_signal_order "" "" "zipcode" "e.g. 94105" ""
                     (firstn 11 FIELD_PATTERNS) (nth 11 FIELD_PATTERNS (mkFieldPattern UNKNOWN [] [] []))
                     (skipn 12 FIELD_PATTERNS) eq_refl)) _ _ _).
    + intros q Hq. cbn [FIELD_PATTERNS In] in Hq.
      repeat (destruct Hq as [<- | Hq]; [vm_compute; reflexivity |]).
      destruct Hq.
    + vm_compute. reflexivity.
    + intros q Hq. cbn [FIELD_PATTERNS firstn In] in Hq.
      repeat (destruct Hq as [<- | Hq]; [vm_compute; reflexivity |]).
      destruct Hq.
Defined.

(** The types that have a pattern in the table. *)
Lemma unknown_not_in_table : ~ In UNKNOWN (map pat_field_type FIELD_PATTERNS).
Proof. cbn. intros H. repeat (destruct H as [H | H]; [discriminate |]). exact H. Qed.

(** The classifier returns [UNKNOWN] exactly with confidence 0; otherwise
    the confidence is 0.7, 0.8 or 0.9 and the type is one that has a
    pattern in the table: website, willing_to_relocate, field_of_study,
    graduation_year, salary_range_min, salary_range_max,
    available_immediately, referral and custom_question are never
    returned. *)
Theorem match_field_type_range_of_results
        (label name id_attr placeholder aria_label : string) :
  let result := _match_field_type label name id_attr placeholder aria_label in
  (fst result = UNKNOWN <-> snd result = conf_none)
  /\ (snd result = conf_none \/ snd result = conf_placeholder
      \/ snd result = conf_name \/ snd result = conf_label)
  /\ (fst result = UNKNOWN \/ In (fst result) (map pat_field_type FIELD_PATTERNS))
  /\ ~ In (fst result)
          [ WEBSITE; WILLING_TO_RELOCATE; FIELD_OF_STUDY; GRADUATION_YEAR;
            SALARY_RANGE_MIN; SALARY_RANGE_MAX; AVAILABLE_IMMEDIATELY;
            REFERRAL; CUSTOM_QUESTION ].
Proof.
  cbv zeta. unfold _match_field_type, match_field_type_in.
  pose proof (fold_best_inv label name id_attr placeholder FIELD_PATTERNS
                (UNKNOWN, conf_none)) as H.
  cbv zeta in H. destruct H as (_ & _ & Hwho).
  assert (Hcase :
    fold_left (match_step label name id_attr placeholder) FIELD_PATTERNS
              (UNKNOWN, conf_none) = (UNKNOWN, conf_none)
    \/ exists p, In p FIELD_PATTERNS
         /\ fold_left (match_step label name id_attr placeholder) FIELD_PATTERNS
                      (UNKNOWN, conf_none)
            = (pat_field_type p, pattern_score p label name id_attr placeholder)
         /\ (conf_none < pattern_score p label name id_attr placeholder)%Q).
  { destruct Hwho as [E | (l1 & p & l2 & Hsplit & E & _ & Hlt)]; [left; exact E |].
    right. exists p. split; [rewrite Hsplit; apply in_or_app; right; left; reflexivity |].
    split; [exact E | exact Hlt]. }
  clear Hwho.
  destruct Hcase as [E | (p & Hin & E & Hpos)]; rewrite E; cbn [fst snd].
  - split; [tauto |]. split; [auto |]. split; [auto |].
    cbn. intros H. repeat (destruct H as [H | H]; [discriminate |]). exact H.
  - assert (Ht : In (pat_field_type p) (map pat_field_type FIELD_PATTERNS))
      by (apply in_map; exact Hin).
    assert (Hnz : pattern_score p label name id_attr placeholder <> conf_none).
    { intros Z. rewrite Z in Hpos. discriminate Hpos. }
    split.
    { split; intros Hu; [| contradiction].
      exfalso. apply unknown_not_in_table. rewrite <- Hu. exact Ht. }
    split; [apply score_values |].
    split; [right; exact Ht |].
    intros Hbad. revert Ht. cbn in Hbad |- *.
    repeat (destruct Hbad as [<- | Hbad];
            [intros Ht; repeat (destruct Ht as [Ht | Ht]; [discriminate |]); exact Ht |]).
    destruct Hbad.
Qed.

(* ------------------------------------------------------------------ *)
(** ** The custom-answer store *)
(* ------------------------------------------------------------------ *)

Lemma promote_loop_spec (pending promoted remaining : list Item) :
  promote_loop pending = Some (promoted, remaining) ->
  remaining = filter (fun item => negb (has_answer item)) pending
  /\ List.length promoted = List.length (filter has_answer pending)
  /\ (forall p, In p promoted ->
        exists item q, In item pending /\ has_answer item = true
                       /\ item_question item = Some q
                       /\ p = answered_item q item)
  /\ (forall item q, In item pending -> has_answer item = true ->
        item_question item = Some q -> In (answered_item q item) promoted).
Proof.
  revert promoted remaining.
  induction pending as [| item rest IH]; intros promoted remaining; cbn.
  - intros E. injection E as <- <-. repeat split; auto; intros; contradiction.
  - destruct (has_answer item) eqn:Ha; cbn.
    + destruct (item_question item) as [q |] eqn:Eq; [| discriminate].
      destruct (promote_loop rest) as [[pr rem] |]; [| discriminate].
      intros E. injection E as <- <-.
      destruct (IH pr rem eq_refl) as (Hrem & Hlen & Hfrom & Hto).
      split; [exact Hrem |]. split; [cbn; rewrite Hlen; reflexivity |].
      split.
      * intros p [<- | Hp].
        -- exists item, q. auto.
        -- destruct (Hfrom p Hp) as (i & q' & Hi & H1 & H2 & H3).
           exists i, q'. auto.
      * intros i q' [<- | Hi] H1 H2.
        -- left. congruence.
        -- right. eapply Hto; eauto.
    + destruct (promote_loop rest) as [[pr rem] |]; [| discriminate].
      intros E. injection E as <- <-.
      destruct (IH pr rem eq_refl) as (Hrem & Hlen & Hfrom & Hto).
      split; [rewrite Hrem; reflexivity |]. split; [exact Hlen |].
      split.
      * intros p Hp. destruct (Hfrom p Hp) as (i & q' & Hi & H1 & H2 & H3).
        exists i, q'. auto.
      * intros i q' [<- | Hi] H1 H2; [congruence |]. eapply Hto; eauto.
Qed.

Lemma promote_loop_total (pending : list Item) :
  (forall item, In item pending -> has_answer item = true ->
                item_question item <> None) ->
  exists promoted remaining, promote_loop pending = Some (promoted, remaining).
Proof.
  induction pending as [| item rest IH]; intros H; cbn.
  - eexists _, _. reflexivity.
  - destruct IH as (pr & rem & E); [intros i Hi; apply H; right; exact Hi |].
    rewrite E. destruct (has_answer item) eqn:Ha.
    + destruct (item_question item) eqn:Eq.
      * eexists _, _. reflexivity.
      * exfalso. apply (H item (or_introl eq_refl) Ha). exact Eq.
    + eexists _, _. reflexivity.
Qed.

Lemma promote_loop_nothing (pending : list Item) :
  (forall item, In item pending -> has_answer item = false) ->
  promote_loop pending = Some ([], pending).
Proof.
  induction pending as [| item rest IH]; intros H; cbn; [reflexivity |].
  rewrite (H item (or_introl eq_refl)), IH; [reflexivity |].
  intros i Hi. apply H. right. exact Hi.
Qed.

(** [promote_pending_to_answered] moves exactly the pending entries that
    carry an answer: on a profile file that loads, has both lists and can
    be written, and in which every answered pending entry has a question,
    it returns the number of pending entries with an answer; when that
    number is not zero, the new pending list is the old one without those
    entries, in the same order, the answered list is the old one followed
    by one entry per promoted question with its answer and the keywords
    extracted from the question, and the rest of the file is unchanged;
    a second promotion then returns 0 and changes nothing. *)
Theorem promote_moves_answered_entries (d : Disk) (data : ProfileData)
        (answered pending : list Item) :
  profile_file d = Some data ->
  load_raises d = false ->
  dump_raises d = false ->
  custom_answers data = Some (mkCustomData (Some answered) (Some pending)) ->
  (forall item, In item pending -> has_answer item = true ->
                item_question item <> None) ->
  exists promoted d',
    promote_pending_to_answered d
    = (Returned (List.length (filter has_answer pending)), d')
    /\ List.length promoted = List.length (filter has_answer pending)
    /\ (forall item q, In item pending -> has_answer item = true ->
          item_question item = Some q -> In (answered_item q item) promoted)
    /\ (filter has_answer pending = [] -> d' = d)
    /\ (filter has_answer pending <> [] ->
        profile_file d'
        = Some (mkProfileData
                  (Some (mkCustomData
                           (Some (answered ++ promoted))
                           (Some (filter (fun item => negb (has_answer item))
                                         pending))))
                  (other_sections data)))
    /\ promote_pending_to_answered d' = (Returned 0, d').
Proof.
  intros Hfile Hload Hdump Hca Hq.
  destruct (promote_loop_total pending Hq) as (promoted & remaining & El).
  destruct (promote_loop_spec pending El) as (Hrem & Hlen & _ & Hto).
  assert (Hnone : forall item,
             In item (filter (fun i => negb (has_answer i)) pending) ->
             has_answer item = false).
  { intros item Hi. apply filter_In in Hi. destruct Hi as [_ Hi].
    apply negb_true_iff. exact Hi. }
  unfold promote_pending_to_answered at 1. rewrite Hfile, Hload, Hca, El.
  destruct promoted as [| p promoted].
  - exists [], d. cbn [List.length] in *. rewrite <- Hlen.
    split; [reflexivity |]. split; [reflexivity |].
    split; [exact Hto |]. split; [reflexivity |].
    split.
    + intros Hne. exfalso. apply Hne.
      destruct (filter has_answer pending); [reflexivity | discriminate Hlen].
    + unfold promote_pending_to_answered. rewrite Hfile, Hload, Hca, El.
      reflexivity.
  - rewrite Hdump, Hlen.
    eexists (p :: promoted), _. split; [reflexivity |].
    split; [exact Hlen |]. split; [exact Hto |].
    split.
    + intros E. rewrite E in Hlen. discriminate Hlen.
    + split.
      * intros _. cbn [set_profile_file profile_file]. rewrite Hrem. reflexivity.
      * unfold promote_pending_to_answered.
        cbn [set_profile_file profile_file load_raises custom_answers].
        rewrite Hload, Hrem, (promote_loop_nothing _ Hnone). reflexivity.
Qed.

(** The hypotheses hold for a file in which one of two pending questions
    has been answered. *)
Lemma promote_moves_answered_entries_witness :
  exists d',
    promote_pending_to_answered answered_pending_disk = (Returned 1, d')
    /\ promote_pending_to_answered d' = (Returned 0, d').
Proof.
  destruct (promote_moves_answered_entries
              answered_pending_disk eq_refl eq_refl eq_refl eq_refl)
    as (promoted & d' & E & _ & _ & _ & _ & E2).
  - intros item [<- | [<- | []]]; cbn; discriminate.
  - exists d'. split; [exact E | exact E2].
Defined.

(** [promote_pending_to_answered] does nothing and returns 0 when the
    profile file is missing or unreadable, and also when its custom
    answers have no answered list or no pending list, even if pending
    entries carry answers. *)
Theorem promote_needs_both_lists (d : Disk) :
  (profile_file d = None \/ load_raises d = true
   \/ (exists data, profile_file d = Some data
                    /\ (custom_answers data = None
                        \/ exists cd, custom_answers data = Some cd
                             /\ (cd_answered cd = None \/ cd_pending cd = None)))) ->
  promote_pending_to_answered d = (Returned 0, d).
Proof.
  unfold promote_pending_to_answered.
  intros [H | [H | (data & Hf & [H | (cd & Hc & H)])]].
  - rewrite H. reflexivity.
  - rewrite H. destruct (profile_file d); reflexivity.
  - rewrite Hf, H. destruct (load_raises d); reflexivity.
  - rewrite Hf, Hc. destruct (load_raises d); [reflexivity |].
    destruct cd as [a p]. cbn in H.
    destruct H as [-> | ->]; [reflexivity | destruct a; reflexivity].
Qed.

(** The hypothesis holds for a file whose custom answers have a pending
    list with an answered question and no answered list. *)
Lemma promote_needs_both_lists_witness :
  let d := mkDisk
             (Some (mkProfileData
                      (Some (mkCustomData
                               None
                               (Some [ mkItem (Some "Notice period?")
                                              (Some "1 month") None None None None ])))
                      ""))
             false false None in
  promote_pending_to_answered d = (Returned 0, d).
Proof.
  cbv zeta. apply promote_needs_both_lists.
  right. right. eexists. split; [reflexivity |].
  right. eexists. split; [reflexivity |]. left. reflexivity.
Defined.
